(** * Slicer modules: EasySegmentation and ImplantVideo

    A shallow embedding of the two scripted 3D Slicer modules of the
    repository,

      - [MangoExtensionV562/EasySegmentation/EasySegmentation.py]
      - [ImplantVideoExtension/ImplantVideo/ImplantVideo.py]

    Both are Qt widgets whose methods are slots.  A method is embedded as a
    computation over an explicit state (the attributes of [self], the Qt
    widgets it owns, and the host: file system and MRML scene) that either
    returns or raises, keeping in both cases the state reached so far.

    The file is organised as follows.
      - [Py]: the Python built-ins the modules use ([str.find], slicing,
        [in], [re.sub], [os.path], [fnmatch], [glob], [sorted], indexing);
      - [Eff]: the state-and-exception monad of the handlers;
      - [Qt]: the combo box, with the signal it emits;
      - [Host]: the file system and the MRML scene;
      - [ImplantVideo], [EasySegmentation]: the two widgets;
      - the lemmas and theorems about them. *)

From Stdlib Require Import ZArith QArith Ascii.
From stdpp Require Import base decidable option list sorting strings gmap sets functions.

Local Open Scope Z_scope.

(* ===================================================================== *)
(** * Python built-ins *)
(* ===================================================================== *)

Module Py.

(** [len(s)] *)
Definition len (s : string) : Z := Z.of_nat (String.length s).

(** [s.startswith(p)] *)
Fixpoint startswith (s p : string) {struct p} : bool :=
  match p, s with
  | EmptyString, _ => true
  | String _ _, EmptyString => false
  | String a p', String b s' => if decide (a = b) then startswith s' p' else false
  end.

(** The first [n] characters of [s], and [s] without them. *)
Fixpoint take (n : nat) (s : string) : string :=
  match n, s with
  | O, _ => EmptyString
  | S _, EmptyString => EmptyString
  | S n', String c s' => String c (take n' s')
  end.

Fixpoint drop (n : nat) (s : string) : string :=
  match n, s with
  | O, _ => s
  | S _, EmptyString => EmptyString
  | S n', String _ s' => drop n' s'
  end.

(** A slice bound as Python reads it: a negative bound counts from the end,
    and the result is clipped to [0 .. len s]. *)
Definition clip (s : string) (k : Z) : nat :=
  Z.to_nat (Z.min (len s) (Z.max 0 (if k <? 0 then len s + k else k))).

(** [s[:k]] and [s[k:]] *)
Definition slice_to (s : string) (k : Z) : string := take (clip s k) s.
Definition slice_from (s : string) (k : Z) : string := drop (clip s k) s.

(** [s.endswith(p)] *)
Definition endswith (s p : string) : bool :=
  bool_decide (slice_from s (len s - len p) = p) && bool_decide (len p <= len s).

(** The lowest index at which [sub] occurs in [s]. *)
Fixpoint find_nat (sub s : string) : option nat :=
  if startswith s sub then Some O
  else match s with
       | EmptyString => None
       | String _ s' => S <$> find_nat sub s'
       end.

(** The highest index at which [sub] occurs in [s]. *)
Fixpoint rfind_nat (sub s : string) : option nat :=
  match s with
  | EmptyString => if startswith s sub then Some O else None
  | String _ s' =>
      match rfind_nat sub s' with
      | Some i => Some (S i)
      | None => if startswith s sub then Some O else None
      end
  end.

(** [s.find(sub)] and [s.rfind(sub)]: the index, or [-1]. *)
Definition find (s sub : string) : Z :=
  match find_nat sub s with Some i => Z.of_nat i | None => -1 end.

Definition rfind (s sub : string) : Z :=
  match rfind_nat sub s with Some i => Z.of_nat i | None => -1 end.

(** [sub in s] *)
Definition contains (sub s : string) : bool :=
  match find_nat sub s with Some _ => true | None => false end.

(** [re.sub(r"[_-]+", '_', s)]: every maximal run of underscores and hyphens
    becomes one underscore.  [in_run] tells that the previous character
    belonged to a run, whose underscore is already written. *)
Definition is_sep (c : ascii) : bool :=
  bool_decide (c = "_"%char) || bool_decide (c = "-"%char).

Fixpoint sub_runs (in_run : bool) (s : string) : string :=
  match s with
  | EmptyString => EmptyString
  | String c s' =>
      if is_sep c
      then (if in_run then sub_runs true s' else String "_" (sub_runs true s'))
      else String c (sub_runs false s')
  end.

Definition re_sub_runs (s : string) : string := sub_runs false s.

(** [os.path.basename(p)] of [posixpath]:
    [i = p.rfind('/') + 1; return p[i:]]. *)
Definition basename (p : string) : string := slice_from p (rfind p "/" + 1).

(** [os.path.dirname(p)] of [posixpath], up to and including the last
    separator (the prefix [glob] puts back before every name it finds). *)
Definition dirprefix (p : string) : string := slice_to p (rfind p "/" + 1).

(** [os.path.join(a, b)] of [posixpath]. *)
Definition join (a b : string) : string :=
  if startswith b "/" then b
  else if bool_decide (a = "") || endswith a "/" then a +:+ b
  else a +:+ "/" +:+ b.

(** [fnmatch.fnmatchcase(name, pat)] for patterns made of literal characters,
    [*] and [?] (the patterns of the two modules have no bracket). *)
Fixpoint fnmatch (pat name : string) {struct pat} : bool :=
  match pat with
  | EmptyString => bool_decide (name = "")
  | String c pat' =>
      if bool_decide (c = "*"%char) then
        (fix star (n : string) : bool :=
           fnmatch pat' n ||
           match n with
           | EmptyString => false
           | String _ n' => star n'
           end) name
      else
        match name with
        | EmptyString => false
        | String d name' =>
            (bool_decide (c = "?"%char) || bool_decide (c = d)) && fnmatch pat' name'
        end
  end.

(** [glob.has_magic(s)]: one of the characters [*], [?] and [[] occurs in
    [s]. *)
Definition has_magic (s : string) : bool :=
  contains "*" s || contains "?" s || contains "[" s.

(** [sorted(l)] on strings: Python compares strings by code point, which is
    the order of [String.le]. *)
Definition sorted (l : list string) : list string := merge_sort String.le l.

(** [l[i]]: a negative index counts from the end; out of range is an
    [IndexError], here [None]. *)
Definition index {A} (l : list A) (i : Z) : option A :=
  if 0 <=? i then l !! Z.to_nat i
  else if - Z.of_nat (length l) <=? i then l !! Z.to_nat (Z.of_nat (length l) + i)
  else None.

(** ["%05d" % n] for a natural number: decimal, padded with zeros to five
    digits. *)
Definition digit (n : nat) : ascii :=
  Ascii.ascii_of_nat (48 + n mod 10).

Fixpoint digits (fuel n : nat) (acc : string) : string :=
  match fuel with
  | O => acc
  | S fuel' =>
      let acc' := String (digit n) acc in
      if (n <? 10)%nat then acc' else digits fuel' (n / 10) acc'
  end.

Definition str_of_nat (n : nat) : string := digits (S n) n "".

Fixpoint zeros (n : nat) : string :=
  match n with O => "" | S n' => String "0" (zeros n') end.

Definition format_05d (n : nat) : string :=
  let d := str_of_nat n in zeros (5 - String.length d) +:+ d.

(** [fmt % n] for a format whose conversions are [%05d] and [%%].  The
    format is read character by character; [conv] tells how much of a
    conversion was read, and [arg] holds the number until a [%05d] takes
    it.  [None] is a [TypeError]: a second [%05d], none at all, or an
    unfinished conversion (other conversions are not modelled and count as
    errors too). *)
Inductive conversion : Type := Text | Pct | Pct0 | Pct05.

Fixpoint percent_go (conv : conversion) (fmt : string) (arg : option string)
  : option string :=
  match fmt with
  | EmptyString =>
      match conv, arg with
      | Text, None => Some EmptyString
      | _, _ => None
      end
  | String c rest =>
      match conv with
      | Text =>
          if bool_decide (c = "%"%char) then percent_go Pct rest arg
          else String c <$> percent_go Text rest arg
      | Pct =>
          if bool_decide (c = "%"%char) then String "%" <$> percent_go Text rest arg
          else if bool_decide (c = "0"%char) then percent_go Pct0 rest arg
          else None
      | Pct0 =>
          if bool_decide (c = "5"%char) then percent_go Pct05 rest arg else None
      | Pct05 =>
          if bool_decide (c = "d"%char) then
            match arg with
            | Some a => String.append a <$> percent_go Text rest None
            | None => None
            end
          else None
      end
  end.

Definition percent (fmt : string) (n : nat) : option string :=
  percent_go Text fmt (Some (format_05d n)).

(** ** Notions used to state what the built-ins do *)

(** [a] occurs in [b]. *)
Definition substring (a b : string) : Prop := exists pre post, b = pre +:+ a +:+ post.

(** A name without path separator. *)
Definition slashless (n : string) : Prop := contains "/" n = false.

(** A directory prefix: empty, or ending with the separator. *)
Definition dir_prefix (d : string) : Prop := d = "" \/ exists d', d = d' +:+ "/".

(** Text without wildcard. *)
Definition literal_char (c : ascii) : bool :=
  negb (bool_decide (c = "*"%char)) && negb (bool_decide (c = "?"%char)).

Fixpoint literal (s : string) : bool :=
  match s with
  | EmptyString => true
  | String c s' => literal_char c && literal s'
  end.

(** [ext] occurs in [stem ++ ext] at its end only. *)
Definition only_suffix (ext stem : string) : Prop :=
  forall pre post, stem +:+ ext = pre +:+ ext +:+ post -> pre = stem.

End Py.

(* ===================================================================== *)
(** * Floating point numbers *)
(* ===================================================================== *)

(** The numbers of [numpy.float32] and of Python's [float], as rationals:
    a number is rounded to the nearest one with a significand of 24 (or
    53) bits, ties to the even significand.  Numbers beyond the largest
    finite one are not modelled. *)
Module Numpy.

(** [a / b >= 2 ^ e], for positive [a] and [b]. *)
Definition at_least_pow2 (a b e : Z) : bool :=
  if 0 <=? e then b * 2 ^ e <=? a else b <=? a * 2 ^ (- e).

(** The exponent of [a / b]: the greatest [e] with [2 ^ e <= a / b]. *)
Definition exponent (a b : Z) : Z :=
  let e := Z.log2 a - Z.log2 b in
  if at_least_pow2 a b e then e else e - 1.

(** [n / d] rounded to the nearest integer, ties to even. *)
Definition round_half_even (n d : Z) : Z :=
  let q := n / d in
  let r := n mod d in
  if 2 * r <? d then q
  else if d <? 2 * r then q + 1
  else if Z.even q then q else q + 1.

(** [m * 2 ^ t] *)
Definition scaled (m t : Z) : Q :=
  if 0 <=? t then inject_Z (m * 2 ^ t) else Qmake m (Z.to_pos (2 ^ (- t))).

Definition round_binary (precision emin : Z) (q : Q) : Q :=
  let a := Z.abs (Qnum q) in
  let b := Z.pos (Qden q) in
  if a =? 0 then 0%Q
  else
    let e := Z.max (exponent a b) emin in
    let t := e - (precision - 1) in
    let m := if 0 <=? t then round_half_even a (b * 2 ^ t)
             else round_half_even (a * 2 ^ (- t)) b in
    scaled (Z.sgn (Qnum q) * m) t.

Definition float32 : Q -> Q := round_binary 24 (-126).
Definition float64 : Q -> Q := round_binary 53 (-1022).

End Numpy.

(* ===================================================================== *)
(** * Computations of the handlers *)
(* ===================================================================== *)

(** A method of a widget reads and writes a state and may raise.  An
    exception keeps the writes made before it. *)
Module Eff.

Inductive outcome (A : Type) : Type :=
| Ret (a : A)
| Raise (exc : string).
Arguments Ret {A} a.
Arguments Raise {A} exc.

Definition M (S A : Type) : Type := S -> outcome A * S.

Definition ret {S A} (a : A) : M S A := fun s => (Ret a, s).

Definition bind {S A B} (m : M S A) (k : A -> M S B) : M S B :=
  fun s =>
    match m s with
    | (Ret a, s') => k a s'
    | (Raise e, s') => (Raise e, s')
    end.

Definition raise {S A} (exc : string) : M S A := fun s => (Raise exc, s).

Definition gets {S A} (f : S -> A) : M S A := fun s => (Ret (f s), s).

Definition modify {S} (f : S -> S) : M S unit := fun s => (Ret tt, f s).

(** A value that Python may fail to produce: [exc] is raised when it is
    missing. *)
Definition orelse {S A} (o : option A) (exc : string) : M S A :=
  match o with
  | Some a => ret a
  | None => raise exc
  end.

(** [for x in l: body(x)] *)
Fixpoint for_each {S A} (l : list A) (body : A -> M S unit) : M S unit :=
  match l with
  | [] => ret tt
  | x :: l' => bind (body x) (fun _ => for_each l' body)
  end.

(** A slot that Qt calls for a signal: an exception of the slot is reported
    on the console and does not reach the code that emitted the signal. *)
Definition slot {S} (m : M S unit) : M S unit := fun s => (Ret tt, snd (m s)).

(** The state a computation ends in, and whether it returned. *)
Definition exec {S A} (m : M S A) (s : S) : S := snd (m s).

Definition returns {S A} (m : M S A) (s : S) : Prop :=
  match fst (m s) with
  | Ret _ => True
  | Raise _ => False
  end.

(** A computation keeps a relation between the state it starts in and the
    state it ends in, whether it returns or raises. *)
Definition preserves {S A} (R : relation S) (m : M S A) : Prop :=
  forall s, R s (exec m s).

End Eff.

Notation "x <- m ;; k" := (Eff.bind m (fun x => k))
  (at level 100, m at next level, right associativity).
Notation "m ;;; k" := (Eff.bind m (fun _ => k))
  (at level 100, right associativity).

(* ===================================================================== *)
(** * Qt *)
(* ===================================================================== *)

Module Qt.

(** A [QComboBox]: its entries and the current index ([-1] when there is
    none). *)
Record QComboBox : Type := {
  items : list string;
  currentIndex : Z;
}.

Definition empty : QComboBox := {| items := []; currentIndex := -1 |}.

Definition count (c : QComboBox) : Z := Z.of_nat (length (items c)).

(** Each operation returns the box and, when the current index changed, the
    argument of the [currentIndexChanged] signal it emits. *)

(** [addItem(text)]: the entry is appended; an empty box makes it the
    current one. *)
Definition addItem (c : QComboBox) (text : string) : QComboBox * option Z :=
  match items c with
  | [] => ({| items := [text]; currentIndex := 0 |}, Some 0)
  | _ :: _ => ({| items := items c ++ [text]; currentIndex := currentIndex c |}, None)
  end.

(** [setCurrentIndex(i)]: an index outside the entries clears the
    selection. *)
Definition setCurrentIndex (c : QComboBox) (i : Z) : QComboBox * option Z :=
  let i' := if (0 <=? i) && (i <? count c) then i else -1 in
  if bool_decide (i' = currentIndex c) then (c, None)
  else ({| items := items c; currentIndex := i' |}, Some i').

(** [clear()] *)
Definition clear (c : QComboBox) : QComboBox * option Z :=
  if bool_decide (currentIndex c = -1) then ({| items := []; currentIndex := -1 |}, None)
  else ({| items := []; currentIndex := -1 |}, Some (-1)).

End Qt.

(* ===================================================================== *)
(** * The host: file system and MRML scene *)
(* ===================================================================== *)

(** What the modules ask of 3D Slicer, of the operating system and of the
    video encoder is not code of the repository.  It is modelled here by its
    effect on a file system (paths with their content, and directories) and
    on the MRML scene (node objects, and which of them the scene holds).
    Calls that only drive the display are recorded in a trace. *)
Module Host.

(** A segment: its name and its binary labelmap, one entry per voxel of the
    reference volume (no entry: an empty segment). *)
Record segment : Type := {
  segmentName : string;
  labelmap : list Z;
}.

(** What a file holds. *)
Inductive content : Type :=
| Volume (voxels : list Q)
| Segmentation (segments : list segment)
| Labelmap (labels : list Z)
| Image
| Video (frames : list string) (fps : Z).

(** MRML nodes.  A node is referred to by its position among the node
    objects created so far. *)
Inductive node : Type :=
| VolumeNode (name : string) (voxels : list Q)
| SegmentationNode (name : string) (referenceGeometry : option nat) (segments : list segment)
| LabelMapVolumeNode (labels : list Z) (colorNode : option nat)
| ColorNode
| VolumeRenderingDisplayNode (volume : nat) (visibility : bool) (propertyNode : nat)
| VolumePropertyNode (preset : option string).

(** What the user sees or what only drives the display. *)
Inductive event : Type :=
| Warning (message : string)
| Capture3dViewRotation (startRotation endRotation : Z) (numberOfImages : nat)
    (rotationAxis : Z) (outputDir outputFilenamePattern : string)
| Call (what : string).

(** The host: the files and directories, the node objects and the scene,
    and what was displayed.  [glob_magic_dir] is what [glob.glob] returns
    for a pattern whose directory part has special characters, given the
    files, the directories and the pattern: such a pattern is expanded
    against the names of the directories ([/d/a[1]/*.nii.gz] lists the
    entries of [/d/a1]), which is left to the host and not described
    further. *)
Record t : Type := {
  files : gmap string content;
  dirs : gset string;
  nodes : list node;
  scene : gset nat;
  trace : list event;
  glob_magic_dir : gmap string content -> gset string -> string -> list string;
}.

Definition with_files (f : gmap string content) (h : t) : t :=
  {| files := f; dirs := dirs h; nodes := nodes h; scene := scene h; trace := trace h;
     glob_magic_dir := glob_magic_dir h |}.
Definition with_dirs (d : gset string) (h : t) : t :=
  {| files := files h; dirs := d; nodes := nodes h; scene := scene h; trace := trace h;
     glob_magic_dir := glob_magic_dir h |}.
Definition with_nodes (n : list node) (h : t) : t :=
  {| files := files h; dirs := dirs h; nodes := n; scene := scene h; trace := trace h;
     glob_magic_dir := glob_magic_dir h |}.
Definition with_scene (sc : gset nat) (h : t) : t :=
  {| files := files h; dirs := dirs h; nodes := nodes h; scene := sc; trace := trace h;
     glob_magic_dir := glob_magic_dir h |}.
Definition with_trace (tr : list event) (h : t) : t :=
  {| files := files h; dirs := dirs h; nodes := nodes h; scene := scene h; trace := tr;
     glob_magic_dir := glob_magic_dir h |}.

Definition log (e : event) (h : t) : t := with_trace (trace h ++ [e]) h.

(** ** File system *)

(** The paths [os.scandir] can list: files and directories. *)
Definition paths (h : t) : list string := elements (dom (files h) ∪ dirs h).

(** A path is found by [glob.glob(pathname)], for a [pathname] whose
    directory part has no special character, when it is [pathname]'s
    directory prefix followed by a name without separator that matches the
    pattern; a name starting with a dot is found only by a pattern that
    starts with one. *)
Definition glob_name (pat name : string) : bool :=
  negb (bool_decide (name = "")) && negb (Py.contains "/" name)
  && Py.fnmatch pat name
  && (negb (Py.startswith name ".") || Py.startswith pat ".").

Definition glob_match (pathname p : string) : bool :=
  let d := Py.dirprefix pathname in
  Py.startswith p d && glob_name (Py.basename pathname) (Py.slice_from p (Py.len d)).

(** [glob.glob(pathname)]: the paths found, in the order of the listing.
    When the directory part of [pathname] has no special character it is
    taken as it is and its entries are matched against the last part;
    otherwise the directory part is a pattern too, and the result is the
    one of the host. *)
Definition glob (h : t) (pathname : string) : list string :=
  if Py.has_magic (Py.dirprefix pathname) then glob_magic_dir h (files h) (dirs h) pathname
  else List.filter (glob_match pathname) (paths h).

(** [os.path.exists(p)] *)
Definition path_exists (h : t) (p : string) : bool :=
  bool_decide (p ∈ dom (files h) ∪ dirs h).

(** [os.makedirs(p)] *)
Definition makedirs (p : string) (h : t) : t := with_dirs ({[p]} ∪ dirs h) h.

(** [os.remove(p)] *)
Definition remove (p : string) : Eff.M t unit :=
  fun h =>
    match files h !! p with
    | Some _ => (Eff.Ret tt, with_files (delete p (files h)) h)
    | None => (Eff.Raise "OSError", h)
    end.

Definition write (p : string) (c : content) (h : t) : t :=
  with_files (<[p := c]> (files h)) h.

(** ** MRML scene *)

(** A new node object, added to the scene. *)
Definition add_node (n : node) : Eff.M t nat :=
  fun h =>
    let i := length (nodes h) in
    (Eff.Ret i, with_scene ({[i]} ∪ scene h) (with_nodes (nodes h ++ [n]) h)).

Definition get_node (i : nat) : Eff.M t node :=
  fun h => Eff.orelse (nodes h !! i) "AttributeError" h.

Definition set_node (i : nat) (n : node) : Eff.M t unit :=
  Eff.modify (fun h => with_nodes (<[i := n]> (nodes h)) h).

(** [slicer.mrmlScene.RemoveNode(node)] and [slicer.mrmlScene.Clear(0)] *)
Definition RemoveNode (i : nat) : Eff.M t unit :=
  Eff.modify (fun h => with_scene (scene h ∖ {[i]}) h).

Definition Clear : Eff.M t unit :=
  Eff.modify (fun h => with_scene ∅ h).

(** [slicer.util.loadVolume(path)]: a volume node with the voxels of the
    file, named by the host after the file. *)
Definition loadVolume (path : string) : Eff.M t nat :=
  fun h =>
    match files h !! path with
    | Some (Volume voxels) => add_node (VolumeNode (Py.basename path) voxels) h
    | _ => (Eff.Raise "RuntimeError", h)
    end.

(** [slicer.util.loadSegmentation(path)] *)
Definition loadSegmentation (path : string) : Eff.M t nat :=
  fun h =>
    match files h !! path with
    | Some (Segmentation segments) =>
        add_node (SegmentationNode (Py.basename path) None segments) h
    | _ => (Eff.Raise "RuntimeError", h)
    end.

(** [slicer.util.arrayFromVolume(node)] and, after the array was modified
    in place, [slicer.util.arrayFromVolumeModified(node)]. *)
Definition arrayFromVolume (i : nat) : Eff.M t (list Q) :=
  n <- get_node i ;;
  match n with
  | VolumeNode _ voxels => Eff.ret voxels
  | _ => Eff.raise "AttributeError"
  end.

Definition arrayFromVolumeModified (i : nat) (voxels : list Q) : Eff.M t unit :=
  n <- get_node i ;;
  match n with
  | VolumeNode name _ => set_node i (VolumeNode name voxels)
  | _ => Eff.raise "AttributeError"
  end.

(** [node.SetName(name)] and [node.GetName()] *)
Definition SetName (i : nat) (name : string) : Eff.M t unit :=
  n <- get_node i ;;
  match n with
  | VolumeNode _ voxels => set_node i (VolumeNode name voxels)
  | SegmentationNode _ r segments => set_node i (SegmentationNode name r segments)
  | _ => Eff.raise "AttributeError"
  end.

Definition GetName (i : nat) : Eff.M t string :=
  n <- get_node i ;;
  match n with
  | VolumeNode name _ => Eff.ret name
  | SegmentationNode name _ _ => Eff.ret name
  | _ => Eff.raise "AttributeError"
  end.

Definition segments_of (i : nat) : Eff.M t (list segment) :=
  n <- get_node i ;;
  match n with
  | SegmentationNode _ _ segments => Eff.ret segments
  | _ => Eff.raise "AttributeError"
  end.

Definition set_segments (i : nat) (segments : list segment) : Eff.M t unit :=
  n <- get_node i ;;
  match n with
  | SegmentationNode name r _ => set_node i (SegmentationNode name r segments)
  | _ => Eff.raise "AttributeError"
  end.

(** [GetSegmentation().GetSegmentIdBySegmentName(name)]: the first segment
    of that name.  A segment id is the position of the segment; the empty
    id of the host is [None]. *)
Fixpoint segment_index (name : string) (segments : list segment) : option nat :=
  match segments with
  | [] => None
  | sg :: rest =>
      if bool_decide (segmentName sg = name) then Some O
      else S <$> segment_index name rest
  end.

Definition GetSegmentIdBySegmentName (i : nat) (name : string) : Eff.M t (option nat) :=
  segments <- segments_of i ;;
  Eff.ret (segment_index name segments).

(** [GetSegmentation().AddEmptySegment(name)]: a new segment of that name,
    with no labelmap, after the others. *)
Definition AddEmptySegment (i : nat) (name : string) : Eff.M t (option nat) :=
  segments <- segments_of i ;;
  set_segments i (segments ++ [{| segmentName := name; labelmap := [] |}]) ;;;
  Eff.ret (Some (length segments)).

(** [slicer.util.arrayFromSegmentBinaryLabelmap(segNode, id, volume)]: the
    labelmap of the segment in the geometry of the reference volume, one
    entry per voxel of the volume. *)
Definition arrayFromSegmentBinaryLabelmap (i : nat) (id : option nat) (volume : nat)
  : Eff.M t (list Z) :=
  segments <- segments_of i ;;
  voxels <- arrayFromVolume volume ;;
  k <- Eff.orelse id "ValueError" ;;
  sg <- Eff.orelse (segments !! k) "ValueError" ;;
  Eff.ret (resize (length voxels) 0 (labelmap sg)).

(** [slicer.util.updateSegmentBinaryLabelmapFromArray(array, segNode, id,
    volume)] *)
Definition updateSegmentBinaryLabelmapFromArray (array : list Z) (i : nat)
  (id : option nat) (volume : nat) : Eff.M t unit :=
  segments <- segments_of i ;;
  _ <- arrayFromVolume volume ;;
  k <- Eff.orelse id "ValueError" ;;
  sg <- Eff.orelse (segments !! k) "ValueError" ;;
  set_segments i (<[k := {| segmentName := segmentName sg; labelmap := array |}]> segments).

(** The labelmap of a whole segmentation: a voxel carries the number (from
    one) of the last segment that holds it, and zero when none does. *)
Fixpoint paint (k : Z) (mask base : list Z) : list Z :=
  match mask, base with
  | [], _ => base
  | m :: mask', [] => (if m =? 0 then 0 else k) :: paint k mask' []
  | m :: mask', b :: base' => (if m =? 0 then b else k) :: paint k mask' base'
  end.

Fixpoint merged_from (k : Z) (segments : list segment) (base : list Z) : list Z :=
  match segments with
  | [] => base
  | sg :: rest => merged_from (k + 1) rest (paint k (labelmap sg) base)
  end.

Definition merged_labelmap (segments : list segment) : list Z :=
  merged_from 1 segments [].

(** [slicer.modules.segmentations.logic().ExportAllSegmentsToLabelmapNode(
    segNode, labelmapNode, EXTENT_REFERENCE_GEOMETRY)]: fills the labelmap
    node and gives it a colour table node of its own. *)
Definition ExportAllSegmentsToLabelmapNode (seg lm : nat) : Eff.M t unit :=
  segments <- segments_of seg ;;
  n <- get_node lm ;;
  match n with
  | LabelMapVolumeNode _ _ =>
      c <- add_node ColorNode ;;
      set_node lm (LabelMapVolumeNode (merged_labelmap segments) (Some c))
  | _ => Eff.raise "AttributeError"
  end.

(** [labelmapVolumeNode.GetDisplayNode().GetColorNode()] *)
Definition GetColorNode (lm : nat) : Eff.M t nat :=
  n <- get_node lm ;;
  match n with
  | LabelMapVolumeNode _ (Some c) => Eff.ret c
  | _ => Eff.raise "AttributeError"
  end.

(** [slicer.util.exportNode(node, path)] and [slicer.util.saveNode(node,
    path)]: the file holds what the node holds. *)
Definition exportNode (i : nat) (path : string) : Eff.M t unit :=
  n <- get_node i ;;
  match n with
  | VolumeNode _ voxels => Eff.modify (write path (Volume voxels))
  | LabelMapVolumeNode labels _ => Eff.modify (write path (Labelmap labels))
  | SegmentationNode _ _ segments => Eff.modify (write path (Segmentation segments))
  | _ => Eff.raise "RuntimeError"
  end.

(** [segNode.SetReferenceImageGeometryParameterFromVolumeNode(volume)] *)
Definition SetReferenceImageGeometryParameterFromVolumeNode (i volume : nat) : Eff.M t unit :=
  n <- get_node i ;;
  match n with
  | SegmentationNode name _ segments => set_node i (SegmentationNode name (Some volume) segments)
  | _ => Eff.raise "AttributeError"
  end.

(** ** Volume rendering *)

(** [volRenLogic.CreateDefaultVolumeRenderingNodes(volume)]: a display node
    for the volume, with a volume property node of its own. *)
Definition CreateDefaultVolumeRenderingNodes (volume : nat) : Eff.M t nat :=
  p <- add_node (VolumePropertyNode None) ;;
  add_node (VolumeRenderingDisplayNode volume true p).

(** [displayNode.GetVolumePropertyNode()] *)
Definition GetVolumePropertyNode (d : nat) : Eff.M t nat :=
  n <- get_node d ;;
  match n with
  | VolumeRenderingDisplayNode _ _ p => Eff.ret p
  | _ => Eff.raise "AttributeError"
  end.

(** [propertyNode.Copy(volRenLogic.GetPresetByName(name))] *)
Definition CopyPreset (p : nat) (name : string) : Eff.M t unit :=
  n <- get_node p ;;
  match n with
  | VolumePropertyNode _ => set_node p (VolumePropertyNode (Some name))
  | _ => Eff.raise "AttributeError"
  end.

(** [slicer.mrmlScene.AddNode(volRenLogic.GetPresetByName(name))] *)
Definition AddPreset (name : string) : Eff.M t nat :=
  add_node (VolumePropertyNode (Some name)).

(** [displayNode.SetVisibility(v)] *)
Definition SetVisibility (d : nat) (v : bool) : Eff.M t unit :=
  n <- get_node d ;;
  match n with
  | VolumeRenderingDisplayNode volume _ p => set_node d (VolumeRenderingDisplayNode volume v p)
  | _ => Eff.raise "AttributeError"
  end.

(** ** Screen capture and video *)

(** [ScreenCapture.ScreenCaptureLogic().capture3dViewRotation(viewNode,
    startRotation, endRotation, numberOfImages, rotationAxis, outputDir,
    outputFilenamePattern)]: the output directory is made when missing and
    one image per frame is written to
    [os.path.join(outputDir, outputFilenamePattern) % frame]. *)
Definition capture3dViewRotation (startRotation endRotation : Z) (numberOfImages : nat)
  (rotationAxis : Z) (outputDir outputFilenamePattern : string) : Eff.M t unit :=
  Eff.modify (log (Capture3dViewRotation startRotation endRotation numberOfImages
                     rotationAxis outputDir outputFilenamePattern)) ;;;
  Eff.modify (fun h => if path_exists h outputDir then h else makedirs outputDir h) ;;;
  let filePathPattern := Py.join outputDir outputFilenamePattern in
  Eff.for_each (seq 0 numberOfImages)
    (fun offsetIndex =>
       path <- Eff.orelse (Py.percent filePathPattern offsetIndex) "TypeError" ;;
       Eff.modify (write path Image)).

(** [ImageSequenceClip(images, fps=fps).write_videofile(path)]: the clip
    needs at least one image and reads every one of them. *)
Definition is_image (h : t) (p : string) : bool :=
  match files h !! p with
  | Some Image => true
  | _ => false
  end.

Definition write_videofile (images : list string) (fps : Z) (path : string) : Eff.M t unit :=
  fun h =>
    if bool_decide (images = []) then (Eff.Raise "IndexError", h)
    else if forallb (is_image h) images then (Eff.Ret tt, write path (Video images fps) h)
    else (Eff.Raise "OSError", h).

(** ** Notions used to state what the host does *)

(** [p] is the entry [name] of [directory], and [name] matches [pat] as
    [glob] matches. *)
Definition entry_matching (h : t) (directory pat p : string) : Prop :=
  (p ∈ dom (files h) \/ p ∈ dirs h) /\
  exists name, p = Py.join directory name /\ glob_name pat name = true.

(** The paths that a capture of [n] frames writes. *)
Definition captured (dir pat : string) (n : nat) (p : string) : Prop :=
  exists k, (k < n)%nat /\ Py.percent (Py.join dir pat) k = Some p.

(** The host after [if not os.path.exists(p): os.makedirs(p)]. *)
Definition ensured (directory : string) (h : t) : t :=
  if path_exists h directory then h else makedirs directory h.

(** The nodes that hold data: volumes and segmentations. *)
Definition is_data (n : node) : Prop :=
  match n with
  | VolumeNode _ _ | SegmentationNode _ _ _ => True
  | _ => False
  end.

(** The volumes and segmentations stay as they are. *)
Definition keeps_data : relation t := fun h h' =>
  forall i n, nodes h !! i = Some n -> is_data n -> nodes h' !! i = Some n.

(** [l] is the sorted list of the entries of [directory] that match
    [pat]. *)
Definition sorted_listing (h : t) (directory pat : string) (l : list string) : Prop :=
  StronglySorted String.le l /\ NoDup l /\
  forall p, p ∈ l <-> entry_matching h directory pat p.

End Host.

(* ===================================================================== *)
(** * ImplantVideo/ImplantVideo.py: ImplantVideoWidget *)
(* ===================================================================== *)

Module ImplantVideo.

(** The attributes of [self] that the methods read or write, the Qt widgets
    among them, and the host.  [fileset] is not set by [__init__]: reading
    it before [onRun] or [onReset] is an [AttributeError].
    [currentVolumeNode] is the empty string until a volume is loaded. *)
Record state : Type := {
  saveDirectory : string;
  imageDirectory : string;
  segDirectory : string;
  currentVolumeNode : option nat;
  current_file : Z;
  total_files : Z;
  fileset : option (list string);
  FileComboBox : Qt.QComboBox;
  DirButton : string;
  host : Host.t;
}.

Definition set_saveDirectory (v : string) (s : state) : state :=
  {| saveDirectory := v; imageDirectory := imageDirectory s;
     segDirectory := segDirectory s; currentVolumeNode := currentVolumeNode s;
     current_file := current_file s; total_files := total_files s;
     fileset := fileset s; FileComboBox := FileComboBox s;
     DirButton := DirButton s; host := host s |}.
Definition set_imageDirectory (v : string) (s : state) : state :=
  {| saveDirectory := saveDirectory s; imageDirectory := v;
     segDirectory := segDirectory s; currentVolumeNode := currentVolumeNode s;
     current_file := current_file s; total_files := total_files s;
     fileset := fileset s; FileComboBox := FileComboBox s;
     DirButton := DirButton s; host := host s |}.
Definition set_currentVolumeNode (v : option nat) (s : state) : state :=
  {| saveDirectory := saveDirectory s; imageDirectory := imageDirectory s;
     segDirectory := segDirectory s; currentVolumeNode := v;
     current_file := current_file s; total_files := total_files s;
     fileset := fileset s; FileComboBox := FileComboBox s;
     DirButton := DirButton s; host := host s |}.
Definition set_current_file (v : Z) (s : state) : state :=
  {| saveDirectory := saveDirectory s; imageDirectory := imageDirectory s;
     segDirectory := segDirectory s; currentVolumeNode := currentVolumeNode s;
     current_file := v; total_files := total_files s;
     fileset := fileset s; FileComboBox := FileComboBox s;
     DirButton := DirButton s; host := host s |}.
Definition set_total_files (v : Z) (s : state) : state :=
  {| saveDirectory := saveDirectory s; imageDirectory := imageDirectory s;
     segDirectory := segDirectory s; currentVolumeNode := currentVolumeNode s;
     current_file := current_file s; total_files := v;
     fileset := fileset s; FileComboBox := FileComboBox s;
     DirButton := DirButton s; host := host s |}.
Definition set_fileset (v : option (list string)) (s : state) : state :=
  {| saveDirectory := saveDirectory s; imageDirectory := imageDirectory s;
     segDirectory := segDirectory s; currentVolumeNode := currentVolumeNode s;
     current_file := current_file s; total_files := total_files s;
     fileset := v; FileComboBox := FileComboBox s;
     DirButton := DirButton s; host := host s |}.
Definition set_FileComboBox (v : Qt.QComboBox) (s : state) : state :=
  {| saveDirectory := saveDirectory s; imageDirectory := imageDirectory s;
     segDirectory := segDirectory s; currentVolumeNode := currentVolumeNode s;
     current_file := current_file s; total_files := total_files s;
     fileset := fileset s; FileComboBox := v;
     DirButton := DirButton s; host := host s |}.
Definition set_DirButton (v : string) (s : state) : state :=
  {| saveDirectory := saveDirectory s; imageDirectory := imageDirectory s;
     segDirectory := segDirectory s; currentVolumeNode := currentVolumeNode s;
     current_file := current_file s; total_files := total_files s;
     fileset := fileset s; FileComboBox := FileComboBox s;
     DirButton := v; host := host s |}.
Definition set_host (v : Host.t) (s : state) : state :=
  {| saveDirectory := saveDirectory s; imageDirectory := imageDirectory s;
     segDirectory := segDirectory s; currentVolumeNode := currentVolumeNode s;
     current_file := current_file s; total_files := total_files s;
     fileset := fileset s; FileComboBox := FileComboBox s;
     DirButton := DirButton s; host := v |}.

(** [__init__] and [setup], in a host [h]. *)
Definition init (h : Host.t) : state :=
  {| saveDirectory := ""; imageDirectory := ""; segDirectory := "";
     currentVolumeNode := None; current_file := 0; total_files := 0;
     fileset := None; FileComboBox := Qt.empty; DirButton := ""; host := h |}.

Abbreviation M := (Eff.M state).

(** A call into the host. *)
Definition in_host {A} (m : Eff.M Host.t A) : M A :=
  fun s => let (r, h) := m (host s) in (r, set_host h s).

(** [slicer.util.warningDisplay(message, windowTitle='Mangomedcial')] *)
Definition warningDisplay (message : string) : M unit :=
  in_host (Eff.modify (Host.log (Host.Warning message))).

Definition call (what : string) : M unit :=
  in_host (Eff.modify (Host.log (Host.Call what))).

(** [self.fileset] *)
Definition get_fileset : M (list string) :=
  fun s => Eff.orelse (fileset s) "AttributeError" s.

(** [self.fileset[i]] *)
Definition fileset_at (i : Z) : M string :=
  l <- get_fileset ;;
  Eff.orelse (Py.index l i) "IndexError".

Definition onLoadImage (chosen : string) : M unit :=
  Eff.modify (set_imageDirectory chosen).

Definition RemoveCurrentScene : M unit := in_host Host.Clear.

Definition thresholdValue : Q := 2000 # 1.

(** [voxels[voxels < thresholdValue] = 0] *)
Definition extract (voxels : list Q) : list Q :=
  (fun v => if negb (Qle_bool thresholdValue v) then 0%Q else v) <$> voxels.

Definition newline : string := String (ascii_of_nat 10) "".

Definition no_file_message (imageDirectory segDirectory : string) : string :=
  "There are no file to load. Please check image folder and segmentation folder"
  +:+ newline +:+ "                image folder : " +:+ imageDirectory
  +:+ newline +:+ "                segmentation folder :" +:+ segDirectory.

Definition LoadFiles : M unit :=
  imageDirectory <- Eff.gets imageDirectory ;;
  total_files <- Eff.gets total_files ;;
  if bool_decide (imageDirectory = "") then
    warningDisplay "Please choose image folder"
  else if bool_decide (total_files = 0) then
    segDirectory <- Eff.gets segDirectory ;;
    warningDisplay (no_file_message imageDirectory segDirectory)
  else
    (* load volume node and segmentation node *)
    current_file <- Eff.gets current_file ;;
    path <- fileset_at current_file ;;
    volume <- in_host (Host.loadVolume path) ;;
    Eff.modify (set_currentVolumeNode (Some volume)) ;;;
    (* display volume into 3D view *)
    displayNode <- in_host (Host.CreateDefaultVolumeRenderingNodes volume) ;;
    propertyNode <- in_host (Host.GetVolumePropertyNode displayNode) ;;
    in_host (Host.CopyPreset propertyNode "CT-AAA") ;;;
    in_host (Host.SetVisibility displayNode true) ;;;
    (* center 3D view *)
    call "threeDView.resetFocalPoint" ;;;
    (* volume extract threshold 2000 *)
    voxels <- in_host (Host.arrayFromVolume volume) ;;
    in_host (Host.arrayFromVolumeModified volume (extract voxels)) ;;;
    (* maximize 3D view *)
    call "layoutLogic.MaximizeView".

Definition onFileCombo (index : Z) : M unit :=
  currentVolumeNode <- Eff.gets currentVolumeNode ;;
  (if bool_decide (currentVolumeNode = None) then Eff.ret tt else RemoveCurrentScene) ;;;
  total_files <- Eff.gets total_files ;;
  if bool_decide (total_files = 0) then Eff.ret tt
  else
    Eff.modify (set_current_file index) ;;;
    LoadFiles.

(** The combo box of the widget: [currentIndexChanged] is connected to
    [onFileCombo]. *)
Definition emit (signal : option Z) : M unit :=
  match signal with
  | Some index => Eff.slot (onFileCombo index)
  | None => Eff.ret tt
  end.

Definition FileComboBox_do (op : Qt.QComboBox -> Qt.QComboBox * option Z) : M unit :=
  fun s => let (c, signal) := op (FileComboBox s) in emit signal (set_FileComboBox c s).

Definition addItem (text : string) : M unit := FileComboBox_do (fun c => Qt.addItem c text).
Definition setCurrentIndex (i : Z) : M unit := FileComboBox_do (fun c => Qt.setCurrentIndex c i).
Definition clear : M unit := FileComboBox_do Qt.clear.

(** The name shown for a file: [image_basename[:image_basename.find('.nii.gz')]] *)
Definition image_name_of (path : string) : string :=
  let image_basename := Py.basename path in
  Py.slice_to image_basename (Py.find image_basename ".nii.gz").

Definition range (n : Z) : list Z := Z.of_nat <$> seq 0 (Z.to_nat n).

Definition InsertFileCombo : M unit :=
  total_files <- Eff.gets total_files ;;
  Eff.for_each (range total_files)
    (fun index =>
       path <- fileset_at index ;;
       addItem (image_name_of path)).

Definition onRun : M unit :=
  (* check directory *)
  imageDirectory <- Eff.gets imageDirectory ;;
  found <- in_host (Eff.gets (fun h => Host.glob h (Py.join imageDirectory "*.nii.gz"))) ;;
  Eff.modify (set_fileset (Some (Py.sorted found))) ;;;
  l <- get_fileset ;;
  Eff.modify (set_total_files (Z.of_nat (length l))) ;;;
  Eff.modify (set_current_file 0) ;;;
  InsertFileCombo.

Definition onPre : M unit :=
  i <- Eff.gets current_file ;;
  if bool_decide (i = 0) then
    warningDisplay "This is first file"
  else
    RemoveCurrentScene ;;;
    Eff.modify (fun s => set_current_file (current_file s - 1) s) ;;;
    i <- Eff.gets current_file ;;
    setCurrentIndex i.

Definition onNext : M unit :=
  i <- Eff.gets current_file ;;
  n <- Eff.gets total_files ;;
  if bool_decide (i + 1 = n) then
    warningDisplay "This is last file"
  else
    (* remove current node *)
    RemoveCurrentScene ;;;
    Eff.modify (fun s => set_current_file (current_file s + 1) s) ;;;
    i <- Eff.gets current_file ;;
    setCurrentIndex i.

Definition onReset : M unit :=
  Eff.modify (set_saveDirectory "") ;;;
  Eff.modify (set_current_file 0) ;;;
  Eff.modify (set_total_files 0) ;;;
  Eff.modify (set_imageDirectory "") ;;;
  Eff.modify (set_fileset (Some [])) ;;;
  clear ;;;
  saveDirectory <- Eff.gets saveDirectory ;;
  Eff.modify (set_DirButton saveDirectory) ;;;
  call "slicer.util.resetSliceViews" ;;;
  in_host Host.Clear.

Definition onDir (chosen : string) : M unit :=
  Eff.modify (set_saveDirectory chosen) ;;;
  saveDirectory <- Eff.gets saveDirectory ;;
  Eff.modify (set_DirButton saveDirectory).

Definition onCreateVideo : M unit :=
  saveDirectory <- Eff.gets saveDirectory ;;
  if bool_decide (saveDirectory = "") then
    warningDisplay "Please choose destination folder"
  else
    (* Specify the directory with your images and the output video filename *)
    current_file <- Eff.gets current_file ;;
    path <- fileset_at current_file ;;
    let image_name := image_name_of path in
    let video_file := Py.join saveDirectory (image_name +:+ ".mp4") in
    (* create png images *)
    in_host (Host.capture3dViewRotation (-180) 180 360 0 saveDirectory "image_%05d.png") ;;;
    (* Use glob to find all images that match the pattern *)
    let images_pattern := Py.join saveDirectory "image_*.png" in
    found <- in_host (Eff.gets (fun h => Host.glob h images_pattern)) ;;
    let images_list := Py.sorted found in
    (* Ensure the images are sorted correctly *)
    let images_list := Py.sorted images_list in
    (* Create a video clip from the images *)
    in_host (Host.write_videofile images_list 60 video_file) ;;;
    (* After successfully creating the video, delete the PNG files *)
    Eff.for_each images_list (fun image_path => in_host (Host.remove image_path)).

(** The user picks an entry of the combo box. *)
Definition pick (i : Z) : M unit := setCurrentIndex i.

(** ** The states of the widget *)

(** What says which file is shown. *)
Definition nav (s : state) : Z * Z * option (list string) * Qt.QComboBox :=
  (current_file s, total_files s, fileset s, FileComboBox s).

(** One event.  The slots that move through the files are named; every
    other slot, and whatever happens to the host between two events, leaves
    [nav] as it is. *)
Inductive step : state -> state -> Prop :=
| step_onRun s : step s (Eff.exec onRun s)
| step_onPre s : step s (Eff.exec onPre s)
| step_onNext s : step s (Eff.exec onNext s)
| step_onReset s : step s (Eff.exec onReset s)
| step_pick s i : 0 <= i < Qt.count (FileComboBox s) -> step s (Eff.exec (pick i) s)
| step_other s s' : nav s' = nav s -> step s s'.

Inductive reachable : state -> Prop :=
| reachable_init h : reachable (init h)
| reachable_step s s' : reachable s -> step s s' -> reachable s'.

(** The paths that [onCreateVideo] takes for screenshots. *)
Definition screenshot (s : state) (p : string) : Prop :=
  exists name, p = Py.join (saveDirectory s) name /\ Host.glob_name "image_*.png" name = true.

(** The decimal digit [d], and the five decimal digits of a number below
    [100000]. *)
Definition decimal_digit (d : nat) : ascii :=
  List.nth d ["0"; "1"; "2"; "3"; "4"; "5"; "6"; "7"; "8"; "9"]%char "0"%char.

Definition five_digits (k : nat) : string :=
  String (decimal_digit (k / (10 * 10 * 10 * 10) mod 10))
    (String (decimal_digit (k / (10 * 10 * 10) mod 10))
       (String (decimal_digit (k / (10 * 10) mod 10))
          (String (decimal_digit (k / 10 mod 10))
             (String (decimal_digit (k mod 10)) "")))).

(** The file of frame [k]: [image_] and the five digits of [k], and the
    file of the video. *)
Definition frame_file (s : state) (k : nat) : string :=
  Py.join (saveDirectory s) ("image_" +:+ five_digits k +:+ ".png").

Definition video_file (s : state) (path : string) : string :=
  Py.join (saveDirectory s) (image_name_of path +:+ ".mp4").

(** A slot that leaves [nav] as it is. *)
Definition keeps_nav : relation state := fun s s' => nav s' = nav s.

End ImplantVideo.

(* ===================================================================== *)
(** * EasySegmentation/EasySegmentation.py: EasySegmentationWidget *)
(* ===================================================================== *)

Module EasySegmentation.

(** The Qt widgets of [setup] whose properties the methods read or write,
    by the attribute that holds them, and those properties. *)
Inductive widget : Type :=
| ImageCheck | SegCheck | RenderCheck | ThresholdCheck
| minBox | maxBox | suffixBox
| ApplyButton | suffixButton | RenderButton | DirButton
| render | editorCollapsibleButton | renderCollapsibleButton.

#[global] Instance widget_eq_dec : EqDecision widget.
Proof. solve_decision. Defined.

Record props : Type := {
  text : string;
  checked : bool;
  enabled : bool;
  collapsed : bool;
}.

Definition with_text (v : string) (p : props) : props :=
  {| text := v; checked := checked p; enabled := enabled p; collapsed := collapsed p |}.
Definition with_checked (v : bool) (p : props) : props :=
  {| text := text p; checked := v; enabled := enabled p; collapsed := collapsed p |}.
Definition with_enabled (v : bool) (p : props) : props :=
  {| text := text p; checked := checked p; enabled := v; collapsed := collapsed p |}.
Definition with_collapsed (v : bool) (p : props) : props :=
  {| text := text p; checked := checked p; enabled := enabled p; collapsed := v |}.

(** [self.file_types] *)
Definition file_types : list string := ["*.nrrd"; "*.nii"; "*.nii.gz"].

(** The attributes of [self] that the methods read or write, the widgets,
    the segment editor's two node selections, and the host.  [fileset],
    [currentVolumeNode], [currentSegNode] are not set by [__init__]: reading
    one before it is assigned is an [AttributeError]. *)
Record state : Type := {
  saveDirectory : string;
  imageDirectory : string;
  segDirectory : string;
  current_file : Z;
  total_files : Z;
  fileset : option (list (string * string));
  needAddProperty : bool;
  changeProperty : bool;
  displayNode : option nat;
  volumePropertyNode : option nat;
  preset_nodes : list nat;
  currentPresetNode : option nat;
  currentVolumeNode : option nat;
  currentSegNode : option nat;
  NewSegmentId : option nat;
  slicer_majorVersion : Z;
  slicer_minorVersion : Z;
  FileComboBox : Qt.QComboBox;
  gui : widget -> props;
  editor_segmentationNode : option nat;
  editor_sourceVolumeNode : option nat;
  host : Host.t;
}.

Definition set_saveDirectory (v : string) (s : state) : state :=
  {| saveDirectory := v; imageDirectory := imageDirectory s;
     segDirectory := segDirectory s; current_file := current_file s;
     total_files := total_files s; fileset := fileset s;
     needAddProperty := needAddProperty s;
     changeProperty := changeProperty s; displayNode := displayNode s;
     volumePropertyNode := volumePropertyNode s;
     preset_nodes := preset_nodes s;
     currentPresetNode := currentPresetNode s;
     currentVolumeNode := currentVolumeNode s;
     currentSegNode := currentSegNode s; NewSegmentId := NewSegmentId s;
     slicer_majorVersion := slicer_majorVersion s;
     slicer_minorVersion := slicer_minorVersion s;
     FileComboBox := FileComboBox s; gui := gui s;
     editor_segmentationNode := editor_segmentationNode s;
     editor_sourceVolumeNode := editor_sourceVolumeNode s; host := host s |}.
Definition set_imageDirectory (v : string) (s : state) : state :=
  {| saveDirectory := saveDirectory s; imageDirectory := v;
     segDirectory := segDirectory s; current_file := current_file s;
     total_files := total_files s; fileset := fileset s;
     needAddProperty := needAddProperty s;
     changeProperty := changeProperty s; displayNode := displayNode s;
     volumePropertyNode := volumePropertyNode s;
     preset_nodes := preset_nodes s;
     currentPresetNode := currentPresetNode s;
     currentVolumeNode := currentVolumeNode s;
     currentSegNode := currentSegNode s; NewSegmentId := NewSegmentId s;
     slicer_majorVersion := slicer_majorVersion s;
     slicer_minorVersion := slicer_minorVersion s;
     FileComboBox := FileComboBox s; gui := gui s;
     editor_segmentationNode := editor_segmentationNode s;
     editor_sourceVolumeNode := editor_sourceVolumeNode s; host := host s |}.
Definition set_segDirectory (v : string) (s : state) : state :=
  {| saveDirectory := saveDirectory s; imageDirectory := imageDirectory s;
     segDirectory := v; current_file := current_file s;
     total_files := total_files s; fileset := fileset s;
     needAddProperty := needAddProperty s;
     changeProperty := changeProperty s; displayNode := displayNode s;
     volumePropertyNode := volumePropertyNode s;
     preset_nodes := preset_nodes s;
     currentPresetNode := currentPresetNode s;
     currentVolumeNode := currentVolumeNode s;
     currentSegNode := currentSegNode s; NewSegmentId := NewSegmentId s;
     slicer_majorVersion := slicer_majorVersion s;
     slicer_minorVersion := slicer_minorVersion s;
     FileComboBox := FileComboBox s; gui := gui s;
     editor_segmentationNode := editor_segmentationNode s;
     editor_sourceVolumeNode := editor_sourceVolumeNode s; host := host s |}.
Definition set_current_file (v : Z) (s : state) : state :=
  {| saveDirectory := saveDirectory s; imageDirectory := imageDirectory s;
     segDirectory := segDirectory s; current_file := v;
     total_files := total_files s; fileset := fileset s;
     needAddProperty := needAddProperty s;
     changeProperty := changeProperty s; displayNode := displayNode s;
     volumePropertyNode := volumePropertyNode s;
     preset_nodes := preset_nodes s;
     currentPresetNode := currentPresetNode s;
     currentVolumeNode := currentVolumeNode s;
     currentSegNode := currentSegNode s; NewSegmentId := NewSegmentId s;
     slicer_majorVersion := slicer_majorVersion s;
     slicer_minorVersion := slicer_minorVersion s;
     FileComboBox := FileComboBox s; gui := gui s;
     editor_segmentationNode := editor_segmentationNode s;
     editor_sourceVolumeNode := editor_sourceVolumeNode s; host := host s |}.
Definition set_total_files (v : Z) (s : state) : state :=
  {| saveDirectory := saveDirectory s; imageDirectory := imageDirectory s;
     segDirectory := segDirectory s; current_file := current_file s;
     total_files := v; fileset := fileset s;
     needAddProperty := needAddProperty s;
     changeProperty := changeProperty s; displayNode := displayNode s;
     volumePropertyNode := volumePropertyNode s;
     preset_nodes := preset_nodes s;
     currentPresetNode := currentPresetNode s;
     currentVolumeNode := currentVolumeNode s;
     currentSegNode := currentSegNode s; NewSegmentId := NewSegmentId s;
     slicer_majorVersion := slicer_majorVersion s;
     slicer_minorVersion := slicer_minorVersion s;
     FileComboBox := FileComboBox s; gui := gui s;
     editor_segmentationNode := editor_segmentationNode s;
     editor_sourceVolumeNode := editor_sourceVolumeNode s; host := host s |}.
Definition set_fileset (v : option (list (string * string))) (s : state) : state :=
  {| saveDirectory := saveDirectory s; imageDirectory := imageDirectory s;
     segDirectory := segDirectory s; current_file := current_file s;
     total_files := total_files s; fileset := v;
     needAddProperty := needAddProperty s;
     changeProperty := changeProperty s; displayNode := displayNode s;
     volumePropertyNode := volumePropertyNode s;
     preset_nodes := preset_nodes s;
     currentPresetNode := currentPresetNode s;
     currentVolumeNode := currentVolumeNode s;
     currentSegNode := currentSegNode s; NewSegmentId := NewSegmentId s;
     slicer_majorVersion := slicer_majorVersion s;
     slicer_minorVersion := slicer_minorVersion s;
     FileComboBox := FileComboBox s; gui := gui s;
     editor_segmentationNode := editor_segmentationNode s;
     editor_sourceVolumeNode := editor_sourceVolumeNode s; host := host s |}.
Definition set_needAddProperty (v : bool) (s : state) : state :=
  {| saveDirectory := saveDirectory s; imageDirectory := imageDirectory s;
     segDirectory := segDirectory s; current_file := current_file s;
     total_files := total_files s; fileset := fileset s;
     needAddProperty := v; changeProperty := changeProperty s;
     displayNode := displayNode s;
     volumePropertyNode := volumePropertyNode s;
     preset_nodes := preset_nodes s;
     currentPresetNode := currentPresetNode s;
     currentVolumeNode := currentVolumeNode s;
     currentSegNode := currentSegNode s; NewSegmentId := NewSegmentId s;
     slicer_majorVersion := slicer_majorVersion s;
     slicer_minorVersion := slicer_minorVersion s;
     FileComboBox := FileComboBox s; gui := gui s;
     editor_segmentationNode := editor_segmentationNode s;
     editor_sourceVolumeNode := editor_sourceVolumeNode s; host := host s |}.
Definition set_changeProperty (v : bool) (s : state) : state :=
  {| saveDirectory := saveDirectory s; imageDirectory := imageDirectory s;
     segDirectory := segDirectory s; current_file := current_file s;
     total_files := total_files s; fileset := fileset s;
     needAddProperty := needAddProperty s; changeProperty := v;
     displayNode := displayNode s;
     volumePropertyNode := volumePropertyNode s;
     preset_nodes := preset_nodes s;
     currentPresetNode := currentPresetNode s;
     currentVolumeNode := currentVolumeNode s;
     currentSegNode := currentSegNode s; NewSegmentId := NewSegmentId s;
     slicer_majorVersion := slicer_majorVersion s;
     slicer_minorVersion := slicer_minorVersion s;
     FileComboBox := FileComboBox s; gui := gui s;
     editor_segmentationNode := editor_segmentationNode s;
     editor_sourceVolumeNode := editor_sourceVolumeNode s; host := host s |}.
Definition set_displayNode (v : option nat) (s : state) : state :=
  {| saveDirectory := saveDirectory s; imageDirectory := imageDirectory s;
     segDirectory := segDirectory s; current_file := current_file s;
     total_files := total_files s; fileset := fileset s;
     needAddProperty := needAddProperty s;
     changeProperty := changeProperty s; displayNode := v;
     volumePropertyNode := volumePropertyNode s;
     preset_nodes := preset_nodes s;
     currentPresetNode := currentPresetNode s;
     currentVolumeNode := currentVolumeNode s;
     currentSegNode := currentSegNode s; NewSegmentId := NewSegmentId s;
     slicer_majorVersion := slicer_majorVersion s;
     slicer_minorVersion := slicer_minorVersion s;
     FileComboBox := FileComboBox s; gui := gui s;
     editor_segmentationNode := editor_segmentationNode s;
     editor_sourceVolumeNode := editor_sourceVolumeNode s; host := host s |}.
Definition set_volumePropertyNode (v : option nat) (s : state) : state :=
  {| saveDirectory := saveDirectory s; imageDirectory := imageDirectory s;
     segDirectory := segDirectory s; current_file := current_file s;
     total_files := total_files s; fileset := fileset s;
     needAddProperty := needAddProperty s;
     changeProperty := changeProperty s; displayNode := displayNode s;
     volumePropertyNode := v; preset_nodes := preset_nodes s;
     currentPresetNode := currentPresetNode s;
     currentVolumeNode := currentVolumeNode s;
     currentSegNode := currentSegNode s; NewSegmentId := NewSegmentId s;
     slicer_majorVersion := slicer_majorVersion s;
     slicer_minorVersion := slicer_minorVersion s;
     FileComboBox := FileComboBox s; gui := gui s;
     editor_segmentationNode := editor_segmentationNode s;
     editor_sourceVolumeNode := editor_sourceVolumeNode s; host := host s |}.
Definition set_preset_nodes (v : list nat) (s : state) : state :=
  {| saveDirectory := saveDirectory s; imageDirectory := imageDirectory s;
     segDirectory := segDirectory s; current_file := current_file s;
     total_files := total_files s; fileset := fileset s;
     needAddProperty := needAddProperty s;
     changeProperty := changeProperty s; displayNode := displayNode s;
     volumePropertyNode := volumePropertyNode s; preset_nodes := v;
     currentPresetNode := currentPresetNode s;
     currentVolumeNode := currentVolumeNode s;
     currentSegNode := currentSegNode s; NewSegmentId := NewSegmentId s;
     slicer_majorVersion := slicer_majorVersion s;
     slicer_minorVersion := slicer_minorVersion s;
     FileComboBox := FileComboBox s; gui := gui s;
     editor_segmentationNode := editor_segmentationNode s;
     editor_sourceVolumeNode := editor_sourceVolumeNode s; host := host s |}.
Definition set_currentPresetNode (v : option nat) (s : state) : state :=
  {| saveDirectory := saveDirectory s; imageDirectory := imageDirectory s;
     segDirectory := segDirectory s; current_file := current_file s;
     total_files := total_files s; fileset := fileset s;
     needAddProperty := needAddProperty s;
     changeProperty := changeProperty s; displayNode := displayNode s;
     volumePropertyNode := volumePropertyNode s;
     preset_nodes := preset_nodes s; currentPresetNode := v;
     currentVolumeNode := currentVolumeNode s;
     currentSegNode := currentSegNode s; NewSegmentId := NewSegmentId s;
     slicer_majorVersion := slicer_majorVersion s;
     slicer_minorVersion := slicer_minorVersion s;
     FileComboBox := FileComboBox s; gui := gui s;
     editor_segmentationNode := editor_segmentationNode s;
     editor_sourceVolumeNode := editor_sourceVolumeNode s; host := host s |}.
Definition set_currentVolumeNode (v : option nat) (s : state) : state :=
  {| saveDirectory := saveDirectory s; imageDirectory := imageDirectory s;
     segDirectory := segDirectory s; current_file := current_file s;
     total_files := total_files s; fileset := fileset s;
     needAddProperty := needAddProperty s;
     changeProperty := changeProperty s; displayNode := displayNode s;
     volumePropertyNode := volumePropertyNode s;
     preset_nodes := preset_nodes s;
     currentPresetNode := currentPresetNode s; currentVolumeNode := v;
     currentSegNode := currentSegNode s; NewSegmentId := NewSegmentId s;
     slicer_majorVersion := slicer_majorVersion s;
     slicer_minorVersion := slicer_minorVersion s;
     FileComboBox := FileComboBox s; gui := gui s;
     editor_segmentationNode := editor_segmentationNode s;
     editor_sourceVolumeNode := editor_sourceVolumeNode s; host := host s |}.
Definition set_currentSegNode (v : option nat) (s : state) : state :=
  {| saveDirectory := saveDirectory s; imageDirectory := imageDirectory s;
     segDirectory := segDirectory s; current_file := current_file s;
     total_files := total_files s; fileset := fileset s;
     needAddProperty := needAddProperty s;
     changeProperty := changeProperty s; displayNode := displayNode s;
     volumePropertyNode := volumePropertyNode s;
     preset_nodes := preset_nodes s;
     currentPresetNode := currentPresetNode s;
     currentVolumeNode := currentVolumeNode s; currentSegNode := v;
     NewSegmentId := NewSegmentId s;
     slicer_majorVersion := slicer_majorVersion s;
     slicer_minorVersion := slicer_minorVersion s;
     FileComboBox := FileComboBox s; gui := gui s;
     editor_segmentationNode := editor_segmentationNode s;
     editor_sourceVolumeNode := editor_sourceVolumeNode s; host := host s |}.
Definition set_NewSegmentId (v : option nat) (s : state) : state :=
  {| saveDirectory := saveDirectory s; imageDirectory := imageDirectory s;
     segDirectory := segDirectory s; current_file := current_file s;
     total_files := total_files s; fileset := fileset s;
     needAddProperty := needAddProperty s;
     changeProperty := changeProperty s; displayNode := displayNode s;
     volumePropertyNode := volumePropertyNode s;
     preset_nodes := preset_nodes s;
     currentPresetNode := currentPresetNode s;
     currentVolumeNode := currentVolumeNode s;
     currentSegNode := currentSegNode s; NewSegmentId := v;
     slicer_majorVersion := slicer_majorVersion s;
     slicer_minorVersion := slicer_minorVersion s;
     FileComboBox := FileComboBox s; gui := gui s;
     editor_segmentationNode := editor_segmentationNode s;
     editor_sourceVolumeNode := editor_sourceVolumeNode s; host := host s |}.
Definition set_FileComboBox (v : Qt.QComboBox) (s : state) : state :=
  {| saveDirectory := saveDirectory s; imageDirectory := imageDirectory s;
     segDirectory := segDirectory s; current_file := current_file s;
     total_files := total_files s; fileset := fileset s;
     needAddProperty := needAddProperty s;
     changeProperty := changeProperty s; displayNode := displayNode s;
     volumePropertyNode := volumePropertyNode s;
     preset_nodes := preset_nodes s;
     currentPresetNode := currentPresetNode s;
     currentVolumeNode := currentVolumeNode s;
     currentSegNode := currentSegNode s; NewSegmentId := NewSegmentId s;
     slicer_majorVersion := slicer_majorVersion s;
     slicer_minorVersion := slicer_minorVersion s; FileComboBox := v;
     gui := gui s; editor_segmentationNode := editor_segmentationNode s;
     editor_sourceVolumeNode := editor_sourceVolumeNode s; host := host s |}.
Definition set_gui (v : widget -> props) (s : state) : state :=
  {| saveDirectory := saveDirectory s; imageDirectory := imageDirectory s;
     segDirectory := segDirectory s; current_file := current_file s;
     total_files := total_files s; fileset := fileset s;
     needAddProperty := needAddProperty s;
     changeProperty := changeProperty s; displayNode := displayNode s;
     volumePropertyNode := volumePropertyNode s;
     preset_nodes := preset_nodes s;
     currentPresetNode := currentPresetNode s;
     currentVolumeNode := currentVolumeNode s;
     currentSegNode := currentSegNode s; NewSegmentId := NewSegmentId s;
     slicer_majorVersion := slicer_majorVersion s;
     slicer_minorVersion := slicer_minorVersion s;
     FileComboBox := FileComboBox s; gui := v;
     editor_segmentationNode := editor_segmentationNode s;
     editor_sourceVolumeNode := editor_sourceVolumeNode s; host := host s |}.
Definition set_editor_segmentationNode (v : option nat) (s : state) : state :=
  {| saveDirectory := saveDirectory s; imageDirectory := imageDirectory s;
     segDirectory := segDirectory s; current_file := current_file s;
     total_files := total_files s; fileset := fileset s;
     needAddProperty := needAddProperty s;
     changeProperty := changeProperty s; displayNode := displayNode s;
     volumePropertyNode := volumePropertyNode s;
     preset_nodes := preset_nodes s;
     currentPresetNode := currentPresetNode s;
     currentVolumeNode := currentVolumeNode s;
     currentSegNode := currentSegNode s; NewSegmentId := NewSegmentId s;
     slicer_majorVersion := slicer_majorVersion s;
     slicer_minorVersion := slicer_minorVersion s;
     FileComboBox := FileComboBox s; gui := gui s;
     editor_segmentationNode := v;
     editor_sourceVolumeNode := editor_sourceVolumeNode s; host := host s |}.
Definition set_editor_sourceVolumeNode (v : option nat) (s : state) : state :=
  {| saveDirectory := saveDirectory s; imageDirectory := imageDirectory s;
     segDirectory := segDirectory s; current_file := current_file s;
     total_files := total_files s; fileset := fileset s;
     needAddProperty := needAddProperty s;
     changeProperty := changeProperty s; displayNode := displayNode s;
     volumePropertyNode := volumePropertyNode s;
     preset_nodes := preset_nodes s;
     currentPresetNode := currentPresetNode s;
     currentVolumeNode := currentVolumeNode s;
     currentSegNode := currentSegNode s; NewSegmentId := NewSegmentId s;
     slicer_majorVersion := slicer_majorVersion s;
     slicer_minorVersion := slicer_minorVersion s;
     FileComboBox := FileComboBox s; gui := gui s;
     editor_segmentationNode := editor_segmentationNode s;
     editor_sourceVolumeNode := v; host := host s |}.
Definition set_host (v : Host.t) (s : state) : state :=
  {| saveDirectory := saveDirectory s; imageDirectory := imageDirectory s;
     segDirectory := segDirectory s; current_file := current_file s;
     total_files := total_files s; fileset := fileset s;
     needAddProperty := needAddProperty s;
     changeProperty := changeProperty s; displayNode := displayNode s;
     volumePropertyNode := volumePropertyNode s;
     preset_nodes := preset_nodes s;
     currentPresetNode := currentPresetNode s;
     currentVolumeNode := currentVolumeNode s;
     currentSegNode := currentSegNode s; NewSegmentId := NewSegmentId s;
     slicer_majorVersion := slicer_majorVersion s;
     slicer_minorVersion := slicer_minorVersion s;
     FileComboBox := FileComboBox s; gui := gui s;
     editor_segmentationNode := editor_segmentationNode s;
     editor_sourceVolumeNode := editor_sourceVolumeNode s; host := v |}.

(** [__init__] and [setup], in a host [h] running Slicer [major.minor]. *)
Definition setup_gui (w : widget) : props :=
  let p := {| text := ""; checked := false; enabled := true; collapsed := false |} in
  match w with
  | ImageCheck => p
  | SegCheck => with_checked true p
  | RenderCheck => p
  | ThresholdCheck => p
  | minBox => with_enabled false (with_text "0.1" p)
  | maxBox => with_enabled false (with_text "100000" p)
  | suffixBox => with_text "_seg" p
  | ApplyButton => with_enabled false p
  | suffixButton => with_checked true p
  | RenderButton => with_enabled false p
  | DirButton => p
  | render => with_enabled false p
  | editorCollapsibleButton => with_collapsed true p
  | renderCollapsibleButton => with_collapsed true p
  end.

Definition init (major minor : Z) (h : Host.t) : state :=
  {| saveDirectory := ""; imageDirectory := ""; segDirectory := "";
     current_file := 0; total_files := 0; fileset := None;
     needAddProperty := true; changeProperty := false;
     displayNode := None; volumePropertyNode := None;
     preset_nodes := []; currentPresetNode := None;
     currentVolumeNode := None; currentSegNode := None; NewSegmentId := None;
     slicer_majorVersion := major; slicer_minorVersion := minor;
     FileComboBox := Qt.empty; gui := setup_gui;
     editor_segmentationNode := None; editor_sourceVolumeNode := None;
     host := h |}.

Abbreviation M := (Eff.M state).

Definition in_host {A} (m : Eff.M Host.t A) : M A :=
  fun s => let (r, h) := m (host s) in (r, set_host h s).

Definition warningDisplay (message : string) : M unit :=
  in_host (Eff.modify (Host.log (Host.Warning message))).

Definition call (what : string) : M unit :=
  in_host (Eff.modify (Host.log (Host.Call what))).

(** Properties of the widgets. *)
Definition isChecked (w : widget) : M bool := Eff.gets (fun s => checked (gui s w)).
Definition toPlainText (w : widget) : M string := Eff.gets (fun s => text (gui s w)).
Definition update (w : widget) (f : props -> props) : M unit :=
  Eff.modify (fun s => set_gui (<[w := f (gui s w)]> (gui s)) s).
Definition setChecked (w : widget) (v : bool) : M unit := update w (with_checked v).
Definition setDisabled (w : widget) (v : bool) : M unit := update w (with_enabled (negb v)).
Definition setEnabled (w : widget) (v : bool) : M unit := update w (with_enabled v).
Definition setText (w : widget) (v : string) : M unit := update w (with_text v).
Definition setCollapsed (w : widget) (v : bool) : M unit := update w (with_collapsed v).

(** Attributes that may not be assigned yet. *)
Definition attr {A} (f : state -> option A) : M A :=
  fun s => Eff.orelse (f s) "AttributeError" s.

(** [self.fileset[i]] *)
Definition fileset_at (i : Z) : M (string * string) :=
  l <- attr fileset ;;
  Eff.orelse (Py.index l i) "IndexError".

(** [find_basename_wo_extension]: the loop over [self.file_types], with
    [types[1:]] the pattern without its star. *)
Fixpoint cut_at_type (types : list string) (file_basename : string) : string :=
  match types with
  | [] => file_basename
  | ty :: rest =>
      if bool_decide (Py.find file_basename (Py.slice_from ty 1) ≠ -1)
      then Py.slice_to file_basename (Py.find file_basename (Py.slice_from ty 1))
      else cut_at_type rest file_basename
  end.

Definition find_basename_wo_extension (filepath : string) : string :=
  let file_basename := Py.basename filepath in
  cut_at_type file_types file_basename.

Definition onSuffix : M unit := Eff.ret tt.

Definition onThresholdCheck : M unit :=
  c <- isChecked ThresholdCheck ;;
  if c then
    setDisabled minBox false ;;;
    setDisabled maxBox false ;;;
    setDisabled ApplyButton false
  else
    setDisabled minBox true ;;;
    setDisabled maxBox true ;;;
    setDisabled ApplyButton true.

Section Numbers.

(** [float(text)] ([None]: a [ValueError]) and ["{}".format(x)] for the
    numbers of a volume. *)
Variable float : string -> option Q.
Variable format : Q -> string.

(** The names of the [VolumeProperty] elements of [Resources/presets.xml]. *)
Variable presets : list string.

(** The conversion of a number to the type in which numpy compares the
    array of a volume with a Python [float]: both sides of a comparison
    are converted to it first.  For an array of [float32] it is [float32],
    so the bound is rounded to [float32]. *)
Variable cast : Q -> Q.

(** [(volumeArray >= lo) & (volumeArray <= hi)] *)
Definition in_range (lo hi : Q) (volumeArray : list Q) : list bool :=
  (fun v => Qle_bool (cast lo) (cast v) && Qle_bool (cast v) (cast hi)) <$> volumeArray.

(** [array[mask] = value] *)
Definition assign_where (mask : list bool) (value : Z) (array : list Z) : list Z :=
  zip_with (fun (m : bool) (a : Z) => if m then value else a) mask array.

(** The thresholding shared by [onApply] and [LoadFiles]: from the lookup
    of ['Segment_1'] to the update of the segment. *)
Definition apply_threshold (minValue maxValue : string) (seg volume : nat)
  (volumeArray : list Q) : M unit :=
  segmentId <- in_host (Host.GetSegmentIdBySegmentName seg "Segment_1") ;;
  (if bool_decide (segmentId = None) then
     id <- in_host (Host.AddEmptySegment seg "Segment_1") ;;
     Eff.modify (set_NewSegmentId id)
   else
     Eff.modify (set_NewSegmentId segmentId)) ;;;
  (* Get segment as numpy array *)
  id <- Eff.gets NewSegmentId ;;
  segmentArray <- in_host (Host.arrayFromSegmentBinaryLabelmap seg id volume) ;;
  (* Modify the segmentation *)
  let segmentArray := replicate (length segmentArray) 0 in
  lo <- Eff.orelse (float minValue) "ValueError" ;;
  hi <- Eff.orelse (float maxValue) "ValueError" ;;
  let segmentArray := assign_where (in_range lo hi volumeArray) 1 segmentArray in
  id <- Eff.gets NewSegmentId ;;
  in_host (Host.updateSegmentBinaryLabelmapFromArray segmentArray seg id volume).

Definition onApply : M unit :=
  minValue <- toPlainText minBox ;;
  maxValue <- toPlainText maxBox ;;
  seg <- attr currentSegNode ;;
  segmentId <- in_host (Host.GetSegmentIdBySegmentName seg "Segment_1") ;;
  (if bool_decide (segmentId = None) then
     id <- in_host (Host.AddEmptySegment seg "Segment_1") ;;
     Eff.modify (set_NewSegmentId id)
   else
     Eff.modify (set_NewSegmentId segmentId)) ;;;
  (* Get segment as numpy array *)
  id <- Eff.gets NewSegmentId ;;
  volume <- attr currentVolumeNode ;;
  segmentArray <- in_host (Host.arrayFromSegmentBinaryLabelmap seg id volume) ;;
  (* Modify the segmentation *)
  let segmentArray := replicate (length segmentArray) 0 in
  volumeArray <- in_host (Host.arrayFromVolume volume) ;;
  lo <- Eff.orelse (float minValue) "ValueError" ;;
  hi <- Eff.orelse (float maxValue) "ValueError" ;;
  let segmentArray := assign_where (in_range lo hi volumeArray) 1 segmentArray in
  id <- Eff.gets NewSegmentId ;;
  in_host (Host.updateSegmentBinaryLabelmapFromArray segmentArray seg id volume).

Definition onRenderingCheck : M unit := Eff.ret tt.

Definition onRendering : M unit :=
  c <- isChecked RenderButton ;;
  d <- Eff.gets displayNode ;;
  match d with
  | Some d => in_host (Host.SetVisibility d c)
  | None => Eff.ret tt
  end.

(** [self.RenderButton.click()]: an enabled button toggles and emits
    [clicked(bool)], which is connected to [onRendering]. *)
Definition RenderButton_click : M unit :=
  e <- Eff.gets (fun s => enabled (gui s RenderButton)) ;;
  if e then
    c <- isChecked RenderButton ;;
    setChecked RenderButton (negb c) ;;;
    Eff.slot onRendering
  else Eff.ret tt.

Definition onLoadImage (chosen : string) : M unit :=
  Eff.modify (set_imageDirectory chosen).

Definition onLoadSeg (chosen : string) : M unit :=
  Eff.modify (set_segDirectory chosen).

Definition onDir (chosen : string) : M unit :=
  Eff.modify (set_saveDirectory chosen) ;;;
  d <- Eff.gets saveDirectory ;;
  setText DirButton d.

(** [slicer.mrmlScene.Clear(0)]: the scene is emptied, and with it the node
    selections of the segment editor. *)
Definition scene_Clear : M unit :=
  in_host Host.Clear ;;;
  Eff.modify (set_editor_segmentationNode None) ;;;
  Eff.modify (set_editor_sourceVolumeNode None).

Definition RemoveCurrentScene : M unit := scene_Clear.

Definition onImageCheck : M unit := Eff.ret tt.
Definition onSegCheck : M unit := Eff.ret tt.

(** [volumeArray.max()]; an empty array has none ([ValueError]). *)
Fixpoint array_max (l : list Q) : option Q :=
  match l with
  | [] => None
  | x :: rest =>
      match array_max rest with
      | None => Some x
      | Some m => Some (if Qle_bool m x then x else m)
      end
  end.

Definition newline : string := String (ascii_of_nat 10) "".

Definition no_file_message (imageDirectory segDirectory : string) : string :=
  "There are no file to load. Please check image folder and segmentation folder"
  +:+ newline +:+ "                    image folder : " +:+ imageDirectory
  +:+ newline +:+ "                    segmentation folder :" +:+ segDirectory.

(** [LoadFiles], lines 721 to 768: the segmentation of the pair, or a new
    one thresholded from the volume. *)
Definition load_segmentation (pair : string * string) (image_name : string)
  (volume : nat) : M unit :=
  if bool_decide (pair.2 ≠ "") then
    seg <- in_host (Host.loadSegmentation pair.2) ;;
    Eff.modify (set_currentSegNode (Some seg)) ;;;
    Eff.modify (set_editor_segmentationNode (Some seg)) ;;;
    setDisabled ThresholdCheck true ;;;
    setDisabled minBox true ;;;
    setDisabled maxBox true ;;;
    setDisabled ApplyButton true
  else
    setDisabled ThresholdCheck false ;;;
    onThresholdCheck ;;;
    seg <- in_host (Host.add_node (Host.SegmentationNode "Segmentation" None [])) ;;
    Eff.modify (set_currentSegNode (Some seg)) ;;;
    (* only needed for display *)
    call "currentSegNode.CreateDefaultDisplayNodes" ;;;
    in_host (Host.SetName seg image_name) ;;;
    in_host (Host.SetReferenceImageGeometryParameterFromVolumeNode seg volume) ;;;
    Eff.modify (set_editor_segmentationNode (Some seg)) ;;;
    Eff.modify (set_editor_sourceVolumeNode (Some volume)) ;;;
    volumeArray <- in_host (Host.arrayFromVolume volume) ;;
    maxVolume <- Eff.orelse (array_max volumeArray) "ValueError" ;;
    (* self.minBox.setText("0.1") # keep previous minimum value *)
    setText maxBox (format maxVolume) ;;;
    c <- isChecked ThresholdCheck ;;
    if c then
      minValue <- toPlainText minBox ;;
      maxValue <- toPlainText maxBox ;;
      apply_threshold minValue maxValue seg volume volumeArray
    else Eff.ret tt.

(** [LoadFiles], lines 770 to 820: the source volume of the editor and the
    volume rendering with its presets. *)
Definition run_volume_rendering (volume : nat) : M unit :=
  (* setSourceVolumeNode from Slicer 5.2, setMasterVolumeNode before *)
  Eff.modify (set_editor_sourceVolumeNode (Some volume)) ;;;
  (* run volume rendering *)
  setCollapsed renderCollapsibleButton false ;;;
  setEnabled render true ;;;
  setEnabled RenderButton true ;;;
  d <- in_host (Host.CreateDefaultVolumeRenderingNodes volume) ;;
  Eff.modify (set_displayNode (Some d)) ;;;
  p <- in_host (Host.GetVolumePropertyNode d) ;;
  Eff.modify (set_volumePropertyNode (Some p)) ;;;
  call "render.setMRMLVolumePropertyNode" ;;;
  (* add presets *)
  Eff.modify (set_preset_nodes []) ;;;
  Eff.for_each presets
    (fun name =>
       n <- in_host (Host.AddPreset name) ;;
       Eff.modify (fun s => set_preset_nodes (preset_nodes s ++ [n]) s)) ;;;
  Eff.modify (set_needAddProperty false) ;;;
  nodes <- Eff.gets preset_nodes ;;
  first <- Eff.orelse (Py.index nodes 0) "IndexError" ;;
  Eff.modify (set_currentPresetNode (Some first)) ;;;
  call "render.setCurrentNode" ;;;
  (* Center the 3D view on the scene *)
  call "threeDView.resetFocalPoint" ;;;
  c <- isChecked RenderCheck ;;
  if c then
    in_host (Host.SetVisibility d true) ;;;
    setChecked RenderButton true
  else
    in_host (Host.SetVisibility d false) ;;;
    setChecked RenderButton false.

Definition LoadFiles : M unit :=
  (* check volume rendering property needs to add or not + can be change property or not *)
  Eff.modify (set_needAddProperty true) ;;;
  Eff.modify (set_changeProperty false) ;;;
  c <- isChecked RenderButton ;;
  (if c then RenderButton_click else Eff.ret tt) ;;;
  imageDirectory <- Eff.gets imageDirectory ;;
  total_files <- Eff.gets total_files ;;
  if bool_decide (imageDirectory = "") then
    warningDisplay "Please choose image folder"
  else if bool_decide (total_files = 0) then
    segDirectory <- Eff.gets segDirectory ;;
    warningDisplay (no_file_message imageDirectory segDirectory)
  else
    current_file <- Eff.gets current_file ;;
    pair <- fileset_at current_file ;;
    let image_name := find_basename_wo_extension pair.1 in
    (* load volume node and segmentation node *)
    volume <- in_host (Host.loadVolume pair.1) ;;
    Eff.modify (set_currentVolumeNode (Some volume)) ;;;
    in_host (Host.SetName volume image_name) ;;;
    load_segmentation pair image_name volume ;;;
    run_volume_rendering volume.

Definition onFileCombo (index : Z) : M unit :=
  sel <- Eff.gets editor_segmentationNode ;;
  (if bool_decide (sel = None) then Eff.ret tt else RemoveCurrentScene) ;;;
  total_files <- Eff.gets total_files ;;
  if bool_decide (total_files = 0) then Eff.ret tt
  else
    Eff.modify (set_current_file index) ;;;
    LoadFiles.

(** The combo box of the widget: [currentIndexChanged] is connected to
    [onFileCombo]. *)
Definition emit (signal : option Z) : M unit :=
  match signal with
  | Some index => Eff.slot (onFileCombo index)
  | None => Eff.ret tt
  end.

Definition FileComboBox_do (op : Qt.QComboBox -> Qt.QComboBox * option Z) : M unit :=
  fun s => let (c, signal) := op (FileComboBox s) in emit signal (set_FileComboBox c s).

Definition addItem (text : string) : M unit := FileComboBox_do (fun c => Qt.addItem c text).
Definition setCurrentIndex (i : Z) : M unit := FileComboBox_do (fun c => Qt.setCurrentIndex c i).
Definition clear : M unit := FileComboBox_do Qt.clear.

Definition onPre : M unit :=
  i <- Eff.gets current_file ;;
  if bool_decide (i = 0) then
    warningDisplay "This is first file"
  else
    RemoveCurrentScene ;;;
    Eff.modify (fun s => set_current_file (current_file s - 1) s) ;;;
    (* self.LoadFiles() *)
    i <- Eff.gets current_file ;;
    setCurrentIndex i.

Definition onNext : M unit :=
  i <- Eff.gets current_file ;;
  n <- Eff.gets total_files ;;
  if bool_decide (i + 1 = n) then
    warningDisplay "This is last file"
  else
    (* remove current node *)
    RemoveCurrentScene ;;;
    Eff.modify (fun s => set_current_file (current_file s + 1) s) ;;;
    (* self.LoadFiles() *)
    i <- Eff.gets current_file ;;
    setCurrentIndex i.

Definition range (n : Z) : list Z := Z.of_nat <$> seq 0 (Z.to_nat n).

Definition InsertFileCombo : M unit :=
  total_files <- Eff.gets total_files ;;
  Eff.for_each (range total_files)
    (fun index =>
       pair <- fileset_at index ;;
       let image_name := find_basename_wo_extension pair.1 in
       addItem image_name).

Definition RemoveCurrentNodes : M unit :=
  volume <- attr currentVolumeNode ;;
  in_host (Host.RemoveNode volume) ;;;
  seg <- attr currentSegNode ;;
  in_host (Host.RemoveNode seg).

Definition onReset : M unit :=
  Eff.modify (set_saveDirectory "") ;;;
  Eff.modify (set_current_file 0) ;;;
  Eff.modify (set_total_files 0) ;;;
  Eff.modify (set_imageDirectory "") ;;;
  Eff.modify (set_segDirectory "") ;;;
  Eff.modify (set_fileset (Some [])) ;;;
  clear ;;;
  setChecked ImageCheck false ;;;
  setChecked SegCheck true ;;;
  setChecked RenderCheck false ;;;
  setText minBox "0.1" ;;;
  setText maxBox "100000" ;;;
  setDisabled minBox true ;;;
  setDisabled maxBox true ;;;
  setDisabled ApplyButton true ;;;
  setText suffixBox "_seg" ;;;
  setChecked suffixButton true ;;;
  Eff.modify (set_needAddProperty true) ;;;
  Eff.modify (set_changeProperty false) ;;;
  setEnabled RenderButton false ;;;
  setEnabled render false ;;;
  d <- Eff.gets saveDirectory ;;
  setText DirButton d ;;;
  setCollapsed editorCollapsibleButton true ;;;
  setCollapsed renderCollapsibleButton true ;;;
  scene_Clear.

(** The inner loop of [onRun]: the first segmentation file whose unified
    name holds the unified image name or is held by it. *)
Fixpoint find_seg (image_name : string) (seg_files : list string) : option string :=
  match seg_files with
  | [] => None
  | seg_file :: rest =>
      let seg_name := find_basename_wo_extension seg_file in
      let seg_name := Py.re_sub_runs seg_name in
      if Py.contains image_name seg_name || Py.contains seg_name image_name
      then Some seg_file
      else find_seg image_name rest
  end.

(** [image_files] and [seg_files] of [onRun]: for every file type in turn,
    the sorted files of the directory that match it. *)
Definition files_of (h : Host.t) (directory : string) : list string :=
  flat_map (fun files => Py.sorted (Host.glob h (Py.join directory files))) file_types.

Definition onRun : M unit :=
  (* check directory *)
  imageDirectory <- Eff.gets imageDirectory ;;
  segDirectory <- Eff.gets segDirectory ;;
  image_files <- in_host (Eff.gets (fun h => files_of h imageDirectory)) ;;
  seg_files <- in_host (Eff.gets (fun h => files_of h segDirectory)) ;;
  Eff.modify (set_fileset (Some [])) ;;;
  (* find corresponding files *)
  Eff.for_each image_files
    (fun image_file =>
       let image_name := find_basename_wo_extension image_file in
       (* unify confuse hypen or dash characters. *)
       let image_name := Py.re_sub_runs image_name in
       l <- attr fileset ;;
       match find_seg image_name seg_files with
       | Some seg_file => Eff.modify (set_fileset (Some (l ++ [(image_file, seg_file)])))
       | None => Eff.modify (set_fileset (Some (l ++ [(image_file, "")])))
       end) ;;;
  l <- attr fileset ;;
  Eff.modify (set_total_files (Z.of_nat (length l))) ;;;
  Eff.modify (set_current_file 0) ;;;
  setCollapsed editorCollapsibleButton false ;;;
  (* add file list into combobox *)
  InsertFileCombo.

(** [slicer.util.exportNode] from Slicer 5.2, [slicer.util.saveNode] before:
    both write the node to the path. *)
Definition export_or_save (node : nat) (path : string) : M unit :=
  major <- Eff.gets slicer_majorVersion ;;
  minor <- Eff.gets slicer_minorVersion ;;
  if (5 <=? major) && (2 <=? minor) then in_host (Host.exportNode node path)
  else in_host (Host.exportNode node path).

Definition ensure_directory (directory : string) : M unit :=
  in_host (Eff.modify (fun h =>
    if Host.path_exists h directory then h else Host.makedirs directory h)).

(** [onSave], lines 638 to 654: the volume is saved under the name of the
    image file. *)
Definition save_volume (saveDirectory : string) (current_file : Z) : M unit :=
  (* save volume *)
  let volume_directory := Py.join saveDirectory "image" in
  ensure_directory volume_directory ;;;
  pair <- fileset_at current_file ;;
  let volumeFileName := find_basename_wo_extension pair.1 in
  let volume_path := Py.join volume_directory (volumeFileName +:+ ".nii.gz") in
  volume <- attr currentVolumeNode ;;
  export_or_save volume volume_path.

(** [onSave], lines 657 to 689: the segmentation is exported as a labelmap
    through a labelmap node made for it. *)
Definition save_segmentation (saveDirectory : string) (current_file : Z) : M unit :=
  (* save segmentation *)
  let seg_directory := Py.join saveDirectory "segmentation" in
  ensure_directory seg_directory ;;;
  labelmapVolumeNode <- in_host (Host.add_node (Host.LabelMapVolumeNode [] None)) ;;
  seg <- attr currentSegNode ;;
  in_host (Host.ExportAllSegmentsToLabelmapNode seg labelmapVolumeNode) ;;;
  pair <- fileset_at current_file ;;
  segFile <- (if bool_decide (pair.2 ≠ "") then Eff.ret (Py.basename pair.2)
              else in_host (Host.GetName seg)) ;;
  let segFileName := find_basename_wo_extension segFile in
  suffixed <- isChecked suffixButton ;;
  suffix <- toPlainText suffixBox ;;
  let seg_path :=
    if suffixed then Py.join seg_directory (segFileName +:+ suffix +:+ ".nii.gz")
    else Py.join seg_directory (segFileName +:+ ".nii.gz") in
  export_or_save labelmapVolumeNode seg_path ;;;
  colorNode <- in_host (Host.GetColorNode labelmapVolumeNode) ;;
  in_host (Host.RemoveNode colorNode) ;;;
  in_host (Host.RemoveNode labelmapVolumeNode).

Definition onSave : M unit :=
  saveDirectory <- Eff.gets saveDirectory ;;
  total_files <- Eff.gets total_files ;;
  if bool_decide (saveDirectory = "") then
    warningDisplay "You must set destination folder"
  else if bool_decide (total_files = 0) then
    warningDisplay "You must load file first"
  else
    current_file <- Eff.gets current_file ;;
    c <- isChecked ImageCheck ;;
    (if c then save_volume saveDirectory current_file else Eff.ret tt) ;;;
    c <- isChecked SegCheck ;;
    if c then save_segmentation saveDirectory current_file else Eff.ret tt.

(** The user picks an entry of the combo box. *)
Definition pick (i : Z) : M unit := setCurrentIndex i.

(** ** The states of the widget *)

(** What says which file is shown. *)
Definition nav (s : state) : Z * Z * option (list (string * string)) * Qt.QComboBox :=
  (current_file s, total_files s, fileset s, FileComboBox s).

(** A slot that leaves [nav] as it is. *)
Definition keeps_nav : relation state := fun s s' => nav s' = nav s.

(** What the start of [LoadFiles] leaves as it is. *)
Definition keeps_load (s s1 : state) : Prop :=
  imageDirectory s1 = imageDirectory s /\ segDirectory s1 = segDirectory s /\
  total_files s1 = total_files s /\ current_file s1 = current_file s /\
  fileset s1 = fileset s /\ Host.files (host s1) = Host.files (host s) /\
  forall w, w <> RenderButton -> gui s1 w = gui s w.

(** What the volume rendering at the end of [LoadFiles] leaves as it
    is. *)
Definition keeps_loaded (s s1 : state) : Prop :=
  currentVolumeNode s1 = currentVolumeNode s /\ currentSegNode s1 = currentSegNode s /\
  editor_segmentationNode s1 = editor_segmentationNode s /\
  gui s1 ThresholdCheck = gui s ThresholdCheck /\ gui s1 minBox = gui s minBox /\
  gui s1 maxBox = gui s maxBox /\ gui s1 ApplyButton = gui s ApplyButton /\
  Host.keeps_data (host s) (host s1).

(** What the loading of the segmentation in [LoadFiles] leaves as it is:
    the rendering check box. *)
Definition keeps_render (s s1 : state) : Prop :=
  gui s1 RenderCheck = gui s RenderCheck.

(** One event.  The slots that move through the files are named; every
    other slot, the widgets the user edits and whatever happens to the host
    between two events leave [nav] as it is. *)
Inductive step : state -> state -> Prop :=
| step_onRun s : step s (Eff.exec onRun s)
| step_onPre s : step s (Eff.exec onPre s)
| step_onNext s : step s (Eff.exec onNext s)
| step_onReset s : step s (Eff.exec onReset s)
| step_pick s i : 0 <= i < Qt.count (FileComboBox s) -> step s (Eff.exec (pick i) s)
| step_other s s' : nav s' = nav s -> step s s'.

Inductive reachable : state -> Prop :=
| reachable_init major minor h : reachable (init major minor h)
| reachable_step s s' : reachable s -> step s s' -> reachable s'.

End Numbers.

(** ** Notions used to state the names and the pairing of [onRun] *)

(** [name] is what [file_basename] has in front of its first [ext]. *)
Definition first_at (ext file_basename name : string) : Prop :=
  (exists rest, file_basename = name +:+ ext +:+ rest) /\
  forall pre post, file_basename = pre +:+ ext +:+ post ->
    (String.length name <= String.length pre)%nat.

(** [name] is [file_basename] without extension: what is in front of the
    first [.nrrd]; without [.nrrd], what is in front of the first [.nii]
    (where a [.nii.gz] starts too); all of it when it has neither. *)
Definition without_extension (file_basename name : string) : Prop :=
  first_at ".nrrd" file_basename name \/
  (~ Py.substring ".nrrd" file_basename /\ first_at ".nii" file_basename name) \/
  (~ Py.substring ".nrrd" file_basename /\ ~ Py.substring ".nii" file_basename /\
   name = file_basename).

(** A hyphen or an underscore. *)
Definition separator (c : ascii) : Prop := c = "-"%char \/ c = "_"%char.

(** [rest] is [s] without the separators it starts with. *)
Inductive after_run : string -> string -> Prop :=
| after_run_end : after_run "" ""
| after_run_separator c s rest :
    separator c -> after_run s rest -> after_run (String c s) rest
| after_run_other c s : ~ separator c -> after_run (String c s) (String c s).

(** [t] is [s] with every run of hyphens and underscores replaced by one
    underscore: a separator starts a run, which takes all the separators
    that follow. *)
Inductive runs_replaced : string -> string -> Prop :=
| runs_replaced_end : runs_replaced "" ""
| runs_replaced_other c s t :
    ~ separator c -> runs_replaced s t -> runs_replaced (String c s) (String c t)
| runs_replaced_run c s rest t :
    separator c -> after_run s rest -> runs_replaced rest t ->
    runs_replaced (String c s) (String "_" t).

(** The name under which a file is compared: its basename without
    extension, runs of hyphens and underscores replaced. *)
Definition normal_form (path name : string) : Prop :=
  exists stripped,
    without_extension (Py.basename path) stripped /\ runs_replaced stripped name.

(** The image and the segmentation file go together: one of the two names
    is a substring of the other. *)
Definition fuzzy_match (image_file seg_file : string) : Prop :=
  exists image_name seg_name,
    normal_form image_file image_name /\ normal_form seg_file seg_name /\
    (Py.substring image_name seg_name \/ Py.substring seg_name image_name).

(** The name that [onRun] compares. *)
Definition unified_name (path : string) : string :=
  Py.re_sub_runs (find_basename_wo_extension path).

(** [seg_file] is what the image is paired with: the first of [seg_files]
    that goes with it, the empty string when none does. *)
Definition first_match (image_file : string) (seg_files : list string)
  (seg_file : string) : Prop :=
  (exists before after,
     seg_files = before ++ seg_file :: after /\ fuzzy_match image_file seg_file /\
     Forall (fun x => ~ fuzzy_match image_file x) before) \/
  (seg_file = "" /\ Forall (fun x => ~ fuzzy_match image_file x) seg_files).

(** The pair that [onRun] appends for an image file. *)
Definition pair_of (seg_files : list string) (image_file : string) : string * string :=
  (image_file, default "" (find_seg (unified_name image_file) seg_files)).

(** ** [getDefaultSourceVolumeNodeID] *)

(** The composite node of a slice view, with its two volume ids ([None] or
    the empty string when there is no volume). *)
Record slice_composite : Type := {
  BackgroundVolumeID : option string;
  ForegroundVolumeID : option string;
}.

(** The truth value of an id. *)
Definition truthy (id : option string) : bool :=
  match id with
  | Some s => negb (bool_decide (s = ""))
  | None => false
  end.

(** The loop over the slice views of the layout, from a given
    [firstForegroundVolumeID]; a view without widget ([None]) is skipped. *)
Fixpoint default_source_from (views : list (option slice_composite))
  (firstForegroundVolumeID : option string) : option string :=
  match views with
  | [] => firstForegroundVolumeID
  | None :: rest => default_source_from rest firstForegroundVolumeID
  | Some compositeNode :: rest =>
      if truthy (BackgroundVolumeID compositeNode) then BackgroundVolumeID compositeNode
      else if truthy (ForegroundVolumeID compositeNode)
              && negb (truthy firstForegroundVolumeID)
      then default_source_from rest (ForegroundVolumeID compositeNode)
      else default_source_from rest firstForegroundVolumeID
  end.

Definition getDefaultSourceVolumeNodeID (views : list (option slice_composite))
  : option string :=
  default_source_from views None.

(** A view that shows a volume in the background, in the foreground. *)
Definition has_background (view : option slice_composite) : Prop :=
  match view with
  | Some compositeNode => truthy (BackgroundVolumeID compositeNode) = true
  | None => False
  end.

Definition has_foreground (view : option slice_composite) : Prop :=
  match view with
  | Some compositeNode => truthy (ForegroundVolumeID compositeNode) = true
  | None => False
  end.

End EasySegmentation.

(* ===================================================================== *)
(** * Example states *)
(* ===================================================================== *)

(** A host with two volumes in [/d] and, in [/out], a picture left by an
    earlier capture and a file of another kind. *)
Definition iv_example_host : Host.t :=
  {| Host.files := list_to_map
       [("/d/b.nii.gz", Host.Volume [1000 # 1; 2000 # 1; 3000 # 1]%Q);
        ("/d/a.nii.gz", Host.Volume [5 # 1]%Q);
        ("/out/image_old.png", Host.Image);
        ("/out/keep.txt", Host.Volume [])];
     Host.dirs := {["/d"; "/out"]};
     Host.nodes := []; Host.scene := ∅; Host.trace := [];
     Host.glob_magic_dir := fun _ _ _ => [] |}.

(** The ImplantVideo widget after the image folder and the destination
    folder were chosen, after the files were listed, and after the second
    file was picked. *)
Definition iv_example_chosen : ImplantVideo.state :=
  Eff.exec (ImplantVideo.onLoadImage "/d" ;;; ImplantVideo.onDir "/out")
    (ImplantVideo.init iv_example_host).

Definition iv_example_state : ImplantVideo.state :=
  Eff.exec ImplantVideo.onRun iv_example_chosen.

Definition iv_example_second : ImplantVideo.state :=
  Eff.exec (ImplantVideo.pick 1) iv_example_state.

(** Numbers as text, for the examples: the texts that the boxes of the
    examples hold. *)
Definition es_example_float (s : string) : option Q :=
  if bool_decide (s = "0.1") then Some (Numpy.float64 (1 # 10))
  else if bool_decide (s = "0.1000000016") then
    Some (Numpy.float64 (1000000016 # 10000000000))
  else if bool_decide (s = "5.0") then Some (5 # 1)%Q
  else if bool_decide (s = "3000.0") then Some (3000 # 1)%Q
  else if bool_decide (s = "100000") then Some (100000 # 1)%Q
  else None.

(** The volumes of the examples are compared as [float32]. *)
Definition es_example_cast : Q -> Q := Numpy.float32.

Definition es_example_format (q : Q) : string :=
  if Qle_bool q (5 # 1) then "5.0" else "3000.0".

Definition es_example_presets : list string := ["CT-AAA"; "CT-Bone"].

(** A host with two images in [/d], one of them with a segmentation in
    [/s]. *)
Definition es_example_host : Host.t :=
  {| Host.files := list_to_map
       [("/d/b-1.nii.gz", Host.Volume [0 # 1; 2000 # 1; 3000 # 1]%Q);
        ("/d/a.nii.seg.nrrd", Host.Volume [5 # 1]%Q);
        ("/d/x.txt", Host.Image);
        ("/s/b_1_seg.nrrd",
         Host.Segmentation [{| Host.segmentName := "bone"; Host.labelmap := [0; 1; 1] |}])];
     Host.dirs := {["/d"; "/s"; "/out"]};
     Host.nodes := []; Host.scene := ∅; Host.trace := [];
     Host.glob_magic_dir := fun _ _ _ => [] |}.

(** The EasySegmentation widget of Slicer 5.6 after the three folders were
    chosen, and after the files were listed (which loads the first one). *)
Definition es_example_chosen : EasySegmentation.state :=
  Eff.exec (EasySegmentation.onLoadImage "/d" ;;; EasySegmentation.onLoadSeg "/s" ;;;
            EasySegmentation.onDir "/out")
    (EasySegmentation.init 5 6 es_example_host).

Definition es_example_state : EasySegmentation.state :=
  Eff.exec (EasySegmentation.onRun es_example_float es_example_format es_example_presets es_example_cast)
    es_example_chosen.

(** A host with one volume of [float32] voxels: its voxel is [0.1] as
    [float32] holds it.  The EasySegmentation widget after the image folder
    was chosen and the file listed and loaded, and after the text
    [0.1000000016] was typed into the minimum box. *)
Definition es_float32_host : Host.t :=
  {| Host.files := list_to_map [("/f/v.nrrd", Host.Volume [Numpy.float32 (1 # 10)])];
     Host.dirs := {["/f"]};
     Host.nodes := []; Host.scene := ∅; Host.trace := [];
     Host.glob_magic_dir := fun _ _ _ => [] |}.

Definition es_float32_state : EasySegmentation.state :=
  Eff.exec (EasySegmentation.onLoadImage "/f" ;;;
            EasySegmentation.onRun es_example_float es_example_format es_example_presets
              es_example_cast ;;;
            EasySegmentation.setText EasySegmentation.minBox "0.1000000016")
    (EasySegmentation.init 5 6 es_float32_host).

(* ===================================================================== *)
(** * Lemmas and theorems *)
(* ===================================================================== *)

(** ** Strings *)

Lemma app_cons_str (c : ascii) (a b : string) : String c a +:+ b = String c (a +:+ b).
Proof. reflexivity. Qed.

Lemma app_nil_l_str (b : string) : "" +:+ b = b.
Proof. reflexivity. Qed.

Ltac sapp := rewrite ?app_cons_str, ?app_nil_l_str.
Ltac sapp_in H := rewrite ?app_cons_str, ?app_nil_l_str in H.

Lemma app_nil_r_str (s : string) : s +:+ "" = s.
Proof. induction s as [|c s IH]; sapp; [done | by rewrite IH]. Qed.

Lemma app_assoc_str (a b c : string) : (a +:+ b) +:+ c = a +:+ (b +:+ c).
Proof. induction a as [|x a IH]; sapp; [done | by rewrite IH]. Qed.

Lemma length_app_str (a b : string) :
  String.length (a +:+ b) = (String.length a + String.length b)%nat.
Proof. induction a as [|x a IH]; sapp; simpl; [done | by rewrite IH]. Qed.

Lemma startswith_spec (s p : string) :
  Py.startswith s p = true <-> exists r, s = p +:+ r.
Proof.
  revert s. induction p as [|a p IH]; intros s; simpl.
  - split; [intros _; eexists; reflexivity | done].
  - destruct s as [|b s]; simpl.
    + split; [done | intros [r Hr]; discriminate].
    + destruct (decide (a = b)) as [->|Hne].
      * rewrite IH. split; intros [r Hr]; exists r; sapp; sapp_in Hr; congruence.
      * split; [done | intros [r Hr]; sapp_in Hr; congruence].
Qed.

Lemma take_drop_str (n : nat) (s : string) : Py.take n s +:+ Py.drop n s = s.
Proof.
  revert s. induction n as [|n IH]; intros [|c s]; simpl; sapp; try done.
  by rewrite IH.
Qed.

Lemma take_app_str (a b : string) : Py.take (String.length a) (a +:+ b) = a.
Proof. induction a as [|x a IH]; sapp; simpl; [by destruct b | by rewrite IH]. Qed.

Lemma drop_app_str (a b : string) : Py.drop (String.length a) (a +:+ b) = b.
Proof. induction a as [|x a IH]; sapp; simpl; [done | by rewrite IH]. Qed.

Lemma length_take_str (n : nat) (s : string) :
  String.length (Py.take n s) = (n `min` String.length s)%nat.
Proof.
  revert s. induction n as [|n IH]; intros [|c s]; simpl; try done.
  by rewrite IH.
Qed.

(** [find_nat] finds an occurrence, and the first one. *)
Lemma find_nat_Some (sub s : string) (i : nat) :
  Py.find_nat sub s = Some i ->
  exists post, s = Py.take i s +:+ sub +:+ post /\ String.length (Py.take i s) = i.
Proof.
  revert i. induction s as [|c s IH]; intros i; cbn [Py.find_nat].
  - destruct (Py.startswith "" sub) eqn:E; [|done].
    intros [= <-]. apply startswith_spec in E as [r Hr]. exists r. simpl. sapp. done.
  - destruct (Py.startswith (String c s) sub) eqn:E.
    + intros [= <-]. apply startswith_spec in E as [r Hr]. exists r. simpl. sapp. done.
    + destruct (Py.find_nat sub s) as [j|] eqn:Ej; cbn [fmap option_fmap option_map]; [|done].
      intros [= <-]. destruct (IH j eq_refl) as (post & Hs & Hl).
      exists post. simpl. sapp. split; [by f_equal | by f_equal].
Qed.

Lemma find_nat_None (sub s : string) :
  Py.find_nat sub s = None -> forall pre post, s <> pre +:+ sub +:+ post.
Proof.
  induction s as [|c s IH]; cbn [Py.find_nat].
  - destruct (Py.startswith "" sub) eqn:E; [done|]. intros _ pre post Hs.
    destruct pre; sapp_in Hs; [|done].
    assert (Py.startswith "" sub = true) by (apply startswith_spec; eauto). congruence.
  - destruct (Py.startswith (String c s) sub) eqn:E; [done|].
    destruct (Py.find_nat sub s) eqn:Ej; cbn [fmap option_fmap option_map]; [done|].
    intros _ pre post Hs.
    destruct pre as [|x pre]; sapp_in Hs.
    + assert (Py.startswith (String c s) sub = true) by (apply startswith_spec; eauto).
      congruence.
    + injection Hs as -> Hs. by eapply IH.
Qed.

(** [sub in s] holds exactly when [s] is some text, [sub], and some text. *)
Lemma contains_spec (sub s : string) :
  Py.contains sub s = true <-> exists pre post, s = pre +:+ sub +:+ post.
Proof.
  unfold Py.contains. destruct (Py.find_nat sub s) as [i|] eqn:E.
  - split; [intros _|done]. apply find_nat_Some in E as (post & Hs & _). eauto.
  - split; [done|]. intros (pre & post & Hs). by eapply find_nat_None in Hs.
Qed.

Lemma contains_false (sub s : string) :
  Py.contains sub s = false <-> forall pre post, s <> pre +:+ sub +:+ post.
Proof.
  rewrite <-not_true_iff_false, contains_spec. split.
  - intros H pre post Hs. apply H. eauto.
  - intros H (pre & post & Hs). by eapply H.
Qed.

(** The first occurrence: [sub] does not occur in [s] before [find_nat]. *)
Lemma find_nat_first (sub s pre post : string) (i : nat) :
  Py.find_nat sub s = Some i -> s = pre +:+ sub +:+ post -> (i <= String.length pre)%nat.
Proof.
  revert i pre. induction s as [|c s IH]; intros i pre; cbn [Py.find_nat].
  - destruct (Py.startswith "" sub); [|done]. intros [= <-] _. lia.
  - destruct (Py.startswith (String c s) sub) eqn:E.
    + intros [= <-] _. lia.
    + destruct (Py.find_nat sub s) as [j|] eqn:Ej; cbn [fmap option_fmap option_map]; [|done].
      intros [= <-] Hs. destruct pre as [|x pre]; sapp_in Hs.
      * assert (Py.startswith (String c s) sub = true) by (apply startswith_spec; eauto).
        congruence.
      * injection Hs as -> Hs. simpl. apply le_n_S. by eapply IH.
Qed.

Lemma clip_nat (s : string) (n : nat) :
  (n <= String.length s)%nat -> Py.clip s (Z.of_nat n) = n.
Proof.
  intros Hn. unfold Py.clip, Py.len.
  destruct (Z.ltb_spec (Z.of_nat n) 0); lia.
Qed.

Lemma slice_from_app (a b : string) : Py.slice_from (a +:+ b) (Py.len a) = b.
Proof.
  unfold Py.slice_from, Py.len. rewrite clip_nat.
  - apply drop_app_str.
  - rewrite length_app_str. lia.
Qed.

Lemma slice_to_app (a b : string) : Py.slice_to (a +:+ b) (Py.len a) = a.
Proof.
  unfold Py.slice_to, Py.len. rewrite clip_nat.
  - apply take_app_str.
  - rewrite length_app_str. lia.
Qed.

(** [s.endswith(p)] holds exactly when [s] is some text followed by [p]. *)
Lemma endswith_spec (s p : string) :
  Py.endswith s p = true <-> exists pre, s = pre +:+ p.
Proof.
  unfold Py.endswith. rewrite andb_true_iff, !bool_decide_eq_true. split.
  - intros [H Hl]. unfold Py.slice_from in H.
    set (n := Py.clip s (Py.len s - Py.len p)) in H. exists (Py.take n s).
    rewrite <-H. symmetry. apply take_drop_str.
  - intros [pre ->]. unfold Py.len. rewrite length_app_str. split; [|lia].
    replace (Z.of_nat (String.length pre + String.length p) - Z.of_nat (String.length p))
      with (Py.len pre) by (unfold Py.len; lia).
    apply slice_from_app.
Qed.

Lemma app_inv_tail_str (a b c : string) : a +:+ c = b +:+ c -> a = b.
Proof.
  revert b. induction a as [|x a IH]; intros [|y b] H; sapp_in H.
  - done.
  - apply (f_equal String.length) in H. simpl in H. rewrite length_app_str in H. lia.
  - apply (f_equal String.length) in H. simpl in H. rewrite length_app_str in H. lia.
  - injection H as -> H. f_equal. by apply IH.
Qed.

Lemma app_inv_head_str (a b c : string) : a +:+ b = a +:+ c -> b = c.
Proof. induction a as [|x a IH]; sapp; [done|]. intros [= H]. by apply IH. Qed.

Lemma app_inv_length_str (a b c d : string) :
  a +:+ c = b +:+ d -> String.length c = String.length d -> a = b /\ c = d.
Proof.
  revert b. induction a as [|x a IH]; intros [|y b] H Hl; sapp_in H.
  - done.
  - apply (f_equal String.length) in H. simpl in H. rewrite length_app_str in H. lia.
  - apply (f_equal String.length) in H. simpl in H. rewrite length_app_str in H. lia.
  - injection H as -> H. destruct (IH b H Hl) as [-> ->]. done.
Qed.

(** ** [rfind], [basename], [join] *)

Lemma rfind_nat_None (sub s : string) :
  Py.find_nat sub s = None -> Py.rfind_nat sub s = None.
Proof.
  induction s as [|c s IH]; cbn [Py.find_nat Py.rfind_nat].
  - by destruct (Py.startswith "" sub).
  - destruct (Py.startswith (String c s) sub); [done|].
    destruct (Py.find_nat sub s); [done|]. intros _. by rewrite IH.
Qed.

Lemma rfind_nat_app (sub a b : string) (j : nat) :
  Py.rfind_nat sub b = Some j -> Py.rfind_nat sub (a +:+ b) = Some (String.length a + j)%nat.
Proof.
  intros Hb. induction a as [|x a IH]; sapp; [done|].
  cbn [Py.rfind_nat]. by rewrite IH.
Qed.

Lemma slashless_not_startswith (n : string) : Py.slashless n -> Py.startswith n "/" = false.
Proof.
  intros H. apply not_true_iff_false. intros [r ->]%startswith_spec.
  unfold Py.slashless in H. rewrite contains_false in H. by apply (H "" r).
Qed.

Lemma rfind_slashless (n : string) : Py.slashless n -> Py.rfind n "/" = -1.
Proof.
  unfold Py.slashless, Py.contains, Py.rfind. intros H.
  destruct (Py.find_nat "/" n) eqn:E; [done|]. by rewrite rfind_nat_None.
Qed.

Lemma rfind_after_slash (d n : string) :
  Py.slashless n -> Py.rfind (d +:+ "/" +:+ n) "/" + 1 = Py.len (d +:+ "/").
Proof.
  intros H. unfold Py.rfind, Py.len.
  rewrite (rfind_nat_app "/" d ("/" +:+ n) 0).
  - rewrite length_app_str. simpl. lia.
  - sapp. cbn [Py.rfind_nat]. unfold Py.slashless, Py.contains in H.
    destruct (Py.find_nat "/" n) eqn:E; [done|]. rewrite rfind_nat_None by done.
    reflexivity.
Qed.

Lemma split_dir_prefix (d n : string) :
  Py.dir_prefix d -> Py.slashless n ->
  Py.dirprefix (d +:+ n) = d /\ Py.basename (d +:+ n) = n.
Proof.
  intros [->|[d' ->]] Hn; unfold Py.dirprefix, Py.basename.
  - sapp. rewrite rfind_slashless by done. change (-1 + 1) with (Z.of_nat 0).
    unfold Py.slice_to, Py.slice_from. rewrite clip_nat by lia. done.
  - rewrite app_assoc_str, rfind_after_slash by done.
    rewrite <-app_assoc_str. by rewrite slice_to_app, slice_from_app.
Qed.

Lemma join_dir_prefix (a : string) : Py.dir_prefix (Py.join a "").
Proof.
  unfold Py.join. simpl.
  destruct (bool_decide (a = "")) eqn:E1; simpl.
  - apply bool_decide_eq_true in E1 as ->. by left.
  - destruct (Py.endswith a "/") eqn:E2.
    + apply endswith_spec in E2 as [pre ->]. right. exists pre. by rewrite app_nil_r_str.
    + right. exists a. done.
Qed.

Lemma join_name (a n : string) :
  Py.startswith n "/" = false -> Py.join a n = Py.join a "" +:+ n.
Proof.
  intros H. unfold Py.join. rewrite H. simpl.
  destruct (bool_decide (a = "") || Py.endswith a "/").
  - by rewrite app_nil_r_str.
  - by rewrite !app_assoc_str.
Qed.

Lemma basename_join (a n : string) : Py.slashless n -> Py.basename (Py.join a n) = n.
Proof.
  intros H. rewrite (join_name a n); [| by apply slashless_not_startswith].
  by apply split_dir_prefix; [apply join_dir_prefix|].
Qed.

Lemma dirprefix_join (a n : string) : Py.slashless n -> Py.dirprefix (Py.join a n) = Py.join a "".
Proof.
  intros H. rewrite (join_name a n); [| by apply slashless_not_startswith].
  by apply split_dir_prefix; [apply join_dir_prefix|].
Qed.

(** ** [fnmatch] *)

Lemma fnmatch_nil (name : string) : Py.fnmatch "" name = true <-> name = "".
Proof. simpl. by rewrite bool_decide_eq_true. Qed.

Lemma fnmatch_star (pat name : string) :
  Py.fnmatch (String "*" pat) name = true <->
  exists pre rest, name = pre +:+ rest /\ Py.fnmatch pat rest = true.
Proof.
  cbn [Py.fnmatch]. rewrite bool_decide_eq_true_2 by done.
  induction name as [|c name IH].
  - rewrite orb_false_r. split.
    + intros H. by exists "", "".
    + intros (pre & rest & Hn & H). destruct pre; sapp_in Hn; [by subst|done].
  - rewrite orb_true_iff, IH. split.
    + intros [H|(pre & rest & -> & H)].
      * by exists "", (String c name).
      * by exists (String c pre), rest.
    + intros (pre & rest & Hn & H). destruct pre as [|x pre]; sapp_in Hn.
      * left. by subst.
      * injection Hn as -> ->. right. eauto.
Qed.

Lemma fnmatch_char (c : ascii) (pat name : string) :
  Py.literal_char c = true ->
  Py.fnmatch (String c pat) name = true <->
  exists rest, name = String c rest /\ Py.fnmatch pat rest = true.
Proof.
  unfold Py.literal_char. rewrite andb_true_iff, !negb_true_iff, !bool_decide_eq_false.
  intros [H1 H2]. cbn [Py.fnmatch]. rewrite bool_decide_eq_false_2 by done.
  destruct name as [|d name].
  - split; [done | by intros (? & ? & ?)].
  - rewrite (bool_decide_eq_false_2 _ H2), orb_false_l, andb_true_iff, bool_decide_eq_true.
    split.
    + intros [-> H]. eauto.
    + intros (rest & [= -> ->] & H). done.
Qed.

Lemma fnmatch_literal (lit pat name : string) :
  Py.literal lit = true ->
  Py.fnmatch (lit +:+ pat) name = true <->
  exists rest, name = lit +:+ rest /\ Py.fnmatch pat rest = true.
Proof.
  revert name. induction lit as [|c lit IH]; intros name; sapp.
  - intros _. split; [eauto | by intros (rest & -> & H)].
  - cbn [Py.literal]. rewrite andb_true_iff. intros [Hc Hl].
    rewrite fnmatch_char by done. split.
    + intros (r & -> & H). apply IH in H as (rest & -> & H); [|done]. eauto.
    + intros (rest & -> & H). sapp. eexists. split; [done|]. apply IH; eauto.
Qed.

(** A pattern [*lit]: the names that end with [lit]. *)
Lemma fnmatch_suffix (lit name : string) :
  Py.literal lit = true ->
  Py.fnmatch (String "*" lit) name = true <-> exists stem, name = stem +:+ lit.
Proof.
  intros Hl. rewrite fnmatch_star. split.
  - intros (pre & rest & -> & H).
    rewrite <-(app_nil_r_str lit) in H. apply fnmatch_literal in H as (r & -> & H); [|done].
    apply fnmatch_nil in H as ->. rewrite app_nil_r_str. eauto.
  - intros [stem ->]. exists stem, lit. split; [done|].
    rewrite <-(app_nil_r_str lit) at 1. apply fnmatch_literal; [done|].
    exists "". by rewrite app_nil_r_str.
Qed.

(** A pattern [pre*suf]: the names that start with [pre] and go on to end
    with [suf]. *)
Lemma fnmatch_prefix_suffix (pre suf name : string) :
  Py.literal pre = true -> Py.literal suf = true ->
  Py.fnmatch (pre +:+ String "*" suf) name = true <->
  exists mid, name = pre +:+ mid +:+ suf.
Proof.
  intros Hp Hs. rewrite fnmatch_literal by done. split.
  - intros (rest & -> & H). apply fnmatch_suffix in H as [mid ->]; eauto.
  - intros [mid ->]. eexists. split; [done|]. apply fnmatch_suffix; eauto.
Qed.

(** ** [glob] *)

Lemma glob_name_spec (pat name : string) :
  Host.glob_name pat name = true <->
  name <> "" /\ Py.slashless name /\ Py.fnmatch pat name = true /\
  (Py.startswith name "." = false \/ Py.startswith pat "." = true).
Proof.
  unfold Host.glob_name, Py.slashless.
  rewrite !andb_true_iff, orb_true_iff, !negb_true_iff, bool_decide_eq_false. tauto.
Qed.

(** The paths found for a pattern in a directory are the names of the
    directory that match. *)
Lemma glob_match_join (dir pat p : string) :
  Py.slashless pat ->
  Host.glob_match (Py.join dir pat) p = true <->
  exists name, p = Py.join dir name /\ Host.glob_name pat name = true.
Proof.
  intros Hpat. unfold Host.glob_match.
  rewrite dirprefix_join, basename_join by done.
  rewrite andb_true_iff, startswith_spec. split.
  - intros [[r ->] H]. rewrite slice_from_app in H. exists r. split; [|done].
    apply glob_name_spec in H as (_ & Hr & _).
    rewrite (join_name dir r); [done | by apply slashless_not_startswith].
  - intros (name & -> & H). pose proof H as (_ & Hn & _)%glob_name_spec.
    rewrite (join_name dir name); [| by apply slashless_not_startswith].
    split; [eauto|]. by rewrite slice_from_app.
Qed.

Lemma elem_of_paths (h : Host.t) (p : string) :
  p ∈ Host.paths h <-> p ∈ dom (Host.files h) \/ p ∈ Host.dirs h.
Proof. unfold Host.paths. rewrite elem_of_elements. set_solver. Qed.

Lemma NoDup_paths (h : Host.t) : NoDup (Host.paths h).
Proof. unfold Host.paths. apply NoDup_elements. Qed.

Lemma contains_char_cons (c x : ascii) (s : string) :
  Py.contains (String c "") (String x s) =
  bool_decide (c = x) || Py.contains (String c "") s.
Proof.
  unfold Py.contains. cbn [Py.find_nat Py.startswith].
  destruct (decide (c = x)) as [->|Hne].
  - by rewrite bool_decide_eq_true_2.
  - rewrite bool_decide_eq_false_2 by done. by destruct (Py.find_nat (String c "") s).
Qed.

Lemma contains_char_app (c : ascii) (a b : string) :
  Py.contains (String c "") (a +:+ b) =
  Py.contains (String c "") a || Py.contains (String c "") b.
Proof.
  induction a as [|x a IH]; sapp.
  - by destruct b.
  - by rewrite !contains_char_cons, IH, orb_assoc.
Qed.

(** A directory without special character has none in front of its
    entries. *)
Lemma has_magic_join (a : string) : Py.has_magic (Py.join a "") = Py.has_magic a.
Proof.
  unfold Py.join, Py.has_magic. simpl.
  destruct (bool_decide (a = "") || Py.endswith a "/").
  - by rewrite app_nil_r_str.
  - by rewrite !contains_char_app, !orb_false_r.
Qed.

Lemma has_magic_dirprefix (dir pat : string) :
  Py.slashless pat -> Py.has_magic (Py.dirprefix (Py.join dir pat)) = Py.has_magic dir.
Proof. intros Hp. by rewrite dirprefix_join, has_magic_join. Qed.

Lemma glob_plain (h : Host.t) (pathname : string) :
  Py.has_magic (Py.dirprefix pathname) = false ->
  Host.glob h pathname = List.filter (Host.glob_match pathname) (Host.paths h).
Proof. unfold Host.glob. by intros ->. Qed.

Lemma elem_of_glob (h : Host.t) (pathname p : string) :
  Py.has_magic (Py.dirprefix pathname) = false ->
  p ∈ Host.glob h pathname <->
  (p ∈ dom (Host.files h) \/ p ∈ Host.dirs h) /\ Host.glob_match pathname p = true.
Proof.
  intros Hm. rewrite glob_plain by done.
  rewrite list_elem_of_In, filter_In, <-list_elem_of_In.
  by rewrite elem_of_paths.
Qed.

Lemma NoDup_glob (h : Host.t) (pathname : string) :
  Py.has_magic (Py.dirprefix pathname) = false -> NoDup (Host.glob h pathname).
Proof.
  intros Hm. rewrite glob_plain by done.
  apply NoDup_ListNoDup, List.NoDup_filter, NoDup_ListNoDup, NoDup_paths.
Qed.

(** ** [sorted] *)

Lemma sorted_Permutation (l : list string) : Py.sorted l ≡ₚ l.
Proof. apply merge_sort_Permutation. Qed.

Lemma sorted_StronglySorted (l : list string) : StronglySorted String.le (Py.sorted l).
Proof. apply StronglySorted_merge_sort; apply _. Qed.

Lemma elem_of_sorted (l : list string) (p : string) : p ∈ Py.sorted l <-> p ∈ l.
Proof. by rewrite sorted_Permutation. Qed.

Lemma length_sorted (l : list string) : length (Py.sorted l) = length l.
Proof. by rewrite sorted_Permutation. Qed.

Lemma NoDup_sorted (l : list string) : NoDup l -> NoDup (Py.sorted l).
Proof. by rewrite sorted_Permutation. Qed.

(** Sorting a sorted list changes nothing: the second sort of
    [onCreateVideo] has no effect. *)
Lemma sorted_idemp (l : list string) : Py.sorted (Py.sorted l) = Py.sorted l.
Proof.
  apply (Sorted_unique String.le).
  - apply Sorted_merge_sort; apply _.
  - apply Sorted_merge_sort; apply _.
  - apply sorted_Permutation.
Qed.

(** The order of the listing does not matter. *)
Lemma sorted_perm (l1 l2 : list string) : l1 ≡ₚ l2 -> Py.sorted l1 = Py.sorted l2.
Proof.
  intros H. apply (Sorted_unique String.le).
  - apply Sorted_merge_sort; apply _.
  - apply Sorted_merge_sort; apply _.
  - by rewrite !sorted_Permutation.
Qed.

(** ** Computations that keep a relation *)

Section preserves.
Context {S : Type} (R : relation S) `{!PreOrder R}.

Lemma preserves_ret {A} (a : A) : Eff.preserves R (Eff.ret a).
Proof. intros s. reflexivity. Qed.

Lemma preserves_raise {A} (e : string) : Eff.preserves R (@Eff.raise S A e).
Proof. intros s. reflexivity. Qed.

Lemma preserves_gets {A} (f : S -> A) : Eff.preserves R (Eff.gets f).
Proof. intros s. reflexivity. Qed.

Lemma preserves_orelse {A} (o : option A) (e : string) : Eff.preserves R (Eff.orelse o e).
Proof. intros s. destruct o; reflexivity. Qed.

Lemma preserves_modify (f : S -> S) : (forall s, R s (f s)) -> Eff.preserves R (Eff.modify f).
Proof. intros H s. apply H. Qed.

Lemma preserves_bind {A B} (m : Eff.M S A) (k : A -> Eff.M S B) :
  Eff.preserves R m -> (forall a, Eff.preserves R (k a)) -> Eff.preserves R (Eff.bind m k).
Proof.
  intros Hm Hk s. unfold Eff.exec, Eff.bind. specialize (Hm s). unfold Eff.exec in Hm.
  destruct (m s) as [[a|e] s1]; simpl in *; [|done].
  etrans; [done|]. apply Hk.
Qed.

Lemma preserves_slot (m : Eff.M S unit) : Eff.preserves R m -> Eff.preserves R (Eff.slot m).
Proof. intros Hm s. apply Hm. Qed.

Lemma preserves_for_each {A} (l : list A) (body : A -> Eff.M S unit) :
  (forall x, Eff.preserves R (body x)) -> Eff.preserves R (Eff.for_each l body).
Proof.
  intros Hb. induction l as [|x l IH]; simpl.
  - apply preserves_ret.
  - apply preserves_bind; [apply Hb | done].
Qed.

Lemma preserves_if {A} (b : bool) (m1 m2 : Eff.M S A) :
  Eff.preserves R m1 -> Eff.preserves R m2 -> Eff.preserves R (if b then m1 else m2).
Proof. by destruct b. Qed.

End preserves.

Ltac preserves_step :=
  lazymatch goal with
  | |- Eff.preserves _ (Eff.bind _ _) => apply preserves_bind; [tc_solve| |intros ?]
  | |- Eff.preserves _ (Eff.ret _) => apply preserves_ret; tc_solve
  | |- Eff.preserves _ (Eff.raise _) => apply preserves_raise; tc_solve
  | |- Eff.preserves _ (Eff.gets _) => apply preserves_gets; tc_solve
  | |- Eff.preserves _ (Eff.orelse _ _) => apply preserves_orelse; tc_solve
  | |- Eff.preserves _ (if _ then _ else _) => apply preserves_if
  | |- Eff.preserves _ (Eff.slot _) => apply preserves_slot
  | |- Eff.preserves _ (Eff.for_each _ _) => apply preserves_for_each; [tc_solve|intros ?]
  end.

(** ** Running a handler *)

Ltac solve_len := rewrite ?length_insert, ?length_app; simpl; lia.

Lemma lookup_snoc {A} (l : list A) (x : A) : (l ++ [x]) !! length l = Some x.
Proof. by apply list_lookup_middle. Qed.

(** Lookups in the node objects after nodes were added and updated. *)
Ltac node_lookup :=
  repeat first
    [ rewrite lookup_snoc
    | rewrite list_lookup_insert_eq by solve_len
    | rewrite list_lookup_insert_ne by solve_len
    | rewrite lookup_app_l by solve_len ].

Ltac run_with unfolds :=
  repeat (unfolds;
          unfold Eff.bind, Eff.gets, Eff.modify, Eff.ret, Eff.raise, Eff.orelse, Eff.slot;
          cbn -[String.append Py.sorted Py.join Host.glob Py.basename
                         Py.slice_to Py.slice_from Py.find Py.index lookup insert
                         union difference singleton elem_of dom
                         Z.add Z.sub Z.of_nat Z.to_nat Qle_bool seq
                         Py.percent resize replicate zip_with fmap];
          node_lookup).

(** ** Loops *)

Lemma exec_bind {S A B} (m : Eff.M S A) (k : A -> Eff.M S B) (s : S) :
  Eff.exec (Eff.bind m k) s =
  match m s with
  | (Eff.Ret a, s1) => Eff.exec (k a) s1
  | (Eff.Raise _, s1) => s1
  end.
Proof. unfold Eff.exec, Eff.bind. by destruct (m s) as [[a|e] s1]. Qed.

(** A loop whose body returns and takes an invariant from one iteration to
    the next returns, with the invariant of the last. *)
Lemma for_each_invariant {S A} (I : nat -> S -> Prop) (l : list A)
  (body : A -> Eff.M S unit) :
  (forall k x s, l !! k = Some x -> I k s ->
     (body x s).1 = Eff.Ret tt /\ I (Datatypes.S k) (body x s).2) ->
  forall s, I O s ->
    (Eff.for_each l body s).1 = Eff.Ret tt /\ I (length l) (Eff.for_each l body s).2.
Proof.
  revert I. induction l as [|x l IH]; intros I Hbody s Hs; [done|].
  cbn [Eff.for_each]. unfold Eff.bind.
  destruct (Hbody O x s eq_refl Hs) as [Hr Hi].
  destruct (body x s) as [r s1]. simpl in Hr, Hi. subst r.
  apply (IH (fun k => I (Datatypes.S k))); [|done].
  intros k y s2 Hk. by apply Hbody.
Qed.

Lemma index_nat {A} (l : list A) (k : nat) : Py.index l (Z.of_nat k) = l !! k.
Proof.
  unfold Py.index. destruct (Z.leb_spec 0 (Z.of_nat k)); [|lia]. by rewrite Nat2Z.id.
Qed.

Lemma index_Some_nat {A} (l : list A) (i : Z) (x : A) :
  0 <= i -> Py.index l i = Some x -> l !! Z.to_nat i = Some x.
Proof. intros Hi. unfold Py.index. destruct (Z.leb_spec 0 i); [done|lia]. Qed.

(** ** The combo box *)

Lemma setCurrentIndex_items (c : Qt.QComboBox) (i : Z) :
  Qt.items (Qt.setCurrentIndex c i).1 = Qt.items c.
Proof. unfold Qt.setCurrentIndex. cbv zeta. by case_bool_decide. Qed.

Lemma setCurrentIndex_signal (c : Qt.QComboBox) (i j : Z) :
  0 <= i < Qt.count c -> (Qt.setCurrentIndex c i).2 = Some j -> j = i.
Proof.
  intros Hi. unfold Qt.setCurrentIndex.
  destruct (Z.leb_spec 0 i); [|lia]. destruct (Z.ltb_spec i (Qt.count c)); [|lia].
  simpl. case_bool_decide; simpl; congruence.
Qed.

Lemma addItem_items (c : Qt.QComboBox) (text : string) :
  Qt.items (Qt.addItem c text).1 = Qt.items c ++ [text].
Proof. unfold Qt.addItem. by destruct (Qt.items c). Qed.

Lemma addItem_signal (c : Qt.QComboBox) (text : string) (j : Z) :
  (Qt.addItem c text).2 = Some j -> j = 0.
Proof. unfold Qt.addItem. destruct (Qt.items c); simpl; congruence. Qed.

Lemma clear_items (c : Qt.QComboBox) : Qt.items (Qt.clear c).1 = [].
Proof. unfold Qt.clear. by case_bool_decide. Qed.

(** ** ImplantVideo: moving through the files *)

#[global] Instance iv_keeps_nav_preorder : PreOrder ImplantVideo.keeps_nav.
Proof.
  split; [by intros s|].
  intros s1 s2 s3 H1 H2. unfold ImplantVideo.keeps_nav in *. congruence.
Qed.

Section ImplantVideoFacts.
Import ImplantVideo.



Lemma iv_in_host_nav {A} (m : Eff.M Host.t A) : Eff.preserves keeps_nav (in_host m).
Proof. intros s. unfold Eff.exec, in_host. by destruct (m (host s)). Qed.

Lemma iv_get_fileset_nav : Eff.preserves keeps_nav get_fileset.
Proof. intros s. unfold Eff.exec, get_fileset. by destruct (fileset s). Qed.

Ltac iv_nav :=
  repeat first
    [ apply iv_in_host_nav
    | apply iv_get_fileset_nav
    | preserves_step
    | apply preserves_modify; intros ?; unfold keeps_nav; reflexivity ].

Lemma iv_LoadFiles_nav : Eff.preserves keeps_nav LoadFiles.
Proof. unfold LoadFiles, warningDisplay, call, fileset_at. iv_nav. Qed.

Lemma iv_onCreateVideo_nav : Eff.preserves keeps_nav onCreateVideo.
Proof. unfold onCreateVideo, warningDisplay, fileset_at. iv_nav. Qed.

Lemma iv_nav_fields (s s' : state) :
  nav s' = nav s <->
  current_file s' = current_file s /\ total_files s' = total_files s /\
  fileset s' = fileset s /\ FileComboBox s' = FileComboBox s.
Proof. unfold nav. split; [intros [= -> -> -> ->]; done | intros (-> & -> & -> & ->); done]. Qed.

(** [onFileCombo(index)] makes [index] the current file, unless no file is
    loaded, and never raises past the loading of the file. *)
Lemma iv_onFileCombo_nav (index : Z) (s : state) :
  let s' := Eff.exec (onFileCombo index) s in
  total_files s' = total_files s /\ fileset s' = fileset s /\
  FileComboBox s' = FileComboBox s /\
  current_file s' = (if bool_decide (total_files s = 0) then current_file s else index).
Proof.
  unfold onFileCombo, RemoveCurrentScene. rewrite exec_bind. cbn [Eff.gets].
  rewrite exec_bind.
  set (m := if bool_decide (currentVolumeNode s = None) then Eff.ret () else in_host Host.Clear).
  assert (Hm : exists s1, m s = (Eff.Ret tt, s1) /\ nav s1 = nav s).
  { subst m. destruct (bool_decide _); [by eexists|]. by eexists. }
  destruct Hm as (s1 & -> & H1). apply iv_nav_fields in H1 as (Hc & Ht & Hf & Hb).
  rewrite exec_bind. cbn [Eff.gets]. rewrite Ht.
  destruct (bool_decide (total_files s = 0)) eqn:E.
  - unfold Eff.exec. simpl. done.
  - rewrite exec_bind. cbn [Eff.modify].
    pose proof (iv_LoadFiles_nav (set_current_file index s1)) as H.
    apply iv_nav_fields in H as (Hc' & Ht' & Hf' & Hb').
    rewrite Hc', Ht', Hf', Hb'. simpl. done.
Qed.

(** An operation of the combo box, with the slot that its signal calls. *)
Lemma iv_FileComboBox_do_spec (op : Qt.QComboBox -> Qt.QComboBox * option Z) (s : state) :
  let s' := Eff.exec (FileComboBox_do op) s in
  (FileComboBox_do op s).1 = Eff.Ret tt /\
  total_files s' = total_files s /\ fileset s' = fileset s /\
  FileComboBox s' = (op (FileComboBox s)).1 /\
  current_file s' =
    match (op (FileComboBox s)).2 with
    | Some index => if bool_decide (total_files s = 0) then current_file s else index
    | None => current_file s
    end.
Proof.
  unfold Eff.exec, FileComboBox_do. destruct (op (FileComboBox s)) as [c [index|]]; simpl.
  - pose proof (iv_onFileCombo_nav index (set_FileComboBox c s)) as H.
    unfold Eff.exec, Eff.slot in *. simpl in *. tauto.
  - done.
Qed.

Lemma iv_fileset_at_run (s : state) (l : list string) (i : Z) (x : string) :
  fileset s = Some l -> Py.index l i = Some x -> fileset_at i s = (Eff.Ret x, s).
Proof.
  intros Hf Hi. unfold fileset_at, get_fileset, Eff.bind. rewrite Hf. simpl. by rewrite Hi.
Qed.

Lemma iv_range_lookup (n : Z) (k : nat) (x : Z) :
  range n !! k = Some x -> x = Z.of_nat k /\ (k < Z.to_nat n)%nat.
Proof.
  unfold range. rewrite list_lookup_fmap. intros H.
  destruct (seq 0 (Z.to_nat n) !! k) as [y|] eqn:E; [|done].
  apply lookup_seq in E as [-> ?]. simpl in H. injection H as <-. done.
Qed.

Lemma iv_length_range (n : Z) : length (range n) = Z.to_nat n.
Proof. unfold range. by rewrite length_fmap, length_seq. Qed.

(** [InsertFileCombo] adds one entry per file; when the current file is the
    first one it stays so. *)
Lemma iv_InsertFileCombo_spec (s : state) (l : list string) :
  fileset s = Some l -> total_files s = Z.of_nat (length l) -> current_file s = 0 ->
  let s' := Eff.exec InsertFileCombo s in
  (InsertFileCombo s).1 = Eff.Ret tt /\
  total_files s' = total_files s /\ fileset s' = fileset s /\ current_file s' = 0 /\
  length (Qt.items (FileComboBox s')) =
    (length (Qt.items (FileComboBox s)) + length l)%nat.
Proof.
  intros Hf Ht Hc. unfold Eff.exec.
  change (InsertFileCombo s) with
    (Eff.for_each (range (total_files s))
       (fun index => path <- fileset_at index ;; addItem (image_name_of path)) s).
  pose (I := fun (k : nat) (s1 : state) =>
    total_files s1 = total_files s /\ fileset s1 = fileset s /\ current_file s1 = 0 /\
    length (Qt.items (FileComboBox s1)) = (length (Qt.items (FileComboBox s)) + k)%nat).
  destruct (for_each_invariant I (range (total_files s))
              (fun index => path <- fileset_at index ;; addItem (image_name_of path)) ) with (s := s)
    as [Hr Hi].
  - intros k x s1 Hk (H1 & H2 & H3 & H4). apply iv_range_lookup in Hk as [-> Hk].
    destruct (l !! k) as [path|] eqn:E.
    2:{ apply lookup_ge_None in E. lia. }
    unfold Eff.bind. rewrite (iv_fileset_at_run s1 l (Z.of_nat k) path);
      [|congruence|by rewrite index_nat].
    unfold addItem.
    pose proof (iv_FileComboBox_do_spec (fun c => Qt.addItem c (image_name_of path)) s1)
      as (Hr & Ht' & Hf' & Hb' & Hc').
    unfold Eff.exec in *. split; [done|]. unfold I. rewrite Ht', Hf', Hb', Hc'.
    split_and!; [done|congruence| |].
    + destruct (Qt.addItem (FileComboBox s1) (image_name_of path)).2 as [j|] eqn:Ej; [|done].
      apply addItem_signal in Ej as ->. by case_bool_decide.
    + rewrite addItem_items, length_app, H4. simpl. lia.
  - unfold I. split_and!; [done..|lia].
  - rewrite iv_length_range in Hi. destruct Hi as (H1 & H2 & H3 & H4).
    split_and!; [done..|]. rewrite H4, Ht. lia.
Qed.

(** [onRun] always returns; it sets the file set to the sorted files found
    by the pattern, counts them and makes the first one current. *)
Lemma iv_onRun_spec (s : state) :
  let l := Py.sorted (Host.glob (host s) (Py.join (imageDirectory s) "*.nii.gz")) in
  let s' := Eff.exec onRun s in
  (onRun s).1 = Eff.Ret tt /\
  fileset s' = Some l /\ total_files s' = Z.of_nat (length l) /\ current_file s' = 0 /\
  length (Qt.items (FileComboBox s')) = (length (Qt.items (FileComboBox s)) + length l)%nat.
Proof.
  intros l. unfold Eff.exec, onRun, get_fileset, in_host.
  unfold Eff.bind, Eff.gets, Eff.modify, Eff.orelse, Eff.ret.
  cbn -[InsertFileCombo Py.sorted Host.glob Py.join length]. fold l.
  match goal with |- context [InsertFileCombo ?s0] => set (s1 := s0) end.
  destruct (iv_InsertFileCombo_spec s1 l) as (Hr & Ht & Hf & Hc & Hb); [done..|].
  unfold Eff.exec in *. rewrite Ht, Hf, Hb. done.
Qed.

Lemma iv_setCurrentIndex_spec (i : Z) (s : state) :
  let s' := Eff.exec (setCurrentIndex i) s in
  (setCurrentIndex i s).1 = Eff.Ret tt /\
  total_files s' = total_files s /\ fileset s' = fileset s /\
  Qt.items (FileComboBox s') = Qt.items (FileComboBox s) /\
  (0 <= i < Qt.count (FileComboBox s) -> current_file s = i -> current_file s' = i).
Proof.
  unfold setCurrentIndex.
  destruct (iv_FileComboBox_do_spec (fun c => Qt.setCurrentIndex c i) s)
    as (Hr & Ht & Hf & Hb & Hc).
  cbv zeta. rewrite Hr, Ht, Hf, Hb, Hc.
  split; [done|]. split; [done|]. split; [done|]. split.
  - apply setCurrentIndex_items.
  - intros Hi Hcur.
    destruct (Qt.setCurrentIndex (FileComboBox s) i).2 as [j|] eqn:E; [|done].
    apply setCurrentIndex_signal in E; [|done]. subst j. by case_bool_decide.
Qed.

(** [onPre]: a warning on the first file, one file back otherwise. *)
Lemma iv_onPre_first (s : state) :
  current_file s = 0 ->
  onPre s = (Eff.Ret tt, set_host (Host.log (Host.Warning "This is first file") (host s)) s).
Proof. intros H. unfold onPre, Eff.bind. cbn [Eff.gets]. by rewrite H. Qed.

Lemma iv_onPre_back (s : state) :
  current_file s <> 0 ->
  let s' := Eff.exec onPre s in
  (onPre s).1 = Eff.Ret tt /\
  total_files s' = total_files s /\ fileset s' = fileset s /\
  Qt.items (FileComboBox s') = Qt.items (FileComboBox s) /\
  (0 <= current_file s - 1 < Qt.count (FileComboBox s) ->
   current_file s' = current_file s - 1).
Proof.
  intros H. unfold Eff.exec, onPre, RemoveCurrentScene, in_host.
  unfold Eff.bind, Eff.gets, Eff.modify.
  cbn -[setCurrentIndex Z.sub]. rewrite bool_decide_eq_false_2 by done.
  match goal with |- context [setCurrentIndex ?i ?s0] => set (s1 := s0) end.
  destruct (iv_setCurrentIndex_spec (current_file s - 1) s1) as (Hr & Ht & Hf & Hb & Hc).
  unfold Eff.exec in *. rewrite Hr, Ht, Hf, Hb. split_and!; [done..|].
  intros Hi. by apply Hc.
Qed.

(** [onNext]: a warning on the last file, one file on otherwise. *)
Lemma iv_onNext_last (s : state) :
  current_file s + 1 = total_files s ->
  onNext s = (Eff.Ret tt, set_host (Host.log (Host.Warning "This is last file") (host s)) s).
Proof. intros H. unfold onNext, Eff.bind. cbn [Eff.gets]. by rewrite bool_decide_eq_true_2. Qed.

Lemma iv_onNext_on (s : state) :
  current_file s + 1 <> total_files s ->
  let s' := Eff.exec onNext s in
  (onNext s).1 = Eff.Ret tt /\
  total_files s' = total_files s /\ fileset s' = fileset s /\
  Qt.items (FileComboBox s') = Qt.items (FileComboBox s) /\
  (0 <= current_file s + 1 < Qt.count (FileComboBox s) ->
   current_file s' = current_file s + 1).
Proof.
  intros H. unfold Eff.exec, onNext, RemoveCurrentScene, in_host.
  unfold Eff.bind, Eff.gets, Eff.modify.
  cbn -[setCurrentIndex Z.add]. rewrite bool_decide_eq_false_2 by done.
  match goal with |- context [setCurrentIndex ?i ?s0] => set (s1 := s0) end.
  destruct (iv_setCurrentIndex_spec (current_file s + 1) s1) as (Hr & Ht & Hf & Hb & Hc).
  unfold Eff.exec in *. rewrite Hr, Ht, Hf, Hb. split_and!; [done..|].
  intros Hi. by apply Hc.
Qed.

Lemma iv_onReset_spec (s : state) :
  let s' := Eff.exec onReset s in
  total_files s' = 0 /\ current_file s' = 0 /\ Qt.items (FileComboBox s') = [].
Proof.
  unfold Eff.exec, onReset, clear, call, in_host.
  unfold Eff.bind, Eff.gets, Eff.modify. cbn -[FileComboBox_do].
  match goal with |- context [FileComboBox_do ?op ?s0] => set (s1 := s0) end.
  destruct (iv_FileComboBox_do_spec Qt.clear s1) as (Hr & Ht & Hf & Hb & Hc).
  unfold Eff.exec in *. destruct (FileComboBox_do Qt.clear s1) as [r s2].
  simpl in Hr, Ht, Hf, Hb, Hc. subst r. cbn. rewrite Ht, Hb, Hc. split_and!; [done| |].
  - subst s1. simpl. by destruct (Qt.clear (FileComboBox s)).2.
  - apply clear_items.
Qed.

(** The combo box always holds at least as many entries as there are
    files. *)
Lemma iv_reachable_count (s : state) :
  reachable s -> 0 <= total_files s <= Qt.count (FileComboBox s).
Proof.
  induction 1 as [h|s s' Hs IH Hstep]; [done|].
  unfold Qt.count in *. destruct Hstep as [s|s|s|s|s i Hi|s s' Hnav].
  - destruct (iv_onRun_spec s) as (_ & _ & Ht & _ & Hb). rewrite Ht, Hb. lia.
  - destruct (decide (current_file s = 0)) as [H0|H0].
    + unfold Eff.exec. by rewrite iv_onPre_first.
    + destruct (iv_onPre_back s H0) as (_ & Ht & _ & Hb & _). by rewrite Ht, Hb.
  - destruct (decide (current_file s + 1 = total_files s)) as [H0|H0].
    + unfold Eff.exec. by rewrite iv_onNext_last.
    + destruct (iv_onNext_on s H0) as (_ & Ht & _ & Hb & _). by rewrite Ht, Hb.
  - destruct (iv_onReset_spec s) as (Ht & _ & Hb). by rewrite Ht, Hb.
  - destruct (iv_setCurrentIndex_spec i s) as (_ & Ht & _ & Hb & _).
    unfold pick. by rewrite Ht, Hb.
  - apply iv_nav_fields in Hnav as (_ & -> & _ & ->). done.
Qed.
End ImplantVideoFacts.

(** ** Looking for one character *)

(** ** The frame files of a capture *)

Lemma percent_go_plain (d rest : string) (arg : option string) :
  Py.contains "%" d = false ->
  Py.percent_go Py.Text (d +:+ rest) arg = String.append d <$> Py.percent_go Py.Text rest arg.
Proof.
  induction d as [|c d IH]; intros Hd; sapp.
  - by destruct (Py.percent_go Py.Text rest arg).
  - rewrite contains_char_cons in Hd. apply orb_false_elim in Hd as [Hc Hd].
    cbn [Py.percent_go]. rewrite bool_decide_eq_false_2.
    + rewrite IH by done. by destruct (Py.percent_go Py.Text rest arg).
    + apply bool_decide_eq_false in Hc. congruence.
Qed.

Lemma join_plain (a : string) :
  Py.contains "%" a = false -> Py.contains "%" (Py.join a "") = false.
Proof.
  intros Ha. unfold Py.join. simpl. destruct (bool_decide (a = "") || Py.endswith a "/").
  - by rewrite app_nil_r_str.
  - by rewrite !contains_char_app, Ha.
Qed.

(** The path of frame [k] when the directory has no per cent sign. *)
Lemma percent_frame (dir : string) (k : nat) :
  Py.contains "%" dir = false ->
  Py.percent (Py.join dir "image_%05d.png") k =
  Some (Py.join dir ("image_" +:+ Py.format_05d k +:+ ".png")).
Proof.
  intros Hd. unfold Py.percent.
  rewrite (join_name dir "image_%05d.png") by done.
  rewrite percent_go_plain by by apply join_plain.
  rewrite (join_name dir ("image_" +:+ _)) by done. done.
Qed.

Section capture_loop.
Variable fmt : string.

Let frame_body (offsetIndex : nat) : Eff.M Host.t unit :=
  path <- Eff.orelse (Py.percent fmt offsetIndex) "TypeError" ;;
  Eff.modify (Host.write path Host.Image).

(** The loop over the frames: it raises when a frame has no path; when it
    returns, the frame paths hold images and no other file has changed. *)
Lemma capture_loop (ks : list nat) (h : Host.t) :
  let r := Eff.for_each ks frame_body h in
  match r.1 with
  | Eff.Ret _ =>
      (forall k, k ∈ ks -> is_Some (Py.percent fmt k)) /\
      Host.dirs r.2 = Host.dirs h /\ Host.nodes r.2 = Host.nodes h /\
      Host.scene r.2 = Host.scene h /\ Host.trace r.2 = Host.trace h /\
      (forall p k, k ∈ ks -> Py.percent fmt k = Some p -> Host.files r.2 !! p = Some Host.Image) /\
      (forall p, (forall k, k ∈ ks -> Py.percent fmt k <> Some p) ->
                 Host.files r.2 !! p = Host.files h !! p)
  | Eff.Raise _ => exists k, k ∈ ks /\ Py.percent fmt k = None
  end.
Proof.
  revert h. induction ks as [|k ks IH]; intros h; cbn [Eff.for_each].
  - simpl. split; [|split; [done|split; [done|split; [done|split; [done|split]]]]].
    + intros k Hk. by apply elem_of_nil in Hk.
    + intros p k Hk. by apply elem_of_nil in Hk.
    + done.
  - assert (Hstep : (frame_body k ;;; Eff.for_each ks frame_body) h =
      match Py.percent fmt k with
      | Some path => Eff.for_each ks frame_body (Host.write path Host.Image h)
      | None => (Eff.Raise "TypeError", h)
      end).
    { unfold frame_body at 1. unfold Eff.bind. by destruct (Py.percent fmt k). }
    rewrite Hstep. clear Hstep.
    destruct (Py.percent fmt k) as [path|] eqn:Ek.
    2:{ simpl. exists k. split; [left|done]. }
    specialize (IH (Host.write path Host.Image h)). cbv zeta in IH.
    destruct (Eff.for_each ks frame_body (Host.write path Host.Image h)) as [[[]|e] h2];
      simpl in *.
    + destruct IH as (Hsome & Hd & Hn & Hsc & Htr & Hw & Ho).
      split; [|split; [by rewrite Hd|split; [by rewrite Hn|split;
               [by rewrite Hsc|split; [by rewrite Htr|split]]]]].
      * intros k' [->|Hk']%elem_of_cons; [by rewrite Ek | by apply Hsome].
      * intros p k' [->|Hk']%elem_of_cons Hp; [|by apply (Hw p k')].
        assert (p = path) as -> by congruence.
        destruct (decide (Exists (fun k'' => Py.percent fmt k'' = Some path) ks)) as [Hex|Hex].
        -- apply Exists_exists in Hex as (k'' & Hin%list_elem_of_In & Hk'').
           by apply (Hw path k'').
        -- rewrite Ho.
           ++ unfold Host.write. simpl. by rewrite lookup_insert_eq.
           ++ intros k'' Hin%list_elem_of_In Hk''. apply Hex, Exists_exists. eauto.
      * intros p Hp. rewrite Ho.
        -- unfold Host.write. simpl. rewrite lookup_insert_ne; [done|].
           intros ->. apply (Hp k); [left|done].
        -- intros k' Hk'. apply Hp. by right.
    + destruct IH as (k' & Hk' & Hnone). exists k'. split; [by right|done].
Qed.
End capture_loop.

Lemma capture_spec (a b : Z) (n : nat) (ax : Z) (dir pat : string) (h : Host.t) :
  let r := Host.capture3dViewRotation a b n ax dir pat h in
  match r.1 with
  | Eff.Ret _ =>
      (forall k, (k < n)%nat -> is_Some (Py.percent (Py.join dir pat) k)) /\
      Host.dirs h ⊆ Host.dirs r.2 /\ Host.dirs r.2 ⊆ {[dir]} ∪ Host.dirs h /\
      Host.nodes r.2 = Host.nodes h /\ Host.scene r.2 = Host.scene h /\
      Host.trace r.2 = Host.trace h ++ [Host.Capture3dViewRotation a b n ax dir pat] /\
      (forall p, Host.captured dir pat n p -> Host.files r.2 !! p = Some Host.Image) /\
      (forall p, ~ Host.captured dir pat n p -> Host.files r.2 !! p = Host.files h !! p)
  | Eff.Raise _ => exists k, (k < n)%nat /\ Py.percent (Py.join dir pat) k = None
  end.
Proof.
  set (h0 := let h1 := Host.log (Host.Capture3dViewRotation a b n ax dir pat) h in
             if Host.path_exists h1 dir then h1 else Host.makedirs dir h1).
  set (body := fun offsetIndex : nat =>
    path <- Eff.orelse (Py.percent (Py.join dir pat) offsetIndex) "TypeError" ;;
    Eff.modify (Host.write path Host.Image)).
  change (Host.capture3dViewRotation a b n ax dir pat h) with (Eff.for_each (seq 0 n) body h0).
  pose proof (capture_loop (Py.join dir pat) (seq 0 n) h0) as H. cbv zeta in H.
  fold body in H.
  destruct (Eff.for_each (seq 0 n) body h0) as [[[]|e] h2]; simpl in *.
  - destruct H as (Hsome & Hd & Hn & Hsc & Htr & Hw & Ho).
    assert (Hseq : forall k, k ∈ seq 0 n <-> (k < n)%nat).
    { intros k. rewrite elem_of_seq. lia. }
    split; [|split; [|split; [|split; [|split; [|split; [|split]]]]]].
    + intros k Hk. by apply Hsome, Hseq.
    + rewrite Hd. subst h0. cbv zeta.
      destruct (Host.path_exists _ dir); simpl; [done|apply union_subseteq_r].
    + rewrite Hd. subst h0. cbv zeta.
      destruct (Host.path_exists _ dir); simpl; [apply union_subseteq_r|done].
    + rewrite Hn. subst h0. by destruct (Host.path_exists _ dir).
    + rewrite Hsc. subst h0. by destruct (Host.path_exists _ dir).
    + rewrite Htr. subst h0. by destruct (Host.path_exists _ dir).
    + intros p (k & Hk & Hp). apply (Hw p k); [by apply Hseq|done].
    + intros p Hp. rewrite Ho.
      * subst h0. by destruct (Host.path_exists _ dir).
      * intros k Hk%Hseq Hkp. apply Hp. by exists k.
  - destruct H as (k & Hk & Hnone). exists k. split; [|done].
    apply elem_of_seq in Hk. lia.
Qed.

Section ImplantVideoVideo.
Import ImplantVideo.

(** Deleting the files of a list without repetition, all present: the loop
    returns, the files of the list are gone and the others are as they
    were. *)
Lemma iv_remove_all (l : list string) (s : state) :
  NoDup l -> (forall p, p ∈ l -> is_Some (Host.files (host s) !! p)) ->
  let r := Eff.for_each l (fun image_path => in_host (Host.remove image_path)) s in
  r.1 = Eff.Ret tt /\
  (forall p, p ∈ l -> Host.files (host r.2) !! p = None) /\
  (forall p, p ∉ l -> Host.files (host r.2) !! p = Host.files (host s) !! p) /\
  Host.dirs (host r.2) = Host.dirs (host s) /\
  Host.trace (host r.2) = Host.trace (host s).
Proof.
  revert s. induction l as [|x l IH]; intros s Hnd Hin; cbn [Eff.for_each].
  - simpl. split; [done|]. split; [|done]. intros p Hp. by apply elem_of_nil in Hp.
  - apply list.NoDup_cons in Hnd as [Hx Hnd].
    destruct (Hin x) as [c Hc]; [left|].
    assert (Hstep : (in_host (Host.remove x) ;;;
                     Eff.for_each l (fun image_path => in_host (Host.remove image_path))) s =
      Eff.for_each l (fun image_path => in_host (Host.remove image_path))
        (set_host (Host.with_files (delete x (Host.files (host s))) (host s)) s)).
    { unfold Eff.bind, in_host, Host.remove. by rewrite Hc. }
    rewrite Hstep. clear Hstep.
    set (s1 := set_host _ s).
    destruct (IH s1) as (Hr & Hgone & Hkept & Hd & Ht); [done| |].
    { intros p Hp. subst s1. simpl. rewrite lookup_delete_ne.
      - apply Hin. by right.
      - intros ->. done. }
    split; [done|]. split; [|split; [|done]].
    + intros p [->|Hp]%elem_of_cons; [|by apply Hgone].
      rewrite Hkept by done. subst s1. simpl. by rewrite lookup_delete_eq.
    + intros p Hp. apply not_elem_of_cons in Hp as [Hne Hp].
      rewrite Hkept by done. subst s1. simpl. by rewrite lookup_delete_ne.
Qed.

(** [onCreateVideo] step by step, for a destination folder and a current
    file. *)
Lemma iv_onCreateVideo_run (s : state) (l : list string) (path : string) :
  saveDirectory s <> "" -> fileset s = Some l -> Py.index l (current_file s) = Some path ->
  onCreateVideo s =
  match Host.capture3dViewRotation (-180) 180 360 0 (saveDirectory s) "image_%05d.png" (host s) with
  | (Eff.Raise e, h1) => (Eff.Raise e, set_host h1 s)
  | (Eff.Ret _, h1) =>
      let images_list :=
        Py.sorted (Py.sorted (Host.glob h1 (Py.join (saveDirectory s) "image_*.png"))) in
      let s1 := set_host h1 (set_host h1 s) in
      match Host.write_videofile images_list 60 (video_file s path) h1 with
      | (Eff.Raise e, h2) => (Eff.Raise e, set_host h2 s1)
      | (Eff.Ret _, h2) =>
          Eff.for_each images_list (fun image_path => in_host (Host.remove image_path))
            (set_host h2 s1)
      end
  end.
Proof.
  intros Hd Hf Hi. unfold onCreateVideo. unfold Eff.bind at 1. cbn [Eff.gets].
  rewrite bool_decide_eq_false_2 by done.
  unfold Eff.bind at 1. cbn [Eff.gets]. unfold Eff.bind at 1.
  rewrite (iv_fileset_at_run s l _ path) by done.
  unfold Eff.bind at 1. unfold in_host at 1.
  destruct (Host.capture3dViewRotation _ _ _ _ _ _ (host s)) as [[[]|e] h1]; [|done].
  unfold Eff.bind at 1. unfold in_host at 1. cbn [Eff.gets host set_host].
  unfold Eff.bind at 1. unfold in_host at 1. cbn [host set_host]. unfold video_file.
  cbn [saveDirectory set_host].
  destruct (Host.write_videofile _ _ _ h1) as [[[]|e] h2]; done.
Qed.

Lemma join_suffix (a b : string) : exists pre, Py.join a b = pre +:+ b.
Proof.
  unfold Py.join. destruct (Py.startswith b "/"); [by exists ""|].
  destruct (bool_decide (a = "") || Py.endswith a "/"); [by exists a|].
  exists (a +:+ "/"). by rewrite app_assoc_str.
Qed.

Lemma captured_dec (dir pat : string) (n : nat) (p : string) :
  Host.captured dir pat n p \/ ~ Host.captured dir pat n p.
Proof.
  destruct (decide (Exists (fun k => Py.percent (Py.join dir pat) k = Some p) (seq 0 n)))
    as [H|H].
  - left. apply Exists_exists in H as (k & Hk%list_elem_of_In%elem_of_seq & Hp).
    exists k. split; [lia|done].
  - right. intros (k & Hk & Hp). apply H, Exists_exists. exists k. split; [|done].
    apply list_elem_of_In, elem_of_seq. lia.
Qed.

Lemma iv_screenshot_match (s : state) (p : string) :
  screenshot s p <-> Host.glob_match (Py.join (saveDirectory s) "image_*.png") p = true.
Proof. unfold screenshot. by rewrite glob_match_join. Qed.

Lemma iv_screenshot_png (s : state) (p : string) :
  screenshot s p -> exists pre, p = pre +:+ ".png".
Proof.
  intros (name & -> & (_ & _ & Hm & _)%glob_name_spec).
  apply (fnmatch_prefix_suffix "image_" ".png") in Hm as [mid ->]; [|done..].
  destruct (join_suffix (saveDirectory s) ("image_" +:+ mid +:+ ".png")) as [pre ->].
  exists (pre +:+ "image_" +:+ mid). by rewrite !app_assoc_str.
Qed.

(** The video is no screenshot: it is not among the files deleted. *)
Lemma iv_video_not_screenshot (s : state) (path : string) :
  ~ screenshot s (video_file s path).
Proof.
  intros [pre H]%iv_screenshot_png. unfold video_file in H.
  destruct (join_suffix (saveDirectory s) (image_name_of path +:+ ".mp4")) as [pre' Hj].
  rewrite Hj, <-app_assoc_str in H. by apply app_inv_length_str in H as [_ [=]].
Qed.

(** What a run of [onCreateVideo] that returns has done. *)
Lemma iv_onCreateVideo_result (s : state) :
  saveDirectory s <> "" -> Py.has_magic (saveDirectory s) = false ->
  Eff.returns onCreateVideo s ->
  exists l path frames,
    fileset s = Some l /\ Py.index l (current_file s) = Some path /\
    Host.trace (host (Eff.exec onCreateVideo s)) =
      Host.trace (host s) ++
      [Host.Capture3dViewRotation (-180) 180 360 0 (saveDirectory s) "image_%05d.png"] /\
    (forall k, (k < 360)%nat ->
       is_Some (Py.percent (Py.join (saveDirectory s) "image_%05d.png") k)) /\
    StronglySorted String.le frames /\ NoDup frames /\
    (forall p, p ∈ frames <->
       screenshot s p /\
       (p ∈ dom (Host.files (host s)) \/ Host.captured (saveDirectory s) "image_%05d.png" 360 p)) /\
    Host.files (host (Eff.exec onCreateVideo s)) !! video_file s path =
      Some (Host.Video frames 60) /\
    (forall p, screenshot s p -> Host.files (host (Eff.exec onCreateVideo s)) !! p = None) /\
    (forall p, p ∈ dom (Host.files (host s)) -> ~ screenshot s p ->
       p ∈ dom (Host.files (host (Eff.exec onCreateVideo s)))) /\
    Host.dirs (host s) ⊆ Host.dirs (host (Eff.exec onCreateVideo s)).
Proof.
  intros Hd Hmagic Hret. unfold Eff.returns, Eff.exec in *.
  assert (Hplain : Py.has_magic (Py.dirprefix (Py.join (saveDirectory s) "image_*.png")) =
                   false) by (by rewrite has_magic_dirprefix).
  destruct (fileset s) as [l|] eqn:Hf.
  2:{ exfalso. revert Hret. unfold onCreateVideo, fileset_at, get_fileset, Eff.bind.
      cbn [Eff.gets]. rewrite bool_decide_eq_false_2 by done. by rewrite Hf. }
  destruct (Py.index l (current_file s)) as [path|] eqn:Hi.
  2:{ exfalso. revert Hret. unfold onCreateVideo, fileset_at, get_fileset, Eff.bind.
      cbn [Eff.gets]. rewrite bool_decide_eq_false_2 by done. rewrite Hf. simpl.
      by rewrite Hi. }
  rewrite (iv_onCreateVideo_run s l path) in * by done.
  pose proof (capture_spec (-180) 180 360 0 (saveDirectory s) "image_%05d.png" (host s)) as Hcap.
  cbv zeta in Hcap.
  destruct (Host.capture3dViewRotation _ _ _ _ _ _ (host s)) as [[[]|e] h1]; [|done].
  simpl in Hcap. destruct Hcap as (Hsome & Hd1 & Hd2 & Hn1 & Hsc1 & Htr1 & Hw1 & Ho1).
  cbv zeta in *.
  rewrite sorted_idemp in *.
  set (frames := Py.sorted (Host.glob h1 (Py.join (saveDirectory s) "image_*.png"))) in *.
  assert (Hin : forall p, p ∈ frames <->
            (p ∈ dom (Host.files h1) \/ p ∈ Host.dirs h1) /\ screenshot s p).
  { intros p. subst frames. by rewrite elem_of_sorted, elem_of_glob, iv_screenshot_match. }
  assert (Hnd : NoDup frames) by (by apply NoDup_sorted, NoDup_glob).
  assert (Hss : StronglySorted String.le frames) by apply sorted_StronglySorted.
  clear Hplain Hmagic. clearbody frames.
  unfold Host.write_videofile in *.
  destruct (bool_decide (frames = [])); [done|].
  destruct (forallb (Host.is_image h1) frames) eqn:Himg; [|done].
  set (h2 := Host.write (video_file s path) (Host.Video frames 60) h1) in *.
  set (s2 := set_host h2 _) in *.
  assert (Himg' : forall p, p ∈ frames -> Host.files h1 !! p = Some Host.Image).
  { intros p Hp%list_elem_of_In. rewrite forallb_forall in Himg. specialize (Himg p Hp).
    unfold Host.is_image in Himg. by destruct (Host.files h1 !! p) as [[]|]. }
  assert (Hshot : forall p, p ∈ frames -> screenshot s p).
  { intros p Hp. by apply Hin in Hp as [_ Hp]. }
  assert (Hvid : video_file s path ∉ frames).
  { intros Hv. by apply (iv_video_not_screenshot s path), Hshot. }
  destruct (iv_remove_all frames s2) as (Hr & Hgone & Hkept & Hdirs & Htrace); [done| |].
  { intros p Hp. subst s2 h2. simpl. rewrite lookup_insert_ne.
    - rewrite Himg' by done. eauto.
    - intros <-. done. }
  cbv zeta in *.
  assert (Hmem : forall p, p ∈ frames <->
       screenshot s p /\
       (p ∈ dom (Host.files (host s)) \/ Host.captured (saveDirectory s) "image_%05d.png" 360 p)).
  { intros p. split.
    - intros Hp. split; [by apply Hshot|].
      destruct (captured_dec (saveDirectory s) "image_%05d.png" 360 p) as [Hc|Hc]; [by right|].
      left. apply elem_of_dom. rewrite <-Ho1 by done. rewrite Himg' by done. eauto.
    - intros [Hs Hp]. apply Hin.
      split; [|done]. left. apply elem_of_dom.
      destruct (captured_dec (saveDirectory s) "image_%05d.png" 360 p) as [Hc|Hc].
      + rewrite Hw1 by done. eauto.
      + rewrite Ho1 by done. destruct Hp as [Hp|Hp]; [by apply elem_of_dom|done]. }
  exists l, path, frames.
  split; [done|]. split; [done|]. split.
  { rewrite Htrace. subst s2 h2. simpl. done. }
  split; [done|]. split; [done|]. split; [done|]. split; [done|].
  split.
  { rewrite Hkept by done. subst s2 h2. simpl. by rewrite lookup_insert_eq. }
  split.
  { intros p Hs. destruct (decide (p ∈ frames)) as [Hp|Hp]; [by apply Hgone|].
    rewrite Hkept by done. subst s2 h2. simpl. rewrite lookup_insert_ne.
    - destruct (captured_dec (saveDirectory s) "image_%05d.png" 360 p) as [Hc|Hc].
      + exfalso. apply Hp, Hmem. eauto.
      + rewrite Ho1 by done. apply not_elem_of_dom. intros Hdom. apply Hp, Hmem. eauto.
    - intros <-. by apply (iv_video_not_screenshot s path). }
  split.
  { intros p Hdom Hns. assert (Hp : p ∉ frames) by (intros Hp; by apply Hns, Hshot).
    apply elem_of_dom. rewrite Hkept by done. subst s2 h2. simpl.
    destruct (decide (video_file s path = p)) as [->|Hne].
    - rewrite lookup_insert_eq. eauto.
    - rewrite lookup_insert_ne by done.
      destruct (captured_dec (saveDirectory s) "image_%05d.png" 360 p) as [Hc|Hc].
      + rewrite Hw1 by done. eauto.
      + rewrite Ho1 by done. by apply elem_of_dom. }
  rewrite Hdirs. subst s2 h2. simpl. done.
Qed.
End ImplantVideoVideo.

Section ImplantVideoVideo2.
Import ImplantVideo.

Lemma frame_names :
  forallb (fun k => Host.glob_name "image_*.png" ("image_" +:+ five_digits k +:+ ".png"))
    (seq 0 360) = true.
Proof. vm_compute. reflexivity. Qed.

(** [%05d] of a frame number gives its five digits. *)
Lemma format_frames :
  forallb (fun k => bool_decide (Py.format_05d k = five_digits k)) (seq 0 360) = true.
Proof. vm_compute. reflexivity. Qed.

Lemma format_five_digits (k : nat) : (k < 360)%nat -> Py.format_05d k = five_digits k.
Proof.
  intros Hk. pose proof format_frames as H. rewrite forallb_forall in H.
  eapply bool_decide_eq_true_1, (H k), list_elem_of_In, elem_of_seq. lia.
Qed.

(** The frames have names of their own. *)
Lemma five_digits_distinct : bool_decide (NoDup (five_digits <$> seq 0 360)) = true.
Proof. vm_compute. reflexivity. Qed.

Lemma five_digits_inj (j k : nat) :
  (j < 360)%nat -> (k < 360)%nat -> five_digits j = five_digits k -> j = k.
Proof.
  intros Hj Hk Heq. pose proof five_digits_distinct as H. apply bool_decide_eq_true_1 in H.
  apply (NoDup_lookup _ j k (five_digits j)) in H; [done| |].
  - by rewrite list_lookup_fmap, lookup_seq_lt.
  - by rewrite list_lookup_fmap, lookup_seq_lt, Heq.
Qed.

Lemma iv_frame_file_inj (s : state) (j k : nat) :
  (j < 360)%nat -> (k < 360)%nat -> frame_file s j = frame_file s k -> j = k.
Proof.
  intros Hj Hk. unfold frame_file.
  rewrite (join_name _ ("image_" +:+ five_digits j +:+ ".png")) by done.
  rewrite (join_name _ ("image_" +:+ five_digits k +:+ ".png")) by done.
  intros Heq%app_inv_head_str. apply (app_inv_head_str "image_") in Heq.
  apply (app_inv_tail_str _ _ ".png") in Heq. by apply five_digits_inj.
Qed.

Lemma iv_frame_screenshot (s : state) (k : nat) :
  (k < 360)%nat -> screenshot s (frame_file s k).
Proof.
  intros Hk. exists ("image_" +:+ five_digits k +:+ ".png"). split; [done|].
  pose proof frame_names as H. rewrite forallb_forall in H. apply H.
  apply list_elem_of_In, elem_of_seq. lia.
Qed.

Lemma iv_captured_frame (s : state) (p : string) :
  Py.contains "%" (saveDirectory s) = false ->
  Host.captured (saveDirectory s) "image_%05d.png" 360 p <->
  exists k, (k < 360)%nat /\ p = frame_file s k.
Proof.
  intros Hd. unfold Host.captured, frame_file.
  split; intros (k & Hk & Hp); exists k; (split; [done|]).
  - rewrite percent_frame, format_five_digits in Hp by done. by injection Hp.
  - rewrite percent_frame, format_five_digits by done. by subst.
Qed.

Lemma join_length (a n : string) :
  Py.startswith n "/" = false ->
  (String.length a + String.length n <= String.length (Py.join a n))%nat.
Proof.
  intros Hn. unfold Py.join. rewrite Hn.
  destruct (bool_decide (a = "") || Py.endswith a "/"); rewrite !length_app_str; lia.
Qed.

Lemma iv_screenshot_not_folder (s : state) (p : string) :
  screenshot s p -> p <> saveDirectory s.
Proof.
  intros (name & -> & (Hne & Hsl & _)%glob_name_spec) Heq.
  pose proof (join_length (saveDirectory s) name (slashless_not_startswith _ Hsl)) as Hl.
  rewrite Heq in Hl. destruct name; [done|]. simpl in Hl. lia.
Qed.

Lemma iv_entry_screenshot (s : state) (p : string) :
  Host.entry_matching (host s) (saveDirectory s) "image_*.png" p <->
  (p ∈ dom (Host.files (host s)) \/ p ∈ Host.dirs (host s)) /\ screenshot s p.
Proof. done. Qed.

(** [onCreateVideo] returns when there is a destination folder whose name
    has no conversion character, a current file, and when the entries of the
    folder that match the pattern are pictures. *)
Lemma iv_onCreateVideo_returns (s : state) (l : list string) (path : string) :
  saveDirectory s <> "" -> Py.contains "%" (saveDirectory s) = false ->
  Py.has_magic (saveDirectory s) = false ->
  fileset s = Some l -> Py.index l (current_file s) = Some path ->
  (forall p, Host.entry_matching (host s) (saveDirectory s) "image_*.png" p ->
     Host.files (host s) !! p = Some Host.Image) ->
  Eff.returns onCreateVideo s.
Proof.
  intros Hd Hpc Hmagic Hf Hi Himgs. unfold Eff.returns.
  assert (Hplain : Py.has_magic (Py.dirprefix (Py.join (saveDirectory s) "image_*.png")) =
                   false) by (by rewrite has_magic_dirprefix).
  rewrite (iv_onCreateVideo_run s l path) by done.
  pose proof (capture_spec (-180) 180 360 0 (saveDirectory s) "image_%05d.png" (host s)) as Hcap.
  cbv zeta in Hcap.
  destruct (Host.capture3dViewRotation _ _ _ _ _ _ (host s)) as [[[]|e] h1]; simpl in Hcap.
  2:{ destruct Hcap as (k & _ & Hk). by rewrite percent_frame in Hk. }
  destruct Hcap as (Hsome & Hd1 & Hd2 & Hn1 & Hsc1 & Htr1 & Hw1 & Ho1).
  cbv zeta. rewrite sorted_idemp.
  set (frames := Py.sorted (Host.glob h1 (Py.join (saveDirectory s) "image_*.png"))).
  assert (Hin : forall p, p ∈ frames <->
            (p ∈ dom (Host.files h1) \/ p ∈ Host.dirs h1) /\ screenshot s p).
  { intros p. subst frames. by rewrite elem_of_sorted, elem_of_glob, iv_screenshot_match. }
  assert (Hnd : NoDup frames) by (by apply NoDup_sorted, NoDup_glob).
  assert (Hss : StronglySorted String.le frames) by apply sorted_StronglySorted.
  clear Hplain Hmagic. clearbody frames.
  assert (Himg : forall p, p ∈ frames -> Host.files h1 !! p = Some Host.Image).
  { intros p [Hp Hs]%Hin.
    destruct (captured_dec (saveDirectory s) "image_%05d.png" 360 p) as [Hc|Hc];
      [by apply Hw1|].
    rewrite Ho1 by done. apply Himgs. split; [|done].
    destruct Hp as [Hp|Hp].
    - left. apply elem_of_dom. rewrite <-Ho1 by done. by apply elem_of_dom.
    - right. apply Hd2, elem_of_union in Hp as [Hp%elem_of_singleton|Hp]; [|done].
      by apply iv_screenshot_not_folder in Hs. }
  unfold Host.write_videofile.
  rewrite bool_decide_eq_false_2.
  2:{ intros Hnil. assert (H0 : frame_file s 0 ∈ frames).
      { apply Hin. split; [|apply iv_frame_screenshot; lia].
        left. apply elem_of_dom. rewrite Hw1; [eauto|].
        apply iv_captured_frame; [done|]. exists 0%nat. split; [lia|done]. }
      rewrite Hnil in H0. by apply elem_of_nil in H0. }
  replace (forallb (Host.is_image h1) frames) with true.
  2:{ symmetry. apply forallb_forall. intros p Hp%list_elem_of_In.
      unfold Host.is_image. by rewrite Himg. }
  match goal with |- context [Eff.for_each frames _ ?s0] =>
    destruct (iv_remove_all frames s0) as [Hr _]; [| |by rewrite Hr] end.
  - done.
  - intros p Hp. simpl. rewrite lookup_insert_ne.
    + rewrite Himg by done. eauto.
    + intros <-. apply Hin in Hp as [_ Hp]. by apply iv_video_not_screenshot in Hp.
Qed.

Lemma image_name_of_stem (path stem : string) :
  Py.basename path = stem +:+ ".nii.gz" -> Py.only_suffix ".nii.gz" stem ->
  image_name_of path = stem.
Proof.
  intros Hb Hs. unfold image_name_of. rewrite Hb.
  unfold Py.find.
  destruct (Py.find_nat ".nii.gz" (stem +:+ ".nii.gz")) as [i|] eqn:Hfind.
  - apply find_nat_Some in Hfind. destruct Hfind as (post & Heq & Hlen).
    pose proof (Hs _ _ Heq) as Hpre. cbn [fmap option_fmap option_map default from_option].
    rewrite <-Hlen, Hpre. apply slice_to_app.
  - exfalso. apply (find_nat_None _ _ Hfind stem ""). by rewrite app_nil_r_str.
Qed.
End ImplantVideoVideo2.

Lemma sorted_listing_glob (h : Host.t) (directory pat : string) :
  Py.slashless pat -> Py.has_magic directory = false ->
  Host.sorted_listing h directory pat (Py.sorted (Host.glob h (Py.join directory pat))).
Proof.
  intros Hp Hm.
  assert (Hplain : Py.has_magic (Py.dirprefix (Py.join directory pat)) = false)
    by (by rewrite has_magic_dirprefix).
  split; [apply sorted_StronglySorted|]. split; [by apply NoDup_sorted, NoDup_glob|].
  intros p. rewrite elem_of_sorted, elem_of_glob, glob_match_join by done. done.
Qed.

(** A directory has one sorted listing. *)
Lemma sorted_listing_unique (h : Host.t) (directory pat : string) (l1 l2 : list string) :
  Host.sorted_listing h directory pat l1 -> Host.sorted_listing h directory pat l2 ->
  l1 = l2.
Proof.
  intros (Hs1 & Hn1 & Hm1) (Hs2 & Hn2 & Hm2).
  apply (StronglySorted_unique String.le); [done..|].
  apply NoDup_Permutation; [done..|]. intros p. by rewrite Hm1, Hm2.
Qed.

Lemma entries_images (h : Host.t) (directory pat : string) :
  Py.slashless pat -> Py.has_magic directory = false ->
  forallb (Host.is_image h) (Host.glob h (Py.join directory pat)) = true ->
  forall p, Host.entry_matching h directory pat p -> Host.files h !! p = Some Host.Image.
Proof.
  intros Hp Hm Hall p [Hin Hmatch]. rewrite forallb_forall in Hall.
  assert (Hplain : Py.has_magic (Py.dirprefix (Py.join directory pat)) = false)
    by (by rewrite has_magic_dirprefix).
  specialize (Hall p). unfold Host.is_image in Hall.
  destruct (Host.files h !! p) as [[]|]; try done; discriminate Hall;
    by apply list_elem_of_In, elem_of_glob; rewrite ?glob_match_join.
Qed.

Section ImplantVideoClaims.
Import ImplantVideo.

Lemma extract_length (voxels : list Q) : length (extract voxels) = length voxels.
Proof. unfold extract. by rewrite length_fmap. Qed.

Lemma extract_lookup (voxels : list Q) (i : nat) (x : Q) :
  voxels !! i = Some x ->
  exists y, extract voxels !! i = Some y /\
    ((x < inject_Z 2000)%Q -> y = 0%Q) /\ ((inject_Z 2000 <= x)%Q -> y = x).
Proof.
  intros Hx. unfold extract. rewrite list_lookup_fmap, Hx. simpl.
  destruct (Qle_bool thresholdValue x) eqn:E; simpl.
  - exists x. split; [done|]. split; [|done]. intros Hlt.
    apply Qle_bool_iff in E. by apply Qlt_not_le in Hlt.
  - exists 0%Q. split; [done|]. split; [done|]. intros Hle.
    apply Qle_bool_iff in Hle. unfold thresholdValue in E. unfold inject_Z in Hle. congruence.
Qed.

(** Claim C8.  [ImplantVideoWidget.LoadFiles] thresholds the loaded volume
    at 2000, in place.  With an image folder, files, and a current file that
    holds a volume, [LoadFiles] returns; the node it loads is the current
    volume node and has one voxel per voxel of the file: [0] where the voxel
    of the file is strictly less than 2000, the voxel of the file where it
    is greater than or equal to 2000. *)
Theorem LoadFiles_threshold (s : state) (l : list string) (path : string) (voxels : list Q) :
  imageDirectory s <> "" -> total_files s <> 0 ->
  fileset s = Some l -> Py.index l (current_file s) = Some path ->
  Host.files (host s) !! path = Some (Host.Volume voxels) ->
  let s' := Eff.exec LoadFiles s in
  Eff.returns LoadFiles s /\
  exists volume name voxels',
    currentVolumeNode s' = Some volume /\
    Host.nodes (host s') !! volume = Some (Host.VolumeNode name voxels') /\
    length voxels' = length voxels /\
    forall i x, voxels !! i = Some x ->
      exists y, voxels' !! i = Some y /\
        ((x < inject_Z 2000)%Q -> y = 0%Q) /\ ((inject_Z 2000 <= x)%Q -> y = x).
Proof.
  intros Hd Ht Hf Hi Hv.
  unfold Eff.returns, Eff.exec, LoadFiles, fileset_at, get_fileset, call, in_host,
    Host.loadVolume, Host.CreateDefaultVolumeRenderingNodes, Host.GetVolumePropertyNode,
    Host.CopyPreset, Host.SetVisibility, Host.arrayFromVolume, Host.arrayFromVolumeModified,
    Host.get_node, Host.set_node, Host.add_node.
  run_with ltac:(rewrite ?Hf, ?Hi, ?Hv, ?(bool_decide_eq_false_2 _ Hd),
                   ?(bool_decide_eq_false_2 _ Ht)).
  split; [done|]. eexists _, _, _. split; [reflexivity|]. node_lookup.
  split; [reflexivity|]. split; [apply extract_length|]. apply extract_lookup.
Qed.

(** Claim C7.  When the name of the image folder has none of the
    characters [*], [?] and [[], which [glob] reads as a pattern, every run
    of [ImplantVideoWidget.onRun] returns, and after it [fileset] is the
    sorted list, without repetition, of the entries of [imageDirectory]
    that match [*.nii.gz], [total_files] is the length of that list and
    [current_file] is [0]. *)
Theorem onRun_fileset (s : state) :
  Py.has_magic (imageDirectory s) = false ->
  Eff.returns onRun s /\
  exists l,
    fileset (Eff.exec onRun s) = Some l /\
    Host.sorted_listing (host s) (imageDirectory s) "*.nii.gz" l /\
    total_files (Eff.exec onRun s) = Z.of_nat (length l) /\
    current_file (Eff.exec onRun s) = 0.
Proof.
  intros Hmagic. destruct (iv_onRun_spec s) as (Hr & Hf & Ht & Hc & _).
  split; [unfold Eff.returns; by rewrite Hr|].
  eexists. split; [exact Hf|]. split; [by apply sorted_listing_glob|]. done.
Qed.

(** Claim C3.  [ImplantVideoWidget.onCreateVideo] with a destination
    folder: it asks for a capture of the 3D view of 360 frames over the
    rotation from -180 to 180 degrees into [saveDirectory] with the pattern
    [image_%05d.png], and then writes a video of 60 frames per second whose
    frames are, in sorted order, the files of [saveDirectory] that match
    [image_*.png] (the 360 frames and the pictures that were there before);
    the video is in [saveDirectory] and named after the current file:
    [stem.mp4] for a file named [stem.nii.gz].  The frame [k] of the
    capture is the file [image_] followed by the five decimal digits of [k]
    and [.png], so that the 360 frames are 360 different files.  It returns
    when the name of the folder has no [%] and none of the characters [*],
    [?] and [[] that [glob] reads as a pattern, [fileset] has the current
    file, and the entries of the folder that match [image_*.png] are
    pictures. *)
Theorem onCreateVideo_video (s : state) (l : list string) (path : string) :
  saveDirectory s <> "" -> Py.contains "%" (saveDirectory s) = false ->
  Py.has_magic (saveDirectory s) = false ->
  fileset s = Some l -> Py.index l (current_file s) = Some path ->
  (forall p, Host.entry_matching (host s) (saveDirectory s) "image_*.png" p ->
     Host.files (host s) !! p = Some Host.Image) ->
  Eff.returns onCreateVideo s /\
  Host.trace (host (Eff.exec onCreateVideo s)) =
    Host.trace (host s) ++
    [Host.Capture3dViewRotation (-180) 180 360 0 (saveDirectory s) "image_%05d.png"] /\
  exists frames,
    Host.files (host (Eff.exec onCreateVideo s)) !! video_file s path =
      Some (Host.Video frames 60) /\
    StronglySorted String.le frames /\ NoDup frames /\
    (forall p, p ∈ frames <->
       (exists k, (k < 360)%nat /\ p = frame_file s k) \/
       Host.entry_matching (host s) (saveDirectory s) "image_*.png" p) /\
    (forall j k, (j < 360)%nat -> (k < 360)%nat -> frame_file s j = frame_file s k -> j = k) /\
    (forall stem, Py.basename path = stem +:+ ".nii.gz" -> Py.only_suffix ".nii.gz" stem ->
       video_file s path = Py.join (saveDirectory s) (stem +:+ ".mp4")).
Proof.
  intros Hd Hpc Hmagic Hf Hi Himgs.
  pose proof (iv_onCreateVideo_returns s l path Hd Hpc Hmagic Hf Hi Himgs) as Hret.
  destruct (iv_onCreateVideo_result s Hd Hmagic Hret)
    as (l' & path' & frames & Hf' & Hi' & Htr & _ & Hso & Hnd & Hmem & Hvid & _).
  assert (path' = path) as -> by congruence.
  split; [done|]. split; [done|]. exists frames.
  split; [done|]. split; [done|]. split; [done|]. split; [|split].
  - intros p. rewrite Hmem, iv_captured_frame by done. split.
    + intros [Hs [Hp|Hp]]; [right|by left]. split; [by left|done].
    + intros [(k & Hk & ->)|[Hp Hs]].
      * split; [by apply iv_frame_screenshot|]. right. by exists k.
      * split; [done|]. left. apply elem_of_dom. rewrite Himgs; [eauto|]. by split.
  - apply iv_frame_file_inj.
  - intros stem Hb Hs. unfold video_file. by rewrite (image_name_of_stem path stem).
Qed.

(** Claim C10.  After a run of [ImplantVideoWidget.onCreateVideo] that
    returns (the video was written), with a destination folder whose name
    has none of the characters [*], [?] and [[] that [glob] reads as a
    pattern, no file that matches [image_*.png] in [saveDirectory] is left,
    every other file that was there before is still there, no directory is
    removed, and the video file is there. *)
Theorem onCreateVideo_cleanup (s : state) :
  saveDirectory s <> "" -> Py.has_magic (saveDirectory s) = false ->
  Eff.returns onCreateVideo s ->
  (forall p, screenshot s p -> Host.files (host (Eff.exec onCreateVideo s)) !! p = None) /\
  (forall p, p ∈ dom (Host.files (host s)) -> ~ screenshot s p ->
     p ∈ dom (Host.files (host (Eff.exec onCreateVideo s)))) /\
  Host.dirs (host s) ⊆ Host.dirs (host (Eff.exec onCreateVideo s)) /\
  exists l path frames,
    fileset s = Some l /\ Py.index l (current_file s) = Some path /\
    Host.files (host (Eff.exec onCreateVideo s)) !! video_file s path =
      Some (Host.Video frames 60).
Proof.
  intros Hd Hmagic Hret.
  destruct (iv_onCreateVideo_result s Hd Hmagic Hret)
    as (l & path & frames & Hf & Hi & _ & _ & _ & _ & _ & Hvid & Hgone & Hkept & Hdirs).
  split; [done|]. split; [done|]. split; [done|]. by exists l, path, frames.
Qed.

End ImplantVideoClaims.

Section ImplantVideoWitnesses.
Import ImplantVideo.

Lemma LoadFiles_threshold_witness :
  Eff.returns LoadFiles iv_example_second /\
  exists volume name voxels',
    currentVolumeNode (Eff.exec LoadFiles iv_example_second) = Some volume /\
    Host.nodes (host (Eff.exec LoadFiles iv_example_second)) !! volume =
      Some (Host.VolumeNode name voxels') /\
    length voxels' = length [1000 # 1; 2000 # 1; 3000 # 1]%Q /\
    forall i x, [1000 # 1; 2000 # 1; 3000 # 1]%Q !! i = Some x ->
      exists y, voxels' !! i = Some y /\
        ((x < inject_Z 2000)%Q -> y = 0%Q) /\ ((inject_Z 2000 <= x)%Q -> y = x).
Proof.
  apply (LoadFiles_threshold iv_example_second ["/d/a.nii.gz"; "/d/b.nii.gz"] "/d/b.nii.gz"
           [1000 # 1; 2000 # 1; 3000 # 1]%Q);
    vm_compute; first [reflexivity | discriminate].
Defined.

Lemma onRun_fileset_witness :
  Eff.returns onRun iv_example_chosen /\
  exists l,
    fileset (Eff.exec onRun iv_example_chosen) = Some l /\
    Host.sorted_listing (host iv_example_chosen) (imageDirectory iv_example_chosen)
      "*.nii.gz" l /\
    total_files (Eff.exec onRun iv_example_chosen) = Z.of_nat (length l) /\
    current_file (Eff.exec onRun iv_example_chosen) = 0.
Proof. apply (onRun_fileset iv_example_chosen). vm_compute. reflexivity. Defined.

Lemma onCreateVideo_video_witness :
  Eff.returns onCreateVideo iv_example_state /\
  Host.trace (host (Eff.exec onCreateVideo iv_example_state)) =
    Host.trace (host iv_example_state) ++
    [Host.Capture3dViewRotation (-180) 180 360 0 (saveDirectory iv_example_state)
       "image_%05d.png"] /\
  exists frames,
    Host.files (host (Eff.exec onCreateVideo iv_example_state))
      !! video_file iv_example_state "/d/a.nii.gz" = Some (Host.Video frames 60) /\
    StronglySorted String.le frames /\ NoDup frames /\
    (forall p, p ∈ frames <->
       (exists k, (k < 360)%nat /\ p = frame_file iv_example_state k) \/
       Host.entry_matching (host iv_example_state) (saveDirectory iv_example_state)
         "image_*.png" p) /\
    (forall j k, (j < 360)%nat -> (k < 360)%nat ->
       frame_file iv_example_state j = frame_file iv_example_state k -> j = k) /\
    (forall stem, Py.basename "/d/a.nii.gz" = stem +:+ ".nii.gz" ->
       Py.only_suffix ".nii.gz" stem ->
       video_file iv_example_state "/d/a.nii.gz" = Py.join (saveDirectory iv_example_state) (stem +:+ ".mp4")).
Proof.
  apply (onCreateVideo_video iv_example_state ["/d/a.nii.gz"; "/d/b.nii.gz"] "/d/a.nii.gz").
  - vm_compute. discriminate.
  - vm_compute. reflexivity.
  - vm_compute. reflexivity.
  - vm_compute. reflexivity.
  - vm_compute. reflexivity.
  - apply entries_images; vm_compute; reflexivity.
Defined.

Lemma onCreateVideo_cleanup_witness :
  (forall p, screenshot iv_example_state p ->
     Host.files (host (Eff.exec onCreateVideo iv_example_state)) !! p = None) /\
  (forall p, p ∈ dom (Host.files (host iv_example_state)) -> ~ screenshot iv_example_state p ->
     p ∈ dom (Host.files (host (Eff.exec onCreateVideo iv_example_state)))) /\
  Host.dirs (host iv_example_state) ⊆ Host.dirs (host (Eff.exec onCreateVideo iv_example_state)) /\
  exists l path frames,
    fileset iv_example_state = Some l /\ Py.index l (current_file iv_example_state) = Some path /\
    Host.files (host (Eff.exec onCreateVideo iv_example_state)) !! video_file iv_example_state path =
      Some (Host.Video frames 60).
Proof.
  apply (onCreateVideo_cleanup iv_example_state).
  - vm_compute. discriminate.
  - vm_compute. reflexivity.
  - vm_compute. exact I.
Defined.

End ImplantVideoWitnesses.

(** ** EasySegmentation: moving through the files *)

#[global] Instance es_keeps_nav_preorder : PreOrder EasySegmentation.keeps_nav.
Proof.
  split; [by intros s|].
  intros s1 s2 s3 H1 H2. unfold EasySegmentation.keeps_nav in *. congruence.
Qed.

Section EasySegmentationFacts.
Import EasySegmentation.

Variable float : string -> option Q.
Variable format : Q -> string.
Variable presets : list string.
Variable cast : Q -> Q.

Lemma es_in_host_nav {A} (m : Eff.M Host.t A) : Eff.preserves keeps_nav (in_host m).
Proof. intros s. unfold Eff.exec, in_host. by destruct (m (host s)). Qed.

Lemma es_attr_nav {A} (f : state -> option A) : Eff.preserves keeps_nav (attr f).
Proof. intros s. unfold Eff.exec, attr. by destruct (f s). Qed.

Lemma es_update_nav (w : widget) (f : props -> props) : Eff.preserves keeps_nav (update w f).
Proof. by intros s. Qed.

Ltac es_nav_step :=
  lazymatch goal with
  | |- Eff.preserves _ (in_host _) => apply es_in_host_nav
  | |- Eff.preserves _ (attr _) => apply es_attr_nav
  | |- Eff.preserves _ (update _ _) => apply es_update_nav
  | |- Eff.preserves _ (Eff.modify _) =>
      apply preserves_modify; intros ?; unfold keeps_nav; reflexivity
  | |- Eff.preserves _ (if _ then _ else _) => apply preserves_if
  | |- Eff.preserves _ (match ?x with _ => _ end) => destruct x
  | |- Eff.preserves _ _ => preserves_step
  end.

Ltac es_nav := repeat es_nav_step.

Lemma es_LoadFiles_nav : Eff.preserves keeps_nav (LoadFiles float format presets cast).
Proof.
  unfold LoadFiles, load_segmentation, run_volume_rendering, apply_threshold,
    RenderButton_click, onRendering, onThresholdCheck, warningDisplay, call, fileset_at,
    isChecked, toPlainText, setChecked, setDisabled, setEnabled, setText, setCollapsed.
  es_nav.
Qed.

Lemma es_onSave_nav : Eff.preserves keeps_nav onSave.
Proof.
  unfold onSave, save_volume, save_segmentation, export_or_save, ensure_directory, warningDisplay, call, fileset_at,
    isChecked, toPlainText, setChecked, setDisabled, setEnabled, setText, setCollapsed.
  es_nav.
Qed.

Lemma es_onApply_nav : Eff.preserves keeps_nav (onApply float cast).
Proof. unfold onApply, toPlainText. es_nav. Qed.

Lemma es_nav_fields (s s' : state) :
  nav s' = nav s <->
  current_file s' = current_file s /\ total_files s' = total_files s /\
  fileset s' = fileset s /\ FileComboBox s' = FileComboBox s.
Proof. unfold nav. split; [intros [= -> -> -> ->]; done | intros (-> & -> & -> & ->); done]. Qed.

(** [onFileCombo(index)] makes [index] the current file, unless no file is
    loaded, and never raises past the loading of the file. *)
Lemma es_onFileCombo_nav (index : Z) (s : state) :
  let s' := Eff.exec (onFileCombo float format presets cast index) s in
  total_files s' = total_files s /\ fileset s' = fileset s /\
  FileComboBox s' = FileComboBox s /\
  current_file s' = (if bool_decide (total_files s = 0) then current_file s else index).
Proof.
  unfold onFileCombo, RemoveCurrentScene. rewrite exec_bind. cbn [Eff.gets].
  rewrite exec_bind.
  set (m := if bool_decide (editor_segmentationNode s = None) then Eff.ret () else scene_Clear).
  assert (Hm : exists s1, m s = (Eff.Ret tt, s1) /\ nav s1 = nav s).
  { subst m. destruct (bool_decide _); [by eexists|]. by eexists. }
  destruct Hm as (s1 & -> & H1). apply es_nav_fields in H1 as (Hc & Ht & Hf & Hb).
  rewrite exec_bind. cbn [Eff.gets]. rewrite Ht.
  destruct (bool_decide (total_files s = 0)) eqn:E.
  - unfold Eff.exec. simpl. done.
  - rewrite exec_bind. cbn [Eff.modify].
    pose proof (es_LoadFiles_nav (set_current_file index s1)) as H.
    apply es_nav_fields in H as (Hc' & Ht' & Hf' & Hb').
    rewrite Hc', Ht', Hf', Hb'. simpl. done.
Qed.

(** An operation of the combo box, with the slot that its signal calls. *)
Lemma es_FileComboBox_do_spec (op : Qt.QComboBox -> Qt.QComboBox * option Z) (s : state) :
  let s' := Eff.exec (FileComboBox_do float format presets cast op) s in
  (FileComboBox_do float format presets cast op s).1 = Eff.Ret tt /\
  total_files s' = total_files s /\ fileset s' = fileset s /\
  FileComboBox s' = (op (FileComboBox s)).1 /\
  current_file s' =
    match (op (FileComboBox s)).2 with
    | Some index => if bool_decide (total_files s = 0) then current_file s else index
    | None => current_file s
    end.
Proof.
  unfold Eff.exec, FileComboBox_do. destruct (op (FileComboBox s)) as [c [index|]]; simpl.
  - pose proof (es_onFileCombo_nav index (set_FileComboBox c s)) as H.
    unfold Eff.exec, Eff.slot in *. simpl in *. tauto.
  - done.
Qed.

Lemma es_fileset_at_run (s : state) (l : list (string * string)) (i : Z) (x : string * string) :
  fileset s = Some l -> Py.index l i = Some x -> fileset_at i s = (Eff.Ret x, s).
Proof.
  intros Hf Hi. unfold fileset_at, attr, Eff.bind. rewrite Hf. simpl. by rewrite Hi.
Qed.

Lemma es_range_lookup (n : Z) (k : nat) (x : Z) :
  range n !! k = Some x -> x = Z.of_nat k /\ (k < Z.to_nat n)%nat.
Proof.
  unfold range. rewrite list_lookup_fmap. intros H.
  destruct (seq 0 (Z.to_nat n) !! k) as [y|] eqn:E; [|done].
  apply lookup_seq in E as [-> ?]. simpl in H. injection H as <-. done.
Qed.

Lemma es_length_range (n : Z) : length (range n) = Z.to_nat n.
Proof. unfold range. by rewrite length_fmap, length_seq. Qed.

(** [InsertFileCombo] adds one entry per file; when the current file is the
    first one it stays so. *)
Lemma es_InsertFileCombo_spec (s : state) (l : list (string * string)) :
  fileset s = Some l -> total_files s = Z.of_nat (length l) -> current_file s = 0 ->
  let s' := Eff.exec (InsertFileCombo float format presets cast) s in
  (InsertFileCombo float format presets cast s).1 = Eff.Ret tt /\
  total_files s' = total_files s /\ fileset s' = fileset s /\ current_file s' = 0 /\
  length (Qt.items (FileComboBox s')) =
    (length (Qt.items (FileComboBox s)) + length l)%nat.
Proof.
  intros Hf Ht Hc. unfold Eff.exec.
  set (body := fun index : Z =>
    pair <- fileset_at index ;;
    addItem float format presets cast (find_basename_wo_extension pair.1)).
  change (InsertFileCombo float format presets cast s) with
    (Eff.for_each (range (total_files s)) body s).
  pose (I := fun (k : nat) (s1 : state) =>
    total_files s1 = total_files s /\ fileset s1 = fileset s /\ current_file s1 = 0 /\
    length (Qt.items (FileComboBox s1)) = (length (Qt.items (FileComboBox s)) + k)%nat).
  destruct (for_each_invariant I (range (total_files s)) body) with (s := s) as [Hr Hi].
  - intros k x s1 Hk (H1 & H2 & H3 & H4). apply es_range_lookup in Hk as [-> Hk].
    destruct (l !! k) as [pair|] eqn:E.
    2:{ apply lookup_ge_None in E. lia. }
    unfold body, Eff.bind. rewrite (es_fileset_at_run s1 l (Z.of_nat k) pair);
      [|congruence|by rewrite index_nat].
    unfold addItem.
    pose proof (es_FileComboBox_do_spec
                  (fun c => Qt.addItem c (find_basename_wo_extension pair.1)) s1)
      as (Hr & Ht' & Hf' & Hb' & Hc').
    unfold Eff.exec in *. split; [done|]. unfold I. rewrite Ht', Hf', Hb', Hc'.
    split_and!; [done|congruence| |].
    + destruct (Qt.addItem (FileComboBox s1) (find_basename_wo_extension pair.1)).2
        as [j|] eqn:Ej; [|done].
      apply addItem_signal in Ej as ->. by case_bool_decide.
    + rewrite addItem_items, length_app, H4. simpl. lia.
  - unfold I. split_and!; [done..|lia].
  - rewrite es_length_range in Hi. destruct Hi as (H1 & H2 & H3 & H4).
    split_and!; [done..|]. rewrite H4, Ht. lia.
Qed.

Lemma es_setCurrentIndex_spec (i : Z) (s : state) :
  let s' := Eff.exec (setCurrentIndex float format presets cast i) s in
  (setCurrentIndex float format presets cast i s).1 = Eff.Ret tt /\
  total_files s' = total_files s /\ fileset s' = fileset s /\
  Qt.items (FileComboBox s') = Qt.items (FileComboBox s) /\
  (0 <= i < Qt.count (FileComboBox s) -> current_file s = i -> current_file s' = i).
Proof.
  unfold setCurrentIndex.
  destruct (es_FileComboBox_do_spec (fun c => Qt.setCurrentIndex c i) s)
    as (Hr & Ht & Hf & Hb & Hc).
  cbv zeta. rewrite Hr, Ht, Hf, Hb, Hc.
  split; [done|]. split; [done|]. split; [done|]. split.
  - apply setCurrentIndex_items.
  - intros Hi Hcur.
    destruct (Qt.setCurrentIndex (FileComboBox s) i).2 as [j|] eqn:E; [|done].
    apply setCurrentIndex_signal in E; [|done]. subst j. by case_bool_decide.
Qed.

(** [onPre]: a warning on the first file, one file back otherwise. *)
Lemma es_onPre_first (s : state) :
  current_file s = 0 ->
  onPre float format presets cast s =
  (Eff.Ret tt, set_host (Host.log (Host.Warning "This is first file") (host s)) s).
Proof. intros H. unfold onPre, Eff.bind. cbn [Eff.gets]. by rewrite H. Qed.

Lemma es_onPre_back (s : state) :
  current_file s <> 0 ->
  let s' := Eff.exec (onPre float format presets cast) s in
  (onPre float format presets cast s).1 = Eff.Ret tt /\
  total_files s' = total_files s /\ fileset s' = fileset s /\
  Qt.items (FileComboBox s') = Qt.items (FileComboBox s) /\
  (0 <= current_file s - 1 < Qt.count (FileComboBox s) ->
   current_file s' = current_file s - 1).
Proof.
  intros H. unfold Eff.exec, onPre, RemoveCurrentScene, scene_Clear, in_host.
  unfold Eff.bind, Eff.gets, Eff.modify.
  cbn -[setCurrentIndex Z.sub]. rewrite bool_decide_eq_false_2 by done.
  match goal with |- context [setCurrentIndex _ _ _ _ ?i ?s0] => set (s1 := s0) end.
  destruct (es_setCurrentIndex_spec (current_file s - 1) s1) as (Hr & Ht & Hf & Hb & Hc).
  unfold Eff.exec in *. rewrite Hr, Ht, Hf, Hb. split_and!; [done..|].
  intros Hi. by apply Hc.
Qed.

(** [onNext]: a warning on the last file, one file on otherwise. *)
Lemma es_onNext_last (s : state) :
  current_file s + 1 = total_files s ->
  onNext float format presets cast s =
  (Eff.Ret tt, set_host (Host.log (Host.Warning "This is last file") (host s)) s).
Proof. intros H. unfold onNext, Eff.bind. cbn [Eff.gets]. by rewrite bool_decide_eq_true_2. Qed.

Lemma es_onNext_on (s : state) :
  current_file s + 1 <> total_files s ->
  let s' := Eff.exec (onNext float format presets cast) s in
  (onNext float format presets cast s).1 = Eff.Ret tt /\
  total_files s' = total_files s /\ fileset s' = fileset s /\
  Qt.items (FileComboBox s') = Qt.items (FileComboBox s) /\
  (0 <= current_file s + 1 < Qt.count (FileComboBox s) ->
   current_file s' = current_file s + 1).
Proof.
  intros H. unfold Eff.exec, onNext, RemoveCurrentScene, scene_Clear, in_host.
  unfold Eff.bind, Eff.gets, Eff.modify.
  cbn -[setCurrentIndex Z.add]. rewrite bool_decide_eq_false_2 by done.
  match goal with |- context [setCurrentIndex _ _ _ _ ?i ?s0] => set (s1 := s0) end.
  destruct (es_setCurrentIndex_spec (current_file s + 1) s1) as (Hr & Ht & Hf & Hb & Hc).
  unfold Eff.exec in *. rewrite Hr, Ht, Hf, Hb. split_and!; [done..|].
  intros Hi. by apply Hc.
Qed.

End EasySegmentationFacts.

Section EasySegmentationNormalForm.
Import EasySegmentation.

(** Where a text is not found, a longer text that starts with it is not
    found either. *)
Lemma find_nat_longer (sub more s : string) :
  Py.find_nat sub s = None -> Py.find_nat (sub +:+ more) s = None.
Proof.
  intros Hn. destruct (Py.find_nat (sub +:+ more) s) as [i|] eqn:E; [|done].
  apply find_nat_Some in E as (post & Hs & _).
  rewrite app_assoc_str in Hs. by apply (find_nat_None _ _ Hn) in Hs.
Qed.

Lemma find_minus_one (s sub : string) : Py.find s sub = -1 <-> Py.find_nat sub s = None.
Proof. unfold Py.find. destruct (Py.find_nat sub s); split; (done || lia). Qed.

(** The third file type never decides the cut. *)
Lemma cut_two_types (file_basename : string) :
  cut_at_type file_types file_basename = cut_at_type ["*.nrrd"; "*.nii"] file_basename.
Proof.
  unfold file_types. cbn [cut_at_type].
  change (Py.slice_from "*.nrrd" 1) with ".nrrd".
  change (Py.slice_from "*.nii" 1) with ".nii".
  change (Py.slice_from "*.nii.gz" 1) with ".nii.gz".
  case_bool_decide as H1; [done|]. case_bool_decide as H2; [done|].
  apply find_minus_one in H2.
  apply (find_nat_longer _ ".gz") in H2. apply find_minus_one in H2.
  change (".nii" +:+ ".gz") with ".nii.gz" in H2.
  by rewrite bool_decide_eq_false_2 by (by intros []).
Qed.

Lemma contains_find (sub s : string) : Py.contains sub s = false <-> Py.find s sub = -1.
Proof.
  rewrite find_minus_one. unfold Py.contains. by destruct (Py.find_nat sub s).
Qed.

(** What is in front of the first occurrence is what [find] cuts. *)
Lemma first_at_find (ext file_basename name : string) :
  first_at ext file_basename name <->
  exists i, Py.find_nat ext file_basename = Some i /\ name = Py.take i file_basename.
Proof.
  split.
  - intros [[rest Hb] Hmin].
    destruct (Py.find_nat ext file_basename) as [i|] eqn:E.
    + exists i. split; [done|].
      pose proof (find_nat_first _ _ _ _ _ E Hb) as Hle.
      destruct (find_nat_Some _ _ _ E) as (post & Hs & Hl).
      pose proof (Hmin _ _ Hs) as Hge. rewrite Hl in Hge.
      assert (i = String.length name) as -> by lia.
      rewrite Hb at 1. by rewrite take_app_str.
    + by apply (find_nat_None _ _ E) in Hb.
  - intros (i & E & ->). destruct (find_nat_Some _ _ _ E) as (post & Hs & Hl). split.
    + by exists post.
    + intros pre post' Hb. rewrite Hl. by apply (find_nat_first _ _ _ _ _ E Hb).
Qed.

Lemma slice_to_find (ext file_basename : string) (i : nat) :
  Py.find_nat ext file_basename = Some i ->
  Py.slice_to file_basename (Py.find file_basename ext) = Py.take i file_basename.
Proof.
  intros E. unfold Py.find, Py.slice_to. rewrite E. rewrite clip_nat; [done|].
  destruct (find_nat_Some _ _ _ E) as (post & Hs & Hl).
  rewrite Hs, length_app_str, Hl. lia.
Qed.

Lemma substring_find (sub s : string) : Py.substring sub s <-> is_Some (Py.find_nat sub s).
Proof.
  unfold Py.substring. rewrite <-contains_spec. unfold Py.contains.
  destruct (Py.find_nat sub s); split; (done || eauto || by intros []).
Qed.

(** [find_basename_wo_extension] gives the basename without extension, and
    nothing else is the basename without extension. *)
Lemma without_extension_cut (file_basename name : string) :
  without_extension file_basename name <-> name = cut_at_type file_types file_basename.
Proof.
  rewrite cut_two_types. unfold without_extension. cbn [cut_at_type].
  change (Py.slice_from "*.nrrd" 1) with ".nrrd".
  change (Py.slice_from "*.nii" 1) with ".nii".
  rewrite !first_at_find, !substring_find.
  destruct (Py.find_nat ".nrrd" file_basename) as [i|] eqn:E1.
  - rewrite bool_decide_eq_true_2 by (unfold Py.find; rewrite E1; lia).
    rewrite (slice_to_find _ _ _ E1). split.
    + intros [(j & [= <-] & ->)|[[[] _]|[[] _]]]; eauto.
    + intros ->. left. eauto.
  - rewrite bool_decide_eq_false_2 by (unfold Py.find; rewrite E1; lia).
    destruct (Py.find_nat ".nii" file_basename) as [i|] eqn:E2.
    + rewrite bool_decide_eq_true_2 by (unfold Py.find; rewrite E2; lia).
      rewrite (slice_to_find _ _ _ E2). split.
      * intros [(j & [=] & _)|[[_ (j & [= <-] & ->)]|(_ & [] & _)]]; eauto.
      * intros ->. right. left. split; [by intros [? [=]]|eauto].
    + rewrite bool_decide_eq_false_2 by (unfold Py.find; rewrite E2; lia). split.
      * intros [(j & [=] & _)|[[_ (j & [=] & _)]|(_ & _ & ->)]]; done.
      * intros ->. right. right. split_and!; [by intros [? [=]]..|done].
Qed.

Lemma is_sep_separator (c : ascii) : Py.is_sep c = true <-> separator c.
Proof.
  unfold Py.is_sep, separator. rewrite orb_true_iff, !bool_decide_eq_true. tauto.
Qed.

Lemma after_run_total (s : string) : exists rest, after_run s rest.
Proof.
  induction s as [|c s [rest IH]]; [eexists; constructor|].
  destruct (Py.is_sep c) eqn:E.
  - exists rest. constructor; [by apply is_sep_separator|done].
  - eexists. apply after_run_other. rewrite <-is_sep_separator. congruence.
Qed.

Lemma after_run_fun (s r1 r2 : string) : after_run s r1 -> after_run s r2 -> r1 = r2.
Proof.
  intros H1. revert r2. induction H1; intros r2 H2; inversion H2; subst; (done || eauto).
Qed.

Lemma after_run_length (s rest : string) :
  after_run s rest -> (String.length rest <= String.length s)%nat.
Proof. induction 1; simpl; lia. Qed.

(** In a run, [re.sub] goes on after the run. *)
Lemma sub_runs_after (s rest : string) :
  after_run s rest -> Py.sub_runs true s = Py.sub_runs false rest.
Proof.
  induction 1 as [|c s rest Hc _ IH|c s Hc]; [done| |].
  - apply is_sep_separator in Hc. cbn [Py.sub_runs]. by rewrite Hc.
  - cbn [Py.sub_runs]. destruct (Py.is_sep c) eqn:E; [|done].
    by apply is_sep_separator in E.
Qed.

(** [re.sub] replaces the runs, and nothing else is the text with its runs
    replaced. *)
Lemma runs_replaced_below (n : nat) (s : string) :
  (String.length s < n)%nat -> runs_replaced s (Py.sub_runs false s).
Proof.
  revert s. induction n as [|n IH]; intros s Hn; [lia|].
  destruct s as [|c s]; [constructor|]. cbn [Py.sub_runs]. destruct (Py.is_sep c) eqn:E.
  - destruct (after_run_total s) as [rest Hrest]. rewrite (sub_runs_after _ _ Hrest).
    apply (runs_replaced_run c s rest); [by apply is_sep_separator|done|].
    apply IH. apply after_run_length in Hrest. simpl in Hn. lia.
  - apply runs_replaced_other; [rewrite <-is_sep_separator; congruence|].
    apply IH. simpl in Hn. lia.
Qed.

Lemma runs_replaced_sub (s : string) : runs_replaced s (Py.re_sub_runs s).
Proof. apply (runs_replaced_below (S (String.length s))). lia. Qed.

Lemma runs_replaced_fun (s t1 t2 : string) :
  runs_replaced s t1 -> runs_replaced s t2 -> t1 = t2.
Proof.
  intros H1. revert t2.
  induction H1 as [|c s t Hc _ IH|c s rest t Hc Hr _ IH]; intros t2 H2;
    inversion H2 as [|c' s' t' Hc' Ht'|c' s' rest' t' Hc' Hr' Ht']; subst; try done.
  - f_equal. by apply IH.
  - f_equal. apply IH. by rewrite (after_run_fun _ _ _ Hr Hr').
Qed.

(** The name that [onRun] compares is the normal form of the path, and the
    only one. *)
Lemma normal_form_unified (path name : string) :
  normal_form path name <-> name = unified_name path.
Proof.
  unfold normal_form, unified_name, find_basename_wo_extension. split.
  - intros (stripped & ->%without_extension_cut & Hr).
    by apply (runs_replaced_fun _ _ _ Hr), runs_replaced_sub.
  - intros ->. eexists. split; [by apply without_extension_cut|apply runs_replaced_sub].
Qed.

End EasySegmentationNormalForm.

Section EasySegmentationRun.
Import EasySegmentation.

Variable float : string -> option Q.
Variable format : Q -> string.
Variable presets : list string.
Variable cast : Q -> Q.

Lemma fuzzy_match_test (image_file seg_file : string) :
  Py.contains (unified_name image_file) (unified_name seg_file)
  || Py.contains (unified_name seg_file) (unified_name image_file) = true <->
  fuzzy_match image_file seg_file.
Proof.
  rewrite orb_true_iff, !contains_spec. unfold fuzzy_match, Py.substring. split.
  - intros H. exists (unified_name image_file), (unified_name seg_file).
    split; [by apply normal_form_unified|]. split; [by apply normal_form_unified|]. exact H.
  - intros (a & b & ->%normal_form_unified & ->%normal_form_unified & H). exact H.
Qed.

(** The inner loop of [onRun] finds the first file that goes with the
    image. *)
Lemma find_seg_spec (image_file : string) (seg_files : list string) :
  first_match image_file seg_files
    (default "" (find_seg (unified_name image_file) seg_files)).
Proof.
  induction seg_files as [|x rest IH]; [by right|].
  change (find_seg (unified_name image_file) (x :: rest)) with
    (if Py.contains (unified_name image_file) (unified_name x)
        || Py.contains (unified_name x) (unified_name image_file)
     then Some x else find_seg (unified_name image_file) rest).
  destruct (Py.contains (unified_name image_file) (unified_name x)
            || Py.contains (unified_name x) (unified_name image_file)) eqn:E.
  - left. exists [], rest. split; [reflexivity|]. split; [|by constructor].
    by apply fuzzy_match_test.
  - assert (Hx : ~ fuzzy_match image_file x).
    { intros H%fuzzy_match_test. congruence. }
    destruct IH as [(before & after & Hrest & Hm & Hb)|[Hnone Hall]].
    + left. exists (x :: before), after. split; [simpl; f_equal; exact Hrest|].
      split; [done|]. by constructor.
    + right. split; [done|]. by constructor.
Qed.

Lemma set_fileset_same (s : state) (l : list (string * string)) :
  fileset s = Some l -> set_fileset (Some l) s = s.
Proof. destruct s. simpl. by intros ->. Qed.

(** The loop of [onRun] over the image files appends one pair per file. *)
Lemma es_pairing_loop (seg_files image_files : list string) (s : state)
  (acc : list (string * string)) :
  fileset s = Some acc ->
  Eff.for_each image_files
    (fun image_file =>
       let image_name := find_basename_wo_extension image_file in
       let image_name := Py.re_sub_runs image_name in
       l <- attr fileset ;;
       match find_seg image_name seg_files with
       | Some seg_file => Eff.modify (set_fileset (Some (l ++ [(image_file, seg_file)])))
       | None => Eff.modify (set_fileset (Some (l ++ [(image_file, "")])))
       end) s =
  (Eff.Ret tt, set_fileset (Some (acc ++ (pair_of seg_files <$> image_files))) s).
Proof.
  revert s acc. induction image_files as [|x rest IH]; intros s acc Hf.
  - simpl. rewrite app_nil_r. by rewrite set_fileset_same.
  - cbn [Eff.for_each]. unfold Eff.bind at 1. unfold Eff.bind at 1, attr. rewrite Hf.
    cbn [Eff.orelse Eff.ret]. fold (unified_name x).
    assert (Hstep : forall (m : M unit),
      m = Eff.modify (set_fileset (Some (acc ++ [pair_of seg_files x]))) ->
      (let (r, s1) := m s in
       match r with
       | Eff.Ret _ => Eff.for_each rest
           (fun image_file =>
              let image_name := find_basename_wo_extension image_file in
              let image_name := Py.re_sub_runs image_name in
              l <- attr fileset ;;
              match find_seg image_name seg_files with
              | Some seg_file => Eff.modify (set_fileset (Some (l ++ [(image_file, seg_file)])))
              | None => Eff.modify (set_fileset (Some (l ++ [(image_file, "")])))
              end) s1
       | Eff.Raise e => (Eff.Raise e, s1)
       end) =
      (Eff.Ret tt, set_fileset (Some (acc ++ (pair_of seg_files <$> (x :: rest)))) s)).
    { intros m ->. cbn [Eff.modify].
      rewrite (IH _ (acc ++ [pair_of seg_files x])) by done.
      by rewrite <-app_assoc. }
    apply Hstep. unfold pair_of. by destruct (find_seg (unified_name x) seg_files).
Qed.

(** [onRun] always returns; the file set holds one pair per image file, in
    the order of the files. *)
Lemma es_onRun_spec (s : state) :
  let l := pair_of (files_of (host s) (segDirectory s)) <$>
           files_of (host s) (imageDirectory s) in
  let s' := Eff.exec (onRun float format presets cast) s in
  (onRun float format presets cast s).1 = Eff.Ret tt /\
  fileset s' = Some l /\ total_files s' = Z.of_nat (length l) /\ current_file s' = 0 /\
  length (Qt.items (FileComboBox s')) = (length (Qt.items (FileComboBox s)) + length l)%nat.
Proof.
  intros l.
  assert (Hrun : exists s1,
    onRun float format presets cast s = InsertFileCombo float format presets cast s1 /\
    fileset s1 = Some l /\ total_files s1 = Z.of_nat (length l) /\ current_file s1 = 0 /\
    FileComboBox s1 = FileComboBox s).
  { eexists. split.
    - unfold onRun.
      unfold Eff.bind at 1. cbn [Eff.gets]. unfold Eff.bind at 1. cbn [Eff.gets].
      unfold Eff.bind at 1. unfold in_host at 1. cbn [Eff.gets].
      unfold Eff.bind at 1. unfold in_host at 1. cbn [Eff.gets host set_host].
      unfold Eff.bind at 1. cbn [Eff.modify].
      unfold Eff.bind at 1.
      rewrite (es_pairing_loop _ _ _ []) by done. rewrite app_nil_l. fold l.
      unfold Eff.bind at 1. unfold attr at 1. cbn [fileset set_fileset Eff.orelse Eff.ret].
      unfold Eff.bind at 1. cbn [Eff.modify].
      unfold Eff.bind at 1. cbn [Eff.modify].
      unfold Eff.bind at 1. unfold setCollapsed, update. cbn [Eff.modify].
      reflexivity.
    - done. }
  destruct Hrun as (s1 & Hrun & Hf1 & Ht1 & Hc1 & Hb1).
  destruct (es_InsertFileCombo_spec float format presets cast s1 l) as (Hr & Ht & Hf & Hc & Hb);
    [done..|].
  unfold Eff.exec in *. rewrite Hrun, Hr, Ht, Hf, Hc, Hb, Hb1. done.
Qed.

Lemma files_of_listing (h : Host.t) (directory : string) :
  Py.has_magic directory = false ->
  exists nrrd nii nii_gz,
    Host.sorted_listing h directory "*.nrrd" nrrd /\
    Host.sorted_listing h directory "*.nii" nii /\
    Host.sorted_listing h directory "*.nii.gz" nii_gz /\
    files_of h directory = nrrd ++ nii ++ nii_gz.
Proof.
  intros Hmagic. eexists _, _, _. split; [by apply sorted_listing_glob|].
  split; [by apply sorted_listing_glob|]. split; [by apply sorted_listing_glob|].
  unfold files_of, file_types. simpl. by rewrite app_nil_r.
Qed.

Lemma pair_of_fst (seg_files image_files : list string) :
  (pair_of seg_files <$> image_files).*1 = image_files.
Proof. rewrite <-list_fmap_compose. by rewrite <-(list_fmap_id image_files) at 2. Qed.

(** Claim C1.  The pairing of [EasySegmentationWidget.onRun], which always
    returns: [fileset] holds exactly one pair per image file found, in the
    order of the image files, and the second component of a pair is the
    first segmentation file, in the order of the segmentation files, that
    goes with the image file ([fuzzy_match]): one of the two names is a
    substring of the other, where the name of a file ([normal_form]) is its
    basename without extension (what is in front of the first [.nrrd], or
    without [.nrrd] in front of the first [.nii], or all of it) with every
    run of [-] and [_] replaced by one [_].  The second component is the
    empty string when no segmentation file goes with the image file. *)
Theorem onRun_pairing (s : state) :
  Eff.returns (onRun float format presets cast) s /\
  exists l,
    fileset (Eff.exec (onRun float format presets cast) s) = Some l /\
    l.*1 = files_of (host s) (imageDirectory s) /\
    Forall (fun pair => first_match pair.1 (files_of (host s) (segDirectory s)) pair.2) l.
Proof.
  destruct (es_onRun_spec s) as (Hr & Hf & _).
  split; [unfold Eff.returns; by rewrite Hr|].
  eexists. split; [exact Hf|]. split; [apply pair_of_fst|].
  apply Forall_fmap, Forall_forall. intros image_file _. apply find_seg_spec.
Qed.

(** Claim C6.  After every run of [EasySegmentationWidget.onRun] with an
    image directory whose name has none of the characters [*], [?] and [[],
    which [glob] reads as a pattern, the image files of [fileset] are, in
    this order, the sorted entries of the image directory that match
    [*.nrrd], then those that match [*.nii], then those that match
    [*.nii.gz]; [total_files] is their number and [current_file] is [0]. *)
Theorem onRun_files (s : state) :
  Py.has_magic (imageDirectory s) = false ->
  Eff.returns (onRun float format presets cast) s /\
  exists l nrrd nii nii_gz,
    fileset (Eff.exec (onRun float format presets cast) s) = Some l /\
    Host.sorted_listing (host s) (imageDirectory s) "*.nrrd" nrrd /\
    Host.sorted_listing (host s) (imageDirectory s) "*.nii" nii /\
    Host.sorted_listing (host s) (imageDirectory s) "*.nii.gz" nii_gz /\
    l.*1 = nrrd ++ nii ++ nii_gz /\
    total_files (Eff.exec (onRun float format presets cast) s) =
      Z.of_nat (length (nrrd ++ nii ++ nii_gz)) /\
    current_file (Eff.exec (onRun float format presets cast) s) = 0.
Proof.
  intros Hmagic. destruct (es_onRun_spec s) as (Hr & Hf & Ht & Hc & _).
  destruct (files_of_listing (host s) (imageDirectory s) Hmagic)
    as (nrrd & nii & nii_gz & H1 & H2 & H3 & Hl).
  split; [unfold Eff.returns; by rewrite Hr|].
  eexists _, nrrd, nii, nii_gz. split; [exact Hf|].
  split; [done|]. split; [done|]. split; [done|].
  rewrite pair_of_fst. split; [done|]. split; [|done].
  by rewrite Ht, length_fmap, Hl.
Qed.

End EasySegmentationRun.

Section EasySegmentationReach.
Import EasySegmentation.

Variable float : string -> option Q.
Variable format : Q -> string.
Variable presets : list string.
Variable cast : Q -> Q.

Ltac es_nav_step :=
  lazymatch goal with
  | |- Eff.preserves _ (in_host _) => apply es_in_host_nav
  | |- Eff.preserves _ (attr _) => apply es_attr_nav
  | |- Eff.preserves _ (update _ _) => apply es_update_nav
  | |- Eff.preserves _ (Eff.modify _) =>
      apply preserves_modify; intros ?; unfold keeps_nav; reflexivity
  | |- Eff.preserves _ (if _ then _ else _) => apply preserves_if
  | |- Eff.preserves _ (match ?x with _ => _ end) => destruct x
  | |- Eff.preserves _ _ => preserves_step
  end.

Ltac es_nav := repeat es_nav_step.

Lemma es_onReset_spec (s : state) :
  let s' := Eff.exec (onReset float format presets cast) s in
  total_files s' = 0 /\ current_file s' = 0 /\ Qt.items (FileComboBox s') = [].
Proof.
  unfold onReset. do 6 (rewrite exec_bind; cbn [Eff.modify]).
  rewrite exec_bind.
  match goal with |- context [clear _ _ _ _ ?s0] => set (s1 := s0) end.
  destruct (es_FileComboBox_do_spec float format presets cast Qt.clear s1)
    as (Hr & Ht & Hf & Hb & Hc).
  unfold clear. unfold Eff.exec in Ht, Hf, Hb, Hc.
  destruct (FileComboBox_do float format presets cast Qt.clear s1) as [r s2].
  simpl in Hr, Ht, Hf, Hb, Hc. subst r.
  match goal with |- context [Eff.exec ?m s2] =>
    assert (Hnav : Eff.preserves keeps_nav m) end.
  { unfold scene_Clear, setChecked, setText, setDisabled, setEnabled, setCollapsed. es_nav. }
  specialize (Hnav s2). apply es_nav_fields in Hnav as (Hc' & Ht' & _ & Hb').
  cbv zeta. rewrite Ht', Hc', Hb', Ht, Hc, Hb. split; [done|]. split.
  - subst s1. simpl. by destruct (Qt.clear (FileComboBox s)).2.
  - apply clear_items.
Qed.

(** The combo box always holds at least as many entries as there are
    files. *)
Lemma es_reachable_count (s : state) :
  reachable float format presets cast s -> 0 <= total_files s <= Qt.count (FileComboBox s).
Proof.
  induction 1 as [major minor h|s s' Hs IH Hstep]; [done|].
  unfold Qt.count in *. destruct Hstep as [s|s|s|s|s i Hi|s s' Hnav].
  - destruct (es_onRun_spec float format presets cast s) as (_ & _ & Ht & _ & Hb).
    rewrite Ht, Hb. lia.
  - destruct (decide (current_file s = 0)) as [H0|H0].
    + unfold Eff.exec. by rewrite es_onPre_first.
    + destruct (es_onPre_back float format presets cast s H0) as (_ & Ht & _ & Hb & _).
      by rewrite Ht, Hb.
  - destruct (decide (current_file s + 1 = total_files s)) as [H0|H0].
    + unfold Eff.exec. by rewrite es_onNext_last.
    + destruct (es_onNext_on float format presets cast s H0) as (_ & Ht & _ & Hb & _).
      by rewrite Ht, Hb.
  - destruct (es_onReset_spec s) as (Ht & _ & Hb). by rewrite Ht, Hb.
  - destruct (es_setCurrentIndex_spec float format presets cast i s) as (_ & Ht & _ & Hb & _).
    unfold pick. by rewrite Ht, Hb.
  - apply es_nav_fields in Hnav as (_ & -> & _ & ->). done.
Qed.

End EasySegmentationReach.

(** Claim C9.  Navigation in both widgets.  In every state that the widget
    reaches, with [total_files > 0] and [0 <= current_file < total_files],
    [onPre] and [onNext] return, leave [total_files] as it is and keep
    [current_file] within [[0, total_files)]: on the first file [onPre]
    displays the warning and leaves [current_file] unchanged, on the last
    file [onNext] does so, and otherwise [onPre] decrements and [onNext]
    increments [current_file] by exactly one. *)
Theorem navigation_invariant :
  (forall s : ImplantVideo.state,
     ImplantVideo.reachable s ->
     0 < ImplantVideo.total_files s ->
     0 <= ImplantVideo.current_file s < ImplantVideo.total_files s ->
     let pre := Eff.exec ImplantVideo.onPre s in
     let next := Eff.exec ImplantVideo.onNext s in
     (Eff.returns ImplantVideo.onPre s /\
      ImplantVideo.total_files pre = ImplantVideo.total_files s /\
      0 <= ImplantVideo.current_file pre < ImplantVideo.total_files pre /\
      (ImplantVideo.current_file s = 0 ->
         ImplantVideo.current_file pre = ImplantVideo.current_file s /\
         Host.trace (ImplantVideo.host pre) =
           Host.trace (ImplantVideo.host s) ++ [Host.Warning "This is first file"]) /\
      (ImplantVideo.current_file s <> 0 ->
         ImplantVideo.current_file pre = ImplantVideo.current_file s - 1)) /\
     (Eff.returns ImplantVideo.onNext s /\
      ImplantVideo.total_files next = ImplantVideo.total_files s /\
      0 <= ImplantVideo.current_file next < ImplantVideo.total_files next /\
      (ImplantVideo.current_file s = ImplantVideo.total_files s - 1 ->
         ImplantVideo.current_file next = ImplantVideo.current_file s /\
         Host.trace (ImplantVideo.host next) =
           Host.trace (ImplantVideo.host s) ++ [Host.Warning "This is last file"]) /\
      (ImplantVideo.current_file s <> ImplantVideo.total_files s - 1 ->
         ImplantVideo.current_file next = ImplantVideo.current_file s + 1))) /\
  (forall (float : string -> option Q) (format : Q -> string) (presets : list string)
          (cast : Q -> Q) (s : EasySegmentation.state),
     EasySegmentation.reachable float format presets cast s ->
     0 < EasySegmentation.total_files s ->
     0 <= EasySegmentation.current_file s < EasySegmentation.total_files s ->
     let pre := Eff.exec (EasySegmentation.onPre float format presets cast) s in
     let next := Eff.exec (EasySegmentation.onNext float format presets cast) s in
     (Eff.returns (EasySegmentation.onPre float format presets cast) s /\
      EasySegmentation.total_files pre = EasySegmentation.total_files s /\
      0 <= EasySegmentation.current_file pre < EasySegmentation.total_files pre /\
      (EasySegmentation.current_file s = 0 ->
         EasySegmentation.current_file pre = EasySegmentation.current_file s /\
         Host.trace (EasySegmentation.host pre) =
           Host.trace (EasySegmentation.host s) ++ [Host.Warning "This is first file"]) /\
      (EasySegmentation.current_file s <> 0 ->
         EasySegmentation.current_file pre = EasySegmentation.current_file s - 1)) /\
     (Eff.returns (EasySegmentation.onNext float format presets cast) s /\
      EasySegmentation.total_files next = EasySegmentation.total_files s /\
      0 <= EasySegmentation.current_file next < EasySegmentation.total_files next /\
      (EasySegmentation.current_file s = EasySegmentation.total_files s - 1 ->
         EasySegmentation.current_file next = EasySegmentation.current_file s /\
         Host.trace (EasySegmentation.host next) =
           Host.trace (EasySegmentation.host s) ++ [Host.Warning "This is last file"]) /\
      (EasySegmentation.current_file s <> EasySegmentation.total_files s - 1 ->
         EasySegmentation.current_file next = EasySegmentation.current_file s + 1))).
Proof.
  split.
  - intros s Hreach Hn Hi pre next. apply iv_reachable_count in Hreach as Hcount.
    split.
    + subst pre. destruct (decide (ImplantVideo.current_file s = 0)) as [H0|H0].
      * unfold Eff.returns, Eff.exec. rewrite iv_onPre_first by done. simpl.
        split; [done|]. split; [done|]. split; [lia|]. split; [done|]. intros ?; lia.
      * destruct (iv_onPre_back s H0) as (Hr & Ht & _ & _ & Hc).
        unfold Eff.returns. rewrite Hr, Ht, Hc by lia.
        split; [done|]. split; [done|]. split; [lia|]. split; [intros ?; lia|done].
    + subst next.
      destruct (decide (ImplantVideo.current_file s + 1 = ImplantVideo.total_files s))
        as [H0|H0].
      * unfold Eff.returns, Eff.exec. rewrite iv_onNext_last by done. simpl.
        split; [done|]. split; [done|]. split; [lia|]. split; [done|]. intros ?; lia.
      * destruct (iv_onNext_on s H0) as (Hr & Ht & _ & _ & Hc).
        unfold Eff.returns. rewrite Hr, Ht, Hc by lia.
        split; [done|]. split; [done|]. split; [lia|]. split; [intros ?; lia|done].
  - intros float format presets cast s Hreach Hn Hi pre next.
    apply es_reachable_count in Hreach as Hcount.
    split.
    + subst pre. destruct (decide (EasySegmentation.current_file s = 0)) as [H0|H0].
      * unfold Eff.returns, Eff.exec. rewrite es_onPre_first by done. simpl.
        split; [done|]. split; [done|]. split; [lia|]. split; [done|]. intros ?; lia.
      * destruct (es_onPre_back float format presets cast s H0) as (Hr & Ht & _ & _ & Hc).
        unfold Eff.returns. rewrite Hr, Ht, Hc by lia.
        split; [done|]. split; [done|]. split; [lia|]. split; [intros ?; lia|done].
    + subst next.
      destruct (decide (EasySegmentation.current_file s + 1 = EasySegmentation.total_files s))
        as [H0|H0].
      * unfold Eff.returns, Eff.exec. rewrite es_onNext_last by done. simpl.
        split; [done|]. split; [done|]. split; [lia|]. split; [done|]. intros ?; lia.
      * destruct (es_onNext_on float format presets cast s H0) as (Hr & Ht & _ & _ & Hc).
        unfold Eff.returns. rewrite Hr, Ht, Hc by lia.
        split; [done|]. split; [done|]. split; [lia|]. split; [intros ?; lia|done].
Qed.

(** ** Segments *)

Lemma segment_index_Some (name : string) (segments : list Host.segment) (k : nat) :
  Host.segment_index name segments = Some k ->
  exists sg, segments !! k = Some sg /\ Host.segmentName sg = name.
Proof.
  revert k. induction segments as [|sg rest IH]; intros k; [done|].
  cbn [Host.segment_index]. case_bool_decide as Hn.
  - intros [= <-]. by exists sg.
  - destruct (Host.segment_index name rest) as [j|]; [|done].
    intros [= <-]. by apply IH.
Qed.

Lemma segment_index_insert (name : string) (segments : list Host.segment) (k : nat)
  (mask : list Z) :
  Host.segment_index name segments = Some k ->
  Host.segment_index name
    (<[k := {| Host.segmentName := name; Host.labelmap := mask |}]> segments) = Some k.
Proof.
  revert k. induction segments as [|sg rest IH]; intros k; [done|].
  cbn [Host.segment_index]. case_bool_decide as Hn.
  - intros [= <-]. simpl. by rewrite bool_decide_eq_true_2.
  - destruct (Host.segment_index name rest) as [j|] eqn:E; [|done].
    intros [= <-]. simpl. rewrite bool_decide_eq_false_2 by done. by rewrite (IH j).
Qed.

Lemma segment_index_snoc (name : string) (segments : list Host.segment) (mask : list Z) :
  Host.segment_index name segments = None ->
  Host.segment_index name
    (segments ++ [{| Host.segmentName := name; Host.labelmap := mask |}]) =
  Some (length segments).
Proof.
  induction segments as [|sg rest IH]; simpl.
  - by rewrite bool_decide_eq_true_2.
  - case_bool_decide; [done|].
    destruct (Host.segment_index name rest); [done|]. intros _. by rewrite IH.
Qed.

Section EasySegmentationApply.
Import EasySegmentation.

Variable float : string -> option Q.
Variable cast : Q -> Q.

(** The mask of a thresholding: one where the voxel is in the range, zero
    elsewhere; the voxel and the bounds are compared after their
    conversion. *)
Lemma threshold_mask_length (lo hi : Q) (voxels : list Q) :
  length (assign_where (in_range cast lo hi voxels) 1 (replicate (length voxels) 0)) =
  length voxels.
Proof.
  unfold assign_where, in_range.
  rewrite length_zip_with, length_fmap, length_replicate. lia.
Qed.

Lemma threshold_mask_lookup (lo hi : Q) (voxels : list Q) (i : nat) (v : Q) :
  voxels !! i = Some v ->
  ((cast lo <= cast v)%Q /\ (cast v <= cast hi)%Q ->
     assign_where (in_range cast lo hi voxels) 1 (replicate (length voxels) 0) !! i = Some 1) /\
  (~ ((cast lo <= cast v)%Q /\ (cast v <= cast hi)%Q) ->
     assign_where (in_range cast lo hi voxels) 1 (replicate (length voxels) 0) !! i = Some 0).
Proof.
  intros Hv. unfold assign_where, in_range.
  rewrite lookup_zip_with, list_lookup_fmap, Hv. simpl.
  rewrite lookup_replicate_2 by (by eapply lookup_lt_Some). simpl.
  destruct (Qle_bool (cast lo) (cast v)) eqn:E1, (Qle_bool (cast v) (cast hi)) eqn:E2; simpl;
    rewrite <-?Qle_bool_iff, ?E1, ?E2; split; try done; intros H; try tauto;
    destruct H; congruence.
Qed.

(** Claim C2.  [EasySegmentationWidget.onApply] with a current volume, a
    current segmentation, and numbers in the two boxes: it returns, and the
    segmentation then has a segment ['Segment_1'] (the one it had, or a new
    one after the others when it had none; the other segments are as they
    were) whose labelmap has one entry per voxel of the volume, whatever
    the segment held before: [1] where [min <= v <= max] holds for the
    voxel and the bounds converted to the type in which numpy compares
    them ([cast]: for a volume of [float32] the bounds are rounded to
    [float32]), [0] elsewhere.  The volume is unchanged. *)
Theorem onApply_threshold (s : state) (seg volume : nat) (name vname : string)
  (r : option nat) (segments : list Host.segment) (voxels : list Q) (lo hi : Q) :
  currentSegNode s = Some seg -> currentVolumeNode s = Some volume ->
  Host.nodes (host s) !! seg = Some (Host.SegmentationNode name r segments) ->
  Host.nodes (host s) !! volume = Some (Host.VolumeNode vname voxels) ->
  float (text (gui s minBox)) = Some lo -> float (text (gui s maxBox)) = Some hi ->
  Eff.returns (onApply float cast) s /\
  exists segments' k mask,
    Host.nodes (host (Eff.exec (onApply float cast) s)) !! seg =
      Some (Host.SegmentationNode name r segments') /\
    Host.segment_index "Segment_1" segments' = Some k /\
    segments' !! k = Some {| Host.segmentName := "Segment_1"; Host.labelmap := mask |} /\
    (Host.segment_index "Segment_1" segments = Some k \/
     Host.segment_index "Segment_1" segments = None /\ k = length segments) /\
    (forall j, j <> k -> segments' !! j = segments !! j) /\
    length mask = length voxels /\
    (forall i v, voxels !! i = Some v ->
       ((cast lo <= cast v)%Q /\ (cast v <= cast hi)%Q -> mask !! i = Some 1) /\
       (~ ((cast lo <= cast v)%Q /\ (cast v <= cast hi)%Q) -> mask !! i = Some 0)) /\
    Host.nodes (host (Eff.exec (onApply float cast) s)) !! volume =
      Some (Host.VolumeNode vname voxels).
Proof.
  intros Hseg Hvol Hns Hnv Hlo Hhi.
  assert (Hne : seg <> volume) by (intros ->; congruence).
  assert (Hlt : (seg < length (Host.nodes (host s)))%nat) by (by eapply lookup_lt_Some).
  unfold Eff.returns, Eff.exec, onApply, toPlainText, attr, in_host,
    Host.GetSegmentIdBySegmentName, Host.AddEmptySegment,
    Host.arrayFromSegmentBinaryLabelmap, Host.updateSegmentBinaryLabelmapFromArray,
    Host.arrayFromVolume, Host.segments_of, Host.set_segments, Host.get_node, Host.set_node.
  destruct (Host.segment_index "Segment_1" segments) as [k|] eqn:Hk.
  - destruct (segment_index_Some _ _ _ Hk) as (sg & Hsg & Hname).
    run_with ltac:(rewrite ?Hseg, ?Hvol, ?Hns, ?Hnv, ?Hlo, ?Hhi, ?Hk, ?Hsg, ?Hname).
    split; [done|].
    eexists _, k, _. split; [reflexivity|].
    split; [by apply segment_index_insert|].
    split; [apply list_lookup_insert_eq; by eapply lookup_lt_Some|].
    split; [by left|].
    split; [intros j Hj; by apply list_lookup_insert_ne|].
    rewrite length_resize.
    split; [apply threshold_mask_length|].
    split; [intros i v; apply threshold_mask_lookup|].
    done.
  - run_with ltac:(rewrite ?Hseg, ?Hvol, ?Hns, ?Hnv, ?Hlo, ?Hhi, ?Hk).
    split; [done|].
    eexists _, (length segments), _. split; [reflexivity|].
    rewrite insert_app_r_alt, Nat.sub_diag by done. simpl.
    split; [by apply segment_index_snoc|].
    split; [apply lookup_snoc|].
    split; [by right|].
    split.
    { intros j Hj. destruct (decide (j < length segments)%nat).
      - by rewrite lookup_app_l.
      - rewrite lookup_ge_None_2 by (rewrite length_app; simpl; lia).
        symmetry. apply lookup_ge_None_2. lia. }
    rewrite length_resize.
    split; [apply threshold_mask_length|].
    split; [intros i v; apply threshold_mask_lookup|].
    done.
Qed.

End EasySegmentationApply.

Lemma if_same {A} (b : bool) (x : A) : (if b then x else x) = x.
Proof. by destruct b. Qed.

(** ** Making a directory when it is missing *)

Lemma ensured_nodes (directory : string) (h : Host.t) :
  Host.nodes (Host.ensured directory h) = Host.nodes h.
Proof. unfold Host.ensured. by destruct (Host.path_exists h directory). Qed.

Lemma ensured_scene (directory : string) (h : Host.t) :
  Host.scene (Host.ensured directory h) = Host.scene h.
Proof. unfold Host.ensured. by destruct (Host.path_exists h directory). Qed.

Lemma ensured_files (directory : string) (h : Host.t) :
  Host.files (Host.ensured directory h) = Host.files h.
Proof. unfold Host.ensured. by destruct (Host.path_exists h directory). Qed.

Lemma ensured_trace (directory : string) (h : Host.t) :
  Host.trace (Host.ensured directory h) = Host.trace h.
Proof. unfold Host.ensured. by destruct (Host.path_exists h directory). Qed.

Lemma ensured_exists (directory : string) (h : Host.t) :
  Host.path_exists (Host.ensured directory h) directory = true.
Proof.
  unfold Host.ensured. destruct (Host.path_exists h directory) eqn:E; [done|].
  unfold Host.path_exists, Host.makedirs. simpl. apply bool_decide_eq_true_2. set_solver.
Qed.

Lemma ensured_dirs (directory : string) (h : Host.t) :
  Host.dirs h ⊆ Host.dirs (Host.ensured directory h) /\
  (Host.path_exists h directory = false -> directory ∈ Host.dirs (Host.ensured directory h)).
Proof.
  unfold Host.ensured. destruct (Host.path_exists h directory) eqn:E; [done|].
  unfold Host.makedirs. simpl. set_solver.
Qed.

Section EasySegmentationSave.
Import EasySegmentation.

#[local] Arguments find_basename_wo_extension : simpl never.

Lemma es_ensure_directory_run (directory : string) (s : state) :
  ensure_directory directory s = (Eff.Ret tt, set_host (Host.ensured directory (host s)) s).
Proof. done. Qed.

#[local] Arguments Host.ensured : simpl never.

(** The export of the segmentation by [onSave]. *)
Lemma es_save_segmentation_run (s : state) (dir : string) (l : list (string * string))
  (i : Z) (pair : string * string) (seg : nat) (name : string) (r : option nat)
  (segments : list Host.segment) :
  fileset s = Some l -> Py.index l i = Some pair ->
  currentSegNode s = Some seg ->
  Host.nodes (host s) !! seg = Some (Host.SegmentationNode name r segments) ->
  let seg_directory := Py.join dir "segmentation" in
  let segFile := if bool_decide (pair.2 ≠ "") then Py.basename pair.2 else name in
  let suffix := if checked (gui s suffixButton) then text (gui s suffixBox) else "" in
  let seg_path :=
    Py.join seg_directory (find_basename_wo_extension segFile +:+ suffix +:+ ".nii.gz") in
  let lm := length (Host.nodes (host s)) in
  exists h',
    save_segmentation dir i s = (Eff.Ret tt, set_host h' s) /\
    Host.files h' = <[seg_path := Host.Labelmap (Host.merged_labelmap segments)]>
                      (Host.files (host s)) /\
    Host.dirs h' = Host.dirs (Host.ensured seg_directory (host s)) /\
    Host.nodes h' =
      <[lm := Host.LabelMapVolumeNode (Host.merged_labelmap segments) (Some (S lm))]>
        ((Host.nodes (host s) ++ [Host.LabelMapVolumeNode [] None]) ++ [Host.ColorNode]) /\
    Host.scene h' = (({[ (S lm) ]} ∪ ({[lm]} ∪ Host.scene (host s))) ∖ {[ (S lm) ]}) ∖ {[lm]} /\
    Host.trace h' = Host.trace (host s).
Proof.
  intros Hf Hi Hseg Hns.
  assert (Hlt : (seg < length (Host.nodes (host s)))%nat) by (by eapply lookup_lt_Some).
  cbv zeta.
  destruct (bool_decide (pair.2 ≠ "")) eqn:Hp.
  all: eexists; split;
    [ unfold save_segmentation;
      unfold Eff.bind at 1; rewrite es_ensure_directory_run;
      unfold export_or_save, fileset_at, isChecked, toPlainText, attr,
        in_host, Host.ExportAllSegmentsToLabelmapNode, Host.GetName, Host.GetColorNode,
        Host.exportNode, Host.RemoveNode, Host.segments_of, Host.get_node, Host.set_node,
        Host.add_node;
      run_with ltac:(rewrite ?Hf, ?Hi, ?Hseg, ?ensured_nodes, ?Hns, ?Hp, ?if_same);
      reflexivity
    | cbn [Host.files Host.dirs Host.nodes Host.scene Host.trace Host.with_scene
           Host.with_nodes Host.write Host.with_files];
      rewrite ensured_files, ensured_scene, ensured_trace, length_app, Nat.add_1_r;
      split; [|done];
      destruct (checked (gui s suffixButton)); rewrite ?app_nil_l_str; reflexivity ].
Qed.

(** The saving of the volume by [onSave]. *)
Lemma es_save_volume_run (s : state) (dir : string) (l : list (string * string))
  (i : Z) (pair : string * string) (volume : nat) (vname : string) (voxels : list Q) :
  fileset s = Some l -> Py.index l i = Some pair ->
  currentVolumeNode s = Some volume ->
  Host.nodes (host s) !! volume = Some (Host.VolumeNode vname voxels) ->
  exists h',
    save_volume dir i s = (Eff.Ret tt, set_host h' s) /\
    Host.nodes h' = Host.nodes (host s) /\ Host.scene h' = Host.scene (host s) /\
    Host.trace h' = Host.trace (host s) /\
    Host.dirs (host s) ⊆ Host.dirs h' /\
    (forall p, p ∈ dom (Host.files (host s)) -> p ∈ dom (Host.files h')).
Proof.
  intros Hf Hi Hvol Hnv. eexists. split.
  - unfold save_volume.
    unfold Eff.bind at 1. rewrite es_ensure_directory_run.
    unfold export_or_save, fileset_at, attr, in_host, Host.exportNode, Host.get_node.
    run_with ltac:(rewrite ?Hf, ?Hi, ?Hvol, ?ensured_nodes, ?Hnv, ?if_same).
    reflexivity.
  - cbn [Host.files Host.dirs Host.nodes Host.scene Host.trace Host.with_scene Host.with_nodes
         Host.write Host.with_files].
    rewrite ensured_files, ensured_scene, ensured_trace, ensured_nodes.
    split; [done|]. split; [done|]. split; [done|].
    split; [apply ensured_dirs|].
    intros p Hp. apply elem_of_dom. apply elem_of_dom in Hp as [x Hx].
    destruct (decide (Py.join (Py.join dir "image")
                        (find_basename_wo_extension pair.1 +:+ ".nii.gz") = p)) as [->|Hne].
    + rewrite lookup_insert_eq. eauto.
    + rewrite lookup_insert_ne by done. eauto.
Qed.

End EasySegmentationSave.

Lemma scene_after_save (sc : gset nat) (lm : nat) :
  let sc' := (({[ (S lm) ]} ∪ ({[ lm ]} ∪ sc)) ∖ {[ (S lm) ]}) ∖ {[ lm ]} in
  (lm ∉ sc') /\ (S lm ∉ sc') /\
  (forall n, n <> lm -> n <> S lm -> n ∈ sc' <-> n ∈ sc).
Proof.
  cbv zeta. split; [|split].
  - rewrite !elem_of_difference, !elem_of_union, !elem_of_singleton. intuition lia.
  - rewrite !elem_of_difference, !elem_of_union, !elem_of_singleton. intuition lia.
  - intros n H1 H2. rewrite !elem_of_difference, !elem_of_union, !elem_of_singleton.
    intuition lia.
Qed.

Section EasySegmentationSaveClaim.
Import EasySegmentation.

(** Claim C5, as the code has it.  [EasySegmentationWidget.onSave] with a
    destination folder, [total_files > 0] and the segmentation box checked:
    it returns, the labelmap of all segments of the current segmentation is
    in the file [<saveDirectory>/segmentation/<name><suffix>.nii.gz], the
    directory exists afterwards, the labelmap node made for the export and
    its colour node are out of the scene, and the scene is otherwise as it
    was.  [<suffix>] is the text of the suffix box when the suffix button is
    checked and empty otherwise.  [<name>] is [find_basename_wo_extension]
    of the basename of the pair's segmentation file, or, when the pair has
    none, [find_basename_wo_extension] of the name of the segmentation
    node: the name of the node is cut at [.nrrd], [.nii] or [.nii.gz] as a
    file name is. *)
Theorem onSave_segmentation (s : state) (l : list (string * string))
  (pair : string * string) (seg : nat) (name : string) (r : option nat)
  (segments : list Host.segment) :
  saveDirectory s <> "" -> 0 < total_files s -> checked (gui s SegCheck) = true ->
  fileset s = Some l -> Py.index l (current_file s) = Some pair ->
  currentSegNode s = Some seg ->
  Host.nodes (host s) !! seg = Some (Host.SegmentationNode name r segments) ->
  (checked (gui s ImageCheck) = true ->
   exists volume vname voxels,
     currentVolumeNode s = Some volume /\
     Host.nodes (host s) !! volume = Some (Host.VolumeNode vname voxels)) ->
  let seg_directory := Py.join (saveDirectory s) "segmentation" in
  let segFile := if bool_decide (pair.2 ≠ "") then Py.basename pair.2 else name in
  let suffix := if checked (gui s suffixButton) then text (gui s suffixBox) else "" in
  let seg_path :=
    Py.join seg_directory (find_basename_wo_extension segFile +:+ suffix +:+ ".nii.gz") in
  let lm := length (Host.nodes (host s)) in
  let s' := Eff.exec onSave s in
  Eff.returns onSave s /\
  Host.files (host s') !! seg_path = Some (Host.Labelmap (Host.merged_labelmap segments)) /\
  Host.path_exists (host s') seg_directory = true /\
  Host.nodes (host s') !! lm =
    Some (Host.LabelMapVolumeNode (Host.merged_labelmap segments) (Some (S lm))) /\
  Host.nodes (host s') !! S lm = Some Host.ColorNode /\
  (lm ∉ Host.scene (host s')) /\ (S lm ∉ Host.scene (host s')) /\
  (forall n, n <> lm -> n <> S lm -> n ∈ Host.scene (host s') <-> n ∈ Host.scene (host s)).
Proof.
  intros Hd Ht Hsc Hf Hi Hseg Hns Himg. cbv zeta.
  assert (Ht' : total_files s <> 0) by lia.
  assert (Hpre : exists h1,
    (if checked (gui s ImageCheck) then save_volume (saveDirectory s) (current_file s)
     else Eff.ret tt) s = (Eff.Ret tt, set_host h1 s) /\
    Host.nodes h1 = Host.nodes (host s) /\ Host.scene h1 = Host.scene (host s)).
  { destruct (checked (gui s ImageCheck)) eqn:Hic.
    - destruct Himg as (volume & vname & voxels & Hvol & Hnv); [done|].
      destruct (es_save_volume_run s (saveDirectory s) l (current_file s) pair volume vname
                  voxels Hf Hi Hvol Hnv) as (h1 & Hrun & Hn & Hs & _).
      by exists h1.
    - exists (host s). split; [|done]. by destruct s. }
  destruct Hpre as (h1 & Hpre & Hn1 & Hs1).
  destruct (es_save_segmentation_run (set_host h1 s) (saveDirectory s) l (current_file s)
              pair seg name r segments) as (h2 & Hrun & Hfiles & Hdirs & Hnodes & Hscene & _);
    [done|done|done|by rewrite <-Hn1 in Hns|].
  cbv zeta in Hfiles, Hnodes, Hscene, Hdirs. simpl in Hfiles, Hnodes, Hscene, Hdirs.
  assert (Hsave : onSave s = (Eff.Ret tt, set_host h2 s)).
  { unfold onSave.
    unfold Eff.bind at 1. cbn [Eff.gets]. unfold Eff.bind at 1. cbn [Eff.gets].
    rewrite !bool_decide_eq_false_2 by done.
    unfold Eff.bind at 1. cbn [Eff.gets].
    unfold Eff.bind at 1, isChecked at 1. cbn [Eff.gets].
    unfold Eff.bind at 1. rewrite Hpre.
    unfold Eff.bind at 1, isChecked at 1. cbn [Eff.gets gui set_host]. rewrite Hsc.
    by rewrite Hrun. }
  unfold Eff.returns, Eff.exec. rewrite Hsave. simpl.
  rewrite Hn1 in Hnodes. rewrite Hs1, Hn1 in Hscene.
  split; [done|].
  split; [rewrite Hfiles; apply lookup_insert_eq|].
  split.
  { unfold Host.path_exists. rewrite Hdirs.
    pose proof (ensured_exists (Py.join (saveDirectory s) "segmentation") h1) as He.
    unfold Host.path_exists in He. apply bool_decide_eq_true in He.
    apply bool_decide_eq_true_2. rewrite Hfiles. rewrite ensured_files in He.
    apply elem_of_union in He as [He|He]; [apply elem_of_union_l|by apply elem_of_union_r].
    rewrite dom_insert. by apply elem_of_union_r. }
  rewrite Hnodes, Hscene.
  split.
  { apply list_lookup_insert_eq. rewrite !length_app. simpl. lia. }
  split.
  { rewrite list_lookup_insert_ne by lia.
    replace (S (length (Host.nodes (host s)))) with
      (length (Host.nodes (host s) ++ [Host.LabelMapVolumeNode [] None]))
      by (rewrite length_app; simpl; lia).
    apply lookup_snoc. }
  destruct (scene_after_save (Host.scene (host s)) (length (Host.nodes (host s))))
    as (H1 & H2 & H3).
  split; [exact H1|]. split; [exact H2|exact H3].
Qed.

End EasySegmentationSaveClaim.

(** ** Nodes that hold data *)

#[global] Instance keeps_data_preorder : PreOrder Host.keeps_data.
Proof.
  split; [by intros h i n|].
  intros h1 h2 h3 H1 H2 i n Hi Hn. apply H2; [|done]. by apply H1.
Qed.

Lemma keeps_data_same (h h' : Host.t) : Host.nodes h' = Host.nodes h -> Host.keeps_data h h'.
Proof. intros Hn i n. by rewrite Hn. Qed.

Lemma add_node_data (n : Host.node) : Eff.preserves Host.keeps_data (Host.add_node n).
Proof.
  intros h i x Hi _. unfold Eff.exec, Host.add_node. simpl.
  rewrite lookup_app_l; [done|]. by eapply lookup_lt_Some.
Qed.

Lemma get_node_data (i : nat) : Eff.preserves Host.keeps_data (Host.get_node i).
Proof.
  intros h. unfold Eff.exec, Host.get_node. by destruct (Host.nodes h !! i).
Qed.

Lemma set_node_data (i : nat) (n : Host.node) (h : Host.t) :
  (forall x, Host.nodes h !! i = Some x -> ~ Host.is_data x) ->
  Host.keeps_data h (Eff.exec (Host.set_node i n) h).
Proof.
  intros Hx j y Hj Hy. unfold Eff.exec, Host.set_node. simpl.
  destruct (decide (i = j)) as [->|Hne]; [by destruct (Hx y)|].
  by rewrite list_lookup_insert_ne.
Qed.

Lemma CreateDefaultVolumeRenderingNodes_data (volume : nat) :
  Eff.preserves Host.keeps_data (Host.CreateDefaultVolumeRenderingNodes volume).
Proof.
  unfold Host.CreateDefaultVolumeRenderingNodes.
  apply preserves_bind; [tc_solve|apply add_node_data|intros p; apply add_node_data].
Qed.

Lemma GetVolumePropertyNode_data (d : nat) :
  Eff.preserves Host.keeps_data (Host.GetVolumePropertyNode d).
Proof.
  unfold Host.GetVolumePropertyNode.
  apply preserves_bind; [tc_solve|apply get_node_data|].
  intros []; by intros h.
Qed.

Lemma SetVisibility_data (d : nat) (v : bool) :
  Eff.preserves Host.keeps_data (Host.SetVisibility d v).
Proof.
  intros h. unfold Eff.exec, Host.SetVisibility, Host.get_node, Eff.bind.
  destruct (Host.nodes h !! d) as [n|] eqn:E; simpl; [|done].
  destruct n; try done.
  apply (set_node_data d _ h). intros x. rewrite E. intros [= <-] [].
Qed.

Lemma log_data (e : Host.event) : Eff.preserves Host.keeps_data (Eff.modify (Host.log e)).
Proof. intros h i n Hi _. exact Hi. Qed.

Section EasySegmentationLoad.
Import EasySegmentation.

Variable float : string -> option Q.
Variable format : Q -> string.
Variable presets : list string.
Variable cast : Q -> Q.

Lemma array_max_spec (l : list Q) :
  match array_max l with
  | Some m => m ∈ l /\ forall v, v ∈ l -> (v <= m)%Q
  | None => l = []
  end.
Proof.
  induction l as [|x rest IH]; [done|]. cbn [array_max].
  destruct (array_max rest) as [m|].
  - destruct IH as [Hm Hle]. destruct (Qle_bool m x) eqn:E.
    + apply Qle_bool_iff in E. split; [apply elem_of_cons; by left|].
      intros v [->|Hv]%elem_of_cons; [apply Qle_refl|].
      eapply Qle_trans; [by apply Hle|done].
    + split; [apply elem_of_cons; by right|]. intros v [->|Hv]%elem_of_cons; [|by apply Hle].
      destruct (Qlt_le_dec m x) as [Hlt|Hge]; [|done].
      apply Qlt_le_weak in Hlt. apply Qle_bool_iff in Hlt. congruence.
  - subst rest. split; [apply elem_of_cons; by left|]. intros v [->|Hv]%elem_of_cons; [apply Qle_refl|].
    by apply elem_of_nil in Hv.
Qed.

#[local] Arguments find_basename_wo_extension : simpl never.
#[local] Arguments run_volume_rendering : simpl never.
#[local] Arguments array_max : simpl never.
#[local] Arguments assign_where : simpl never.
#[local] Arguments in_range : simpl never.

Lemma keeps_load_refl (s : state) : keeps_load s s.
Proof. by unfold keeps_load. Qed.

(** The click on a checked render button at the start of [LoadFiles]. *)
Lemma es_click_keeps (s : state) :
  exists s1,
    (if checked (gui s RenderButton) then RenderButton_click else Eff.ret tt) s =
      (Eff.Ret tt, s1) /\
    keeps_load s s1.
Proof.
  destruct (checked (gui s RenderButton)) eqn:Hc;
    [|exists s; split; [reflexivity|apply keeps_load_refl]].
  unfold RenderButton_click, onRendering, isChecked, setChecked, update, in_host,
    Host.SetVisibility, Host.get_node, Host.set_node.
  unfold Eff.bind, Eff.gets, Eff.modify, Eff.slot, Eff.ret, Eff.orelse, Eff.raise.
  destruct (enabled (gui s RenderButton));
    [|exists s; split; [reflexivity|apply keeps_load_refl]].
  eexists. split; [reflexivity|].
  cbn [snd]. 
  assert (Hg : forall w, w <> RenderButton ->
            (<[RenderButton := with_checked (negb (checked (gui s RenderButton)))
                                 (gui s RenderButton)]> (gui s)) w = gui s w).
  { intros w Hw. by rewrite fn_lookup_insert_ne. }
  unfold keeps_load.
  cbn -[insert lookup].
  destruct (displayNode s) as [d|]; cbn -[insert lookup];
    [destruct (Host.nodes (host s) !! d) as [[]|]; cbn -[insert lookup]|];
    split_and!; try reflexivity; exact Hg.
Qed.

#[local] Instance keeps_loaded_preorder : PreOrder keeps_loaded.
Proof.
  split.
  - intros s. unfold keeps_loaded. by split_and!.
  - intros s1 s2 s3 (A1 & A2 & A3 & A4 & A5 & A6 & A7 & A8) (B1 & B2 & B3 & B4 & B5 & B6 & B7 & B8).
    unfold keeps_loaded. split_and!; try congruence. by etrans.
Qed.

Lemma es_in_host_loaded {A} (m : Eff.M Host.t A) :
  Eff.preserves Host.keeps_data m -> Eff.preserves keeps_loaded (in_host m).
Proof.
  intros Hm s. specialize (Hm (host s)). unfold Eff.exec, in_host in *.
  destruct (m (host s)) as [r h]. unfold keeps_loaded. by split_and!.
Qed.

Lemma es_update_loaded (w : widget) (f : props -> props) :
  w <> ThresholdCheck -> w <> minBox -> w <> maxBox -> w <> ApplyButton ->
  Eff.preserves keeps_loaded (update w f).
Proof.
  intros H1 H2 H3 H4 s. unfold Eff.exec, update, keeps_loaded. simpl.
  rewrite !fn_lookup_insert_ne by done. by split_and!.
Qed.

Ltac es_loaded_step :=
  lazymatch goal with
  | |- Eff.preserves _ (in_host _) =>
      apply es_in_host_loaded;
      first [ apply CreateDefaultVolumeRenderingNodes_data | apply GetVolumePropertyNode_data
            | apply SetVisibility_data | apply log_data | apply add_node_data ]
  | |- Eff.preserves _ (update _ _) => apply es_update_loaded; discriminate
  | |- Eff.preserves _ (Eff.modify _) =>
      apply preserves_modify; intros ?; unfold keeps_loaded; by split_and!
  | |- Eff.preserves _ (if _ then _ else _) => apply preserves_if
  | |- Eff.preserves _ _ => preserves_step
  end.

Lemma es_run_volume_rendering_loaded (volume : nat) :
  Eff.preserves keeps_loaded (run_volume_rendering presets volume).
Proof.
  unfold run_volume_rendering, call, isChecked, setChecked, setEnabled, setCollapsed,
    Host.AddPreset.
  repeat es_loaded_step.
Qed.

(** [LoadFiles] when the pair has a segmentation file. *)
Lemma es_load_segmentation_file (s : state) (pair : string * string) (image_name : string)
  (volume : nat) (segments : list Host.segment) :
  pair.2 <> "" -> Host.files (host s) !! pair.2 = Some (Host.Segmentation segments) ->
  exists s1,
    load_segmentation float format cast pair image_name volume s = (Eff.Ret tt, s1) /\
    currentVolumeNode s1 = currentVolumeNode s /\
    currentSegNode s1 = Some (length (Host.nodes (host s))) /\
    editor_segmentationNode s1 = Some (length (Host.nodes (host s))) /\
    Host.nodes (host s1) =
      Host.nodes (host s) ++ [Host.SegmentationNode (Py.basename pair.2) None segments] /\
    enabled (gui s1 ThresholdCheck) = false /\ enabled (gui s1 minBox) = false /\
    enabled (gui s1 maxBox) = false /\ enabled (gui s1 ApplyButton) = false.
Proof.
  intros Hp Hfile. eexists. split.
  - unfold load_segmentation, setDisabled, update, in_host, Host.loadSegmentation,
      Host.add_node.
    run_with ltac:(rewrite ?(bool_decide_eq_true_2 _ Hp), ?Hfile).
    reflexivity.
  - cbn -[insert]. split_and!; reflexivity.
Qed.

Lemma lookup_one {A} (x : A) : [x] !! 0%nat = Some x.
Proof. done. Qed.

Ltac es_unfold_load :=
  unfold load_segmentation, apply_threshold, onThresholdCheck, isChecked, toPlainText,
    setDisabled, setText, update, call, in_host,
    Host.GetSegmentIdBySegmentName, Host.AddEmptySegment,
    Host.arrayFromSegmentBinaryLabelmap, Host.updateSegmentBinaryLabelmapFromArray,
    Host.SetReferenceImageGeometryParameterFromVolumeNode, Host.SetName,
    Host.arrayFromVolume, Host.segments_of, Host.set_segments, Host.get_node,
    Host.set_node, Host.add_node.

(** [LoadFiles] when the pair has no segmentation file. *)
Lemma es_load_segmentation_new (s : state) (pair : string * string) (image_name : string)
  (volume : nat) (vname : string) (voxels : list Q) (m lo hi : Q) :
  pair.2 = "" -> Host.nodes (host s) !! volume = Some (Host.VolumeNode vname voxels) ->
  array_max voxels = Some m ->
  (checked (gui s ThresholdCheck) = true -> float (text (gui s minBox)) = Some lo) ->
  (checked (gui s ThresholdCheck) = true -> float (format m) = Some hi) ->
  exists s1,
    load_segmentation float format cast pair image_name volume s = (Eff.Ret tt, s1) /\
    currentVolumeNode s1 = currentVolumeNode s /\
    currentSegNode s1 = Some (length (Host.nodes (host s))) /\
    editor_segmentationNode s1 = Some (length (Host.nodes (host s))) /\
    Host.nodes (host s1) !! volume = Some (Host.VolumeNode vname voxels) /\
    Host.nodes (host s1) !! length (Host.nodes (host s)) =
      Some (Host.SegmentationNode image_name (Some volume)
              (if checked (gui s ThresholdCheck)
               then [{| Host.segmentName := "Segment_1";
                        Host.labelmap :=
                          assign_where (in_range cast lo hi voxels) 1
                            (replicate (length voxels) 0) |}]
               else [])) /\
    text (gui s1 maxBox) = format m /\ enabled (gui s1 ThresholdCheck) = true.
Proof.
  intros Hp' Hnv Hmax Hlo Hhi.
  assert (Hp : bool_decide (pair.2 ≠ "") = false) by (by apply bool_decide_eq_false_2; intros []).
  assert (Hlt : (volume < length (Host.nodes (host s)))%nat) by (by eapply lookup_lt_Some).
  destruct (checked (gui s ThresholdCheck)) eqn:Hc.
  - specialize (Hlo eq_refl). specialize (Hhi eq_refl).
    eexists. split.
    + es_unfold_load.
      run_with ltac:(rewrite ?Hp, ?Hnv, ?Hmax, ?Hc, ?fn_lookup_insert, ?Hlo, ?Hhi,
                       ?lookup_one, ?fn_lookup_insert_ne by done).
      reflexivity.
    + cbn -[insert lookup]. rewrite ?fn_lookup_insert, ?fn_lookup_insert_ne by done.
      node_lookup. rewrite ?length_resize. split_and!; try reflexivity; done.
  - eexists. split.
    + es_unfold_load.
      run_with ltac:(rewrite ?Hp, ?Hnv, ?Hmax, ?Hc, ?fn_lookup_insert,
                       ?fn_lookup_insert_ne by done).
      reflexivity.
    + cbn -[insert lookup]. rewrite ?fn_lookup_insert, ?fn_lookup_insert_ne by done.
      node_lookup. split_and!; try reflexivity; done.
Qed.

End EasySegmentationLoad.

Section EasySegmentationLoadClaim.
Import EasySegmentation.

Variable float : string -> option Q.
Variable format : Q -> string.
Variable presets : list string.
Variable cast : Q -> Q.

#[local] Arguments find_basename_wo_extension : simpl never.
#[local] Arguments run_volume_rendering : simpl never.
#[local] Arguments load_segmentation : simpl never.

(** [LoadFiles] up to the loading of the volume. *)
Lemma es_LoadFiles_run (s : state) (l : list (string * string)) (pair : string * string)
  (voxels : list Q) :
  imageDirectory s <> "" -> total_files s <> 0 ->
  fileset s = Some l -> Py.index l (current_file s) = Some pair ->
  Host.files (host s) !! pair.1 = Some (Host.Volume voxels) ->
  exists s4 volume,
    LoadFiles float format presets cast s =
      (load_segmentation float format cast pair (find_basename_wo_extension pair.1) volume ;;;
       run_volume_rendering presets volume) s4 /\
    currentVolumeNode s4 = Some volume /\
    Host.nodes (host s4) !! volume =
      Some (Host.VolumeNode (find_basename_wo_extension pair.1) voxels) /\
    Host.files (host s4) = Host.files (host s) /\
    (forall w, w <> RenderButton -> gui s4 w = gui s w).
Proof.
  intros Hd Ht Hf Hi Hv.
  set (s2 := set_changeProperty false (set_needAddProperty true s)).
  destruct (es_click_keeps s2) as (s3 & Hclick & Hd3 & _ & Ht3 & Hc3 & Hf3 & Hv3 & Hg3).
  simpl in Hd3, Ht3, Hc3, Hf3, Hv3, Hg3.
  assert (Hd' : bool_decide (imageDirectory s3 = "") = false)
    by (rewrite Hd3; by apply bool_decide_eq_false_2).
  assert (Ht' : bool_decide (total_files s3 = 0) = false)
    by (rewrite Ht3; by apply bool_decide_eq_false_2).
  rewrite <-Hc3, <-Hf3 in *. rewrite <-Hv3 in Hv.
  eexists _, _. split.
  - unfold LoadFiles.
    unfold Eff.bind at 1. cbn [Eff.modify]. unfold Eff.bind at 1. cbn [Eff.modify].
    unfold Eff.bind at 1, isChecked at 1. cbn [Eff.gets]. fold s2.
    unfold Eff.bind at 1. rewrite Hclick.
    unfold fileset_at, attr, in_host, Host.loadVolume, Host.SetName, Host.add_node,
      Host.get_node, Host.set_node.
    run_with ltac:(rewrite ?Hd', ?Ht', ?Hf, ?Hi, ?Hv).
    reflexivity.
  - cbn -[insert lookup]. node_lookup. split_and!; try done.
Qed.

Lemma index_zero {A} (x : A) (l : list A) : Py.index (x :: l) 0 = Some x.
Proof. done. Qed.

(** The volume rendering at the end of [LoadFiles] returns when there is a
    preset. *)
Lemma es_run_volume_rendering_returns (s : state) (volume : nat) :
  presets <> [] -> Eff.returns (run_volume_rendering presets volume) s.
Proof.
  intros Hpre. unfold Eff.returns, run_volume_rendering.
  unfold setCollapsed, setEnabled, setChecked, isChecked, update, call, in_host,
    Host.CreateDefaultVolumeRenderingNodes, Host.GetVolumePropertyNode, Host.SetVisibility,
    Host.get_node, Host.set_node, Host.add_node.
  run_with idtac.
  match goal with |- context [Eff.for_each presets ?b ?s0] =>
    set (body := b); set (s1 := s0) end.
  set (d := length (Host.nodes (host s) ++ [Host.VolumePropertyNode None])).
  set (p := length (Host.nodes (host s))).
  pose (I := fun (k : nat) (x : state) =>
    Host.nodes (host x) !! d = Some (Host.VolumeRenderingDisplayNode volume true p) /\
    length (preset_nodes x) = k).
  destruct (for_each_invariant I presets body) with (s := s1) as [Hr [Hd Hlen]].
  - intros k name x _ [Hx Hk]. subst body. unfold I, Host.AddPreset, Host.add_node.
    run_with idtac. split; [done|]. split.
    + rewrite lookup_app_l; [done|]. by eapply lookup_lt_Some.
    + rewrite length_app. simpl. lia.
  - subst I s1 d p. cbn -[insert lookup]. split; [|done]. node_lookup. done.
  - destruct (Eff.for_each presets body s1) as [r s2]. simpl in Hr, Hd, Hlen. subst r.
    destruct (preset_nodes s2) as [|n rest] eqn:Hn.
    { destruct presets; [done|]. simpl in Hlen. lia. }
    run_with ltac:(rewrite ?Hn, ?index_zero, ?Hd).
    destruct (checked (gui s2 RenderCheck)); run_with ltac:(rewrite ?Hd); done.
Qed.

(** [LoadFiles] from the loaded volume to the segmentation. *)
Lemma es_load_segmentation_stage (s s4 : state) (pair : string * string) (voxels : list Q)
  (volume : nat) :
  currentVolumeNode s4 = Some volume ->
  Host.nodes (host s4) !! volume =
    Some (Host.VolumeNode (find_basename_wo_extension pair.1) voxels) ->
  Host.files (host s4) = Host.files (host s) ->
  (forall w, w <> RenderButton -> gui s4 w = gui s w) ->
  (pair.2 <> "" -> exists segments,
     Host.files (host s) !! pair.2 = Some (Host.Segmentation segments)) ->
  (pair.2 = "" -> voxels <> []) ->
  (pair.2 = "" -> checked (gui s ThresholdCheck) = true ->
   forall m, array_max voxels = Some m ->
     is_Some (float (text (gui s minBox))) /\ is_Some (float (format m))) ->
  exists s5,
    load_segmentation float format cast pair (find_basename_wo_extension pair.1) volume s4 =
      (Eff.Ret tt, s5) /\
    exists seg,
      currentVolumeNode s5 = Some volume /\ currentSegNode s5 = Some seg /\
      editor_segmentationNode s5 = Some seg /\
      Host.nodes (host s5) !! volume =
        Some (Host.VolumeNode (find_basename_wo_extension pair.1) voxels) /\
      (pair.2 <> "" ->
       exists segments,
         Host.files (host s) !! pair.2 = Some (Host.Segmentation segments) /\
         Host.nodes (host s5) !! seg =
           Some (Host.SegmentationNode (Py.basename pair.2) None segments) /\
         enabled (gui s5 ThresholdCheck) = false /\ enabled (gui s5 minBox) = false /\
         enabled (gui s5 maxBox) = false /\ enabled (gui s5 ApplyButton) = false) /\
      (pair.2 = "" ->
       exists segments m,
         Host.nodes (host s5) !! seg =
           Some (Host.SegmentationNode (find_basename_wo_extension pair.1) (Some volume)
                   segments) /\
         (checked (gui s ThresholdCheck) = false -> segments = []) /\
         (checked (gui s ThresholdCheck) = true ->
          exists lo hi,
            float (text (gui s minBox)) = Some lo /\ float (format m) = Some hi /\
            segments = [{| Host.segmentName := "Segment_1";
                           Host.labelmap := assign_where (in_range cast lo hi voxels) 1
                                              (replicate (length voxels) 0) |}]) /\
         array_max voxels = Some m /\ m ∈ voxels /\ (forall v, v ∈ voxels -> (v <= m)%Q) /\
         text (gui s5 maxBox) = format m /\ enabled (gui s5 ThresholdCheck) = true).
Proof.
  intros Hcv Hnv Hfiles Hg Hsegfile Hne Hfloat.
  destruct (decide (pair.2 = "")) as [Hp|Hp].
    - pose proof (array_max_spec voxels) as Hmax.
      destruct (array_max voxels) as [m|] eqn:Em; [|by apply Hne in Hmax].
      destruct Hmax as [Hin Hle].
      assert (Hlohi : exists lo hi,
        (checked (gui s4 ThresholdCheck) = true -> float (text (gui s4 minBox)) = Some lo) /\
        (checked (gui s4 ThresholdCheck) = true -> float (format m) = Some hi)).
      { rewrite !Hg by done. destruct (checked (gui s ThresholdCheck)) eqn:Hc.
        - destruct (Hfloat Hp eq_refl m eq_refl) as [[lo Hlo] [hi Hhi]]. by exists lo, hi.
        - by exists 0%Q, 0%Q. }
      destruct Hlohi as (lo & hi & Hlo & Hhi).
      destruct (es_load_segmentation_new float format cast s4 pair
                  (find_basename_wo_extension pair.1) volume _ voxels m lo hi Hp Hnv Em Hlo Hhi)
        as (s5 & Hls & H1 & H2 & H3 & H4 & H5 & H6 & H7).
      exists s5. split; [done|]. exists (length (Host.nodes (host s4))).
      split; [congruence|]. split; [done|]. split; [done|]. split; [done|].
      split; [done|]. intros _. eexists _, m. split; [exact H5|].
      rewrite !Hg in * by done.
      split; [by intros ->|]. split; [|done].
      intros Hc. exists lo, hi. rewrite Hc. split; [by apply Hlo|]. split; [by apply Hhi|done].
    - destruct (Hsegfile Hp) as [segments Hseg].
      destruct (es_load_segmentation_file float format cast s4 pair
                  (find_basename_wo_extension pair.1) volume segments Hp)
        as (s5 & Hls & H1 & H2 & H3 & H4 & H5 & H6 & H7 & H8); [by rewrite Hfiles|].
      exists s5. split; [done|]. exists (length (Host.nodes (host s4))).
      split; [congruence|]. split; [done|]. split; [done|].
      split.
      { rewrite H4, lookup_app_l; [done|]. by eapply lookup_lt_Some. }
      split; [|done]. intros _. exists segments. rewrite H4, lookup_snoc. done.
Qed.

Lemma exec_eq {S A B} (m : Eff.M S A) (m' : Eff.M S B) (s s' : S) :
  (m s).2 = (m' s').2 -> Eff.exec m s = Eff.exec m' s'.
Proof. done. Qed.

Lemma returns_eq {S A} (m m' : Eff.M S A) (s s' : S) :
  m s = m' s' -> Eff.returns m' s' -> Eff.returns m s.
Proof. unfold Eff.returns. by intros ->. Qed.

(** Claim C4.  [EasySegmentationWidget.LoadFiles] with an image folder,
    files and a current pair whose image file holds a volume: the volume is
    loaded, becomes the current volume node and is named by the basename of
    the image file without extension ([without_extension]: what is in
    front of the first [.nrrd], or without [.nrrd] in front of the first
    [.nii], or all of it).  If the pair has a segmentation file it is
    loaded, is the current segmentation and the one of the editor, and the
    threshold check box, the two boxes and the apply button are disabled.
    If it has none, a new segmentation node named as the volume, with the
    volume as reference geometry, is the current one and the one of the
    editor; it is empty unless the threshold box is checked, in which case
    it holds one segment ['Segment_1'] whose labelmap is [1] where the voxel
    is between the number of the min box and the maximum of the volume as
    the max box shows it (compared after the conversion [cast]) and [0]
    elsewhere; the max box shows the maximum voxel of the volume and the
    threshold check box is enabled.  [LoadFiles] returns when there is a
    preset. *)
Theorem LoadFiles_pair (s : state) (l : list (string * string)) (pair : string * string)
  (voxels : list Q) :
  imageDirectory s <> "" -> 0 < total_files s ->
  fileset s = Some l -> Py.index l (current_file s) = Some pair ->
  Host.files (host s) !! pair.1 = Some (Host.Volume voxels) ->
  (pair.2 <> "" -> exists segments,
     Host.files (host s) !! pair.2 = Some (Host.Segmentation segments)) ->
  (pair.2 = "" -> voxels <> []) ->
  (pair.2 = "" -> checked (gui s ThresholdCheck) = true ->
   forall m, array_max voxels = Some m ->
     is_Some (float (text (gui s minBox))) /\ is_Some (float (format m))) ->
  (presets <> [] -> Eff.returns (LoadFiles float format presets cast) s) /\
  exists volume seg name,
    without_extension (Py.basename pair.1) name /\
    currentVolumeNode (Eff.exec (LoadFiles float format presets cast) s) = Some volume /\
    currentSegNode (Eff.exec (LoadFiles float format presets cast) s) = Some seg /\
    editor_segmentationNode (Eff.exec (LoadFiles float format presets cast) s) = Some seg /\
    Host.nodes (host (Eff.exec (LoadFiles float format presets cast) s)) !! volume =
      Some (Host.VolumeNode name voxels) /\
    (pair.2 <> "" ->
     exists segments,
       Host.files (host s) !! pair.2 = Some (Host.Segmentation segments) /\
       Host.nodes (host (Eff.exec (LoadFiles float format presets cast) s)) !! seg =
         Some (Host.SegmentationNode (Py.basename pair.2) None segments) /\
       enabled (gui (Eff.exec (LoadFiles float format presets cast) s) ThresholdCheck) = false /\
       enabled (gui (Eff.exec (LoadFiles float format presets cast) s) minBox) = false /\
       enabled (gui (Eff.exec (LoadFiles float format presets cast) s) maxBox) = false /\
       enabled (gui (Eff.exec (LoadFiles float format presets cast) s) ApplyButton) = false) /\
    (pair.2 = "" ->
     exists segments m,
       Host.nodes (host (Eff.exec (LoadFiles float format presets cast) s)) !! seg =
         Some (Host.SegmentationNode name (Some volume) segments) /\
       (checked (gui s ThresholdCheck) = false -> segments = []) /\
       (checked (gui s ThresholdCheck) = true ->
        exists lo hi mask,
          float (text (gui s minBox)) = Some lo /\ float (format m) = Some hi /\
          segments = [{| Host.segmentName := "Segment_1"; Host.labelmap := mask |}] /\
          length mask = length voxels /\
          forall i v, voxels !! i = Some v ->
            ((cast lo <= cast v)%Q /\ (cast v <= cast hi)%Q -> mask !! i = Some 1) /\
            (~ ((cast lo <= cast v)%Q /\ (cast v <= cast hi)%Q) -> mask !! i = Some 0)) /\
       array_max voxels = Some m /\ m ∈ voxels /\ (forall v, v ∈ voxels -> (v <= m)%Q) /\
       text (gui (Eff.exec (LoadFiles float format presets cast) s) maxBox) = format m /\
       enabled (gui (Eff.exec (LoadFiles float format presets cast) s) ThresholdCheck) = true).
Proof.
  intros Hd Ht Hf Hi Hv Hsegfile Hne Hfloat.
  assert (Ht' : total_files s <> 0) by lia.
  destruct (es_LoadFiles_run s l pair voxels Hd Ht' Hf Hi Hv)
    as (s4 & volume & Hrun & Hcv & Hnv & Hfiles & Hg).
  destruct (es_load_segmentation_stage s s4 pair voxels volume Hcv Hnv Hfiles Hg Hsegfile
              Hne Hfloat) as (s5 & Hls & seg & Hcv5 & Hcs5 & Hed5 & Hnv5 & Hfile5 & Hnew5).
  assert (Hload : LoadFiles float format presets cast s = run_volume_rendering presets volume s5).
  { rewrite Hrun. unfold Eff.bind. by rewrite Hls. }
  split.
  { intros Hpre. apply (returns_eq _ _ _ _ Hload).
    by apply es_run_volume_rendering_returns. }
  rewrite (exec_eq _ _ _ _ (f_equal snd Hload)).
  destruct (es_run_volume_rendering_loaded presets volume s5)
    as (K1 & K2 & K3 & K4 & K5 & K6 & K7 & K8).
  exists volume, seg, (find_basename_wo_extension pair.1).
  rewrite K1, K2, K3, K4, K5, K6, K7.
  split; [by apply without_extension_cut|].
  split; [done|]. split; [done|]. split; [done|].
  split; [by apply K8|].
  split.
  - intros Hp. destruct (Hfile5 Hp) as (segments & Hs1 & Hs2 & Hs3).
    exists segments. split; [done|]. split; [by apply K8|done].
  - intros Hp. destruct (Hnew5 Hp) as (segments & m & Hs1 & Hs2 & Hs3 & Hs4).
    exists segments, m. split; [by apply K8|]. split; [done|]. split; [|done].
    intros Hc. destruct (Hs3 Hc) as (lo & hi & Hlo & Hhi & ->).
    eexists lo, hi, _. split; [done|]. split; [done|]. split; [reflexivity|].
    split; [apply threshold_mask_length|]. intros i v. apply threshold_mask_lookup.
Qed.

End EasySegmentationLoadClaim.

Section EasySegmentationWitnesses.
Import EasySegmentation.


Lemma onApply_threshold_witness :
  Eff.returns (onApply es_example_float es_example_cast) es_example_state /\
  exists segments' k mask,
    Host.nodes (host (Eff.exec (onApply es_example_float es_example_cast) es_example_state)) !! 1%nat =
      Some (Host.SegmentationNode "a.nii.seg" (Some 0%nat) segments') /\
    Host.segment_index "Segment_1" segments' = Some k /\
    segments' !! k = Some {| Host.segmentName := "Segment_1"; Host.labelmap := mask |} /\
    length mask = length [5 # 1]%Q.
Proof.
  destruct (onApply_threshold es_example_float es_example_cast es_example_state 1%nat 0%nat
              "a.nii.seg" "a.nii.seg" (Some 0%nat) [] [5 # 1]%Q (Numpy.float64 (1 # 10))
              (5 # 1)%Q)
    as (Hr & segments' & k & mask & H1 & H2 & H3 & _ & _ & H4 & _).
  - vm_compute. reflexivity.
  - vm_compute. reflexivity.
  - vm_compute. reflexivity.
  - vm_compute. reflexivity.
  - vm_compute. reflexivity.
  - vm_compute. reflexivity.
  - split; [exact Hr|]. exists segments', k, mask.
    split; [exact H1|]. split; [exact H2|]. split; [exact H3|exact H4].
Defined.

(** C2, the counterexample: the voxel, a [float32], is strictly less than
    the number of the min box, and yet it is in the segment, since numpy
    compares the voxel with the bound rounded to [float32]. *)
Lemma onApply_rounding_counterexample :
  currentVolumeNode es_float32_state = Some 0%nat /\
  currentSegNode es_float32_state = Some 1%nat /\
  Host.nodes (host es_float32_state) !! 0%nat =
    Some (Host.VolumeNode "v" [Numpy.float32 (1 # 10)]) /\
  text (gui es_float32_state minBox) = "0.1000000016" /\
  es_example_float "0.1000000016" = Some (Numpy.float64 (1000000016 # 10000000000)) /\
  es_example_float (text (gui es_float32_state maxBox)) = Some (5 # 1)%Q /\
  (Numpy.float32 (1 # 10) < Numpy.float64 (1000000016 # 10000000000))%Q /\
  (Numpy.float32 (1 # 10) <= 5 # 1)%Q /\
  Eff.returns (onApply es_example_float es_example_cast) es_float32_state /\
  Host.nodes (host (Eff.exec (onApply es_example_float es_example_cast) es_float32_state))
    !! 1%nat =
    Some (Host.SegmentationNode "v" (Some 0%nat)
            [{| Host.segmentName := "Segment_1"; Host.labelmap := [1] |}]).
Proof. vm_compute. repeat split; congruence. Qed.

Lemma onRun_files_witness :
  Eff.returns (onRun es_example_float es_example_format es_example_presets es_example_cast)
    es_example_chosen /\
  exists l nrrd nii nii_gz,
    fileset (Eff.exec (onRun es_example_float es_example_format es_example_presets
                         es_example_cast) es_example_chosen) = Some l /\
    Host.sorted_listing (host es_example_chosen) (imageDirectory es_example_chosen)
      "*.nrrd" nrrd /\
    Host.sorted_listing (host es_example_chosen) (imageDirectory es_example_chosen)
      "*.nii" nii /\
    Host.sorted_listing (host es_example_chosen) (imageDirectory es_example_chosen)
      "*.nii.gz" nii_gz /\
    l.*1 = nrrd ++ nii ++ nii_gz /\
    total_files (Eff.exec (onRun es_example_float es_example_format es_example_presets
                             es_example_cast) es_example_chosen) =
      Z.of_nat (length (nrrd ++ nii ++ nii_gz)) /\
    current_file (Eff.exec (onRun es_example_float es_example_format es_example_presets
                              es_example_cast) es_example_chosen) = 0.
Proof.
  apply (onRun_files es_example_float es_example_format es_example_presets es_example_cast
           es_example_chosen).
  vm_compute. reflexivity.
Defined.

Lemma LoadFiles_pair_witness :
  Eff.returns (LoadFiles es_example_float es_example_format es_example_presets es_example_cast)
    es_example_state /\
  exists volume seg name,
    without_extension (Py.basename "/d/a.nii.seg.nrrd") name /\
    currentVolumeNode
      (Eff.exec (LoadFiles es_example_float es_example_format es_example_presets es_example_cast)
         es_example_state) = Some volume /\
    currentSegNode
      (Eff.exec (LoadFiles es_example_float es_example_format es_example_presets es_example_cast)
         es_example_state) = Some seg /\
    Host.nodes
      (host (Eff.exec (LoadFiles es_example_float es_example_format es_example_presets es_example_cast)
               es_example_state)) !! volume =
      Some (Host.VolumeNode name [5 # 1]%Q).
Proof.
  destruct (LoadFiles_pair es_example_float es_example_format es_example_presets es_example_cast
              es_example_state
              [("/d/a.nii.seg.nrrd", ""); ("/d/b-1.nii.gz", "/s/b_1_seg.nrrd")]
              ("/d/a.nii.seg.nrrd", "") [5 # 1]%Q)
    as (Hr & volume & seg & name & H0 & H1 & H2 & _ & H4 & _).
  - vm_compute. discriminate.
  - vm_compute. reflexivity.
  - vm_compute. reflexivity.
  - vm_compute. reflexivity.
  - vm_compute. reflexivity.
  - intros H. exfalso. apply H. reflexivity.
  - intros _. discriminate.
  - intros _ H. vm_compute in H. discriminate H.
  - split; [apply Hr; discriminate|]. exists volume, seg, name.
    split; [exact H0|]. split; [exact H1|]. split; [exact H2|exact H4].
Defined.

Lemma onSave_segmentation_witness :
  Eff.returns onSave es_example_state /\
  Host.files (host (Eff.exec onSave es_example_state))
    !! Py.join (Py.join (saveDirectory es_example_state) "segmentation")
         (find_basename_wo_extension
            (if bool_decide (("/d/a.nii.seg.nrrd", "").2 ≠ "")
             then Py.basename ("/d/a.nii.seg.nrrd", "").2 else "a.nii.seg") +:+
          (if checked (gui es_example_state suffixButton)
           then text (gui es_example_state suffixBox) else "") +:+ ".nii.gz") =
    Some (Host.Labelmap (Host.merged_labelmap [])).
Proof.
  destruct (onSave_segmentation es_example_state
              [("/d/a.nii.seg.nrrd", ""); ("/d/b-1.nii.gz", "/s/b_1_seg.nrrd")]
              ("/d/a.nii.seg.nrrd", "") 1%nat "a.nii.seg" (Some 0%nat) [])
    as (Hr & Hfile & _).
  - vm_compute. discriminate.
  - vm_compute. reflexivity.
  - vm_compute. reflexivity.
  - vm_compute. reflexivity.
  - vm_compute. reflexivity.
  - vm_compute. reflexivity.
  - vm_compute. reflexivity.
  - intros H. vm_compute in H. discriminate H.
  - split; [exact Hr|exact Hfile].
Defined.

(** C5, the counterexample: the pair has no segmentation file and the
    segmentation node is called [a.nii.seg], yet the file written is not
    named after the node. *)
Lemma onSave_node_name_counterexample :
  saveDirectory es_example_state = "/out" /\
  total_files es_example_state = 2 /\
  checked (gui es_example_state SegCheck) = true /\
  checked (gui es_example_state suffixButton) = true /\
  text (gui es_example_state suffixBox) = "_seg" /\
  fileset_at (current_file es_example_state) es_example_state =
    (Eff.Ret ("/d/a.nii.seg.nrrd", ""), es_example_state) /\
  (seg <- attr currentSegNode ;; in_host (Host.GetName seg)) es_example_state =
    (Eff.Ret "a.nii.seg", es_example_state) /\
  Eff.returns onSave es_example_state /\
  Host.files (host (Eff.exec onSave es_example_state))
    !! "/out/segmentation/a.nii.seg_seg.nii.gz" = None /\
  Host.files (host (Eff.exec onSave es_example_state))
    !! "/out/segmentation/a_seg.nii.gz" = Some (Host.Labelmap []).
Proof. vm_compute. repeat split. Qed.

Lemma es_example_reachable :
  reachable es_example_float es_example_format es_example_presets es_example_cast es_example_state.
Proof.
  apply (reachable_step _ _ _ _ es_example_chosen); [|apply step_onRun].
  apply (reachable_step _ _ _ _ (init 5 6 es_example_host)); [apply reachable_init|].
  apply step_other. vm_compute. reflexivity.
Qed.

Lemma iv_example_reachable : ImplantVideo.reachable iv_example_state.
Proof.
  apply (ImplantVideo.reachable_step iv_example_chosen); [|apply ImplantVideo.step_onRun].
  apply (ImplantVideo.reachable_step (ImplantVideo.init iv_example_host));
    [apply ImplantVideo.reachable_init|].
  apply ImplantVideo.step_other. vm_compute. reflexivity.
Qed.

Lemma navigation_invariant_witness :
  (Eff.returns ImplantVideo.onPre iv_example_state /\
   ImplantVideo.current_file (Eff.exec ImplantVideo.onNext iv_example_state) =
     ImplantVideo.current_file iv_example_state + 1) /\
  (Eff.returns (onPre es_example_float es_example_format es_example_presets es_example_cast)
     es_example_state /\
   current_file (Eff.exec (onNext es_example_float es_example_format es_example_presets es_example_cast)
                   es_example_state) =
     current_file es_example_state + 1).
Proof.
  split.
  - destruct (proj1 navigation_invariant iv_example_state iv_example_reachable)
      as ((Hr & _) & (_ & _ & _ & _ & Hn)).
    + vm_compute. reflexivity.
    + vm_compute. split; [discriminate|reflexivity].
    + split; [exact Hr|]. apply Hn. vm_compute. discriminate.
  - destruct (proj2 navigation_invariant es_example_float es_example_format
                es_example_presets es_example_cast es_example_state es_example_reachable)
      as ((Hr & _) & (_ & _ & _ & _ & Hn)).
    + vm_compute. reflexivity.
    + vm_compute. split; [discriminate|reflexivity].
    + split; [exact Hr|]. apply Hn. vm_compute. discriminate.
Defined.

End EasySegmentationWitnesses.

(* ===================================================================== *)
(** * ImplantVideo: guards, listing and resetting *)
(* ===================================================================== *)

Lemma exec_run {S A} (m : Eff.M S A) (s s' : S) (r : Eff.outcome A) :
  m s = (r, s') -> Eff.exec m s = s'.
Proof. unfold Eff.exec. by intros ->. Qed.

Section ImplantVideoMore.
Import ImplantVideo.

(** Property X1.  [ImplantVideoWidget.onCreateVideo] without a destination
    folder, without a list of files, or with a current file outside the
    list: no file, directory, node or scene entry of the host changes.
    Without a destination folder it returns after the warning ['Please
    choose destination folder']; with one it raises before anything is
    captured and leaves the widget as it was. *)
Theorem onCreateVideo_guards (s : state) :
  saveDirectory s = "" \/ fileset s = None \/
  (exists l, fileset s = Some l /\ Py.index l (current_file s) = None) ->
  Host.files (host (Eff.exec onCreateVideo s)) = Host.files (host s) /\
  Host.dirs (host (Eff.exec onCreateVideo s)) = Host.dirs (host s) /\
  Host.nodes (host (Eff.exec onCreateVideo s)) = Host.nodes (host s) /\
  Host.scene (host (Eff.exec onCreateVideo s)) = Host.scene (host s) /\
  (saveDirectory s = "" ->
     Eff.returns onCreateVideo s /\
     Host.trace (host (Eff.exec onCreateVideo s)) =
       Host.trace (host s) ++ [Host.Warning "Please choose destination folder"]) /\
  (saveDirectory s <> "" ->
     ~ Eff.returns onCreateVideo s /\ Eff.exec onCreateVideo s = s).
Proof.
  intros H. unfold Eff.returns, Eff.exec, onCreateVideo, fileset_at, get_fileset, warningDisplay,
    in_host.
  unfold Eff.bind, Eff.gets, Eff.modify, Eff.orelse, Eff.ret, Eff.raise.
  destruct (decide (saveDirectory s = "")) as [Hd|Hd].
  - rewrite !bool_decide_eq_true_2 by done. simpl. by split_and!.
  - rewrite !bool_decide_eq_false_2 by done.
    destruct H as [H|[H|(l & H & Hi)]]; [done| |].
    + rewrite H. simpl. split_and!; try done. intros _. split; [by intros []|done].
    + rewrite H. simpl. rewrite Hi. simpl. split_and!; try done.
      intros _. split; [by intros []|done].
Qed.

(** Property X2.  [ImplantVideoWidget.LoadFiles] without an image folder or
    without files returns, and all it does is to display a warning:
    ['Please choose image folder'] when the folder is missing (also when
    there are no files either), the message that names the image and the
    segmentation folder otherwise. *)
Theorem LoadFiles_guards (s : state) :
  imageDirectory s = "" \/ total_files s = 0 ->
  Eff.returns LoadFiles s /\
  Eff.exec LoadFiles s =
    set_host
      (Host.log
         (Host.Warning
            (if bool_decide (imageDirectory s = "") then "Please choose image folder"
             else no_file_message (imageDirectory s) (segDirectory s)))
         (host s)) s.
Proof.
  intros H. unfold Eff.returns, Eff.exec, LoadFiles, warningDisplay, in_host.
  unfold Eff.bind, Eff.gets, Eff.modify.
  destruct (bool_decide (imageDirectory s = "")) eqn:Hd; [done|].
  destruct H as [H|H]; [by rewrite bool_decide_eq_true_2 in Hd|].
  by rewrite (bool_decide_eq_true_2 _ H).
Qed.

(** [InsertFileCombo] appends the names of the files, in their order. *)
Lemma iv_InsertFileCombo_items (s : state) (l : list string) :
  fileset s = Some l -> total_files s = Z.of_nat (length l) -> current_file s = 0 ->
  Qt.items (FileComboBox (Eff.exec InsertFileCombo s)) =
  Qt.items (FileComboBox s) ++ (image_name_of <$> l).
Proof.
  intros Hf Ht Hc. unfold Eff.exec.
  change (InsertFileCombo s) with
    (Eff.for_each (range (total_files s))
       (fun index => path <- fileset_at index ;; addItem (image_name_of path)) s).
  pose (I := fun (k : nat) (s1 : state) =>
    total_files s1 = total_files s /\ fileset s1 = fileset s /\ current_file s1 = 0 /\
    Qt.items (FileComboBox s1) = Qt.items (FileComboBox s) ++ (image_name_of <$> take k l)).
  destruct (for_each_invariant I (range (total_files s))
              (fun index => path <- fileset_at index ;; addItem (image_name_of path)))
    with (s := s) as [Hr Hi].
  - intros k x s1 Hk (H1 & H2 & H3 & H4). apply iv_range_lookup in Hk as [-> Hk].
    destruct (l !! k) as [path|] eqn:E.
    2:{ apply lookup_ge_None in E. lia. }
    unfold Eff.bind. rewrite (iv_fileset_at_run s1 l (Z.of_nat k) path);
      [|congruence|by rewrite index_nat].
    unfold addItem.
    pose proof (iv_FileComboBox_do_spec (fun c => Qt.addItem c (image_name_of path)) s1)
      as (Hr & Ht' & Hf' & Hb' & Hc').
    unfold Eff.exec in *. split; [done|]. unfold I. rewrite Ht', Hf', Hb', Hc'.
    split_and!; [done|congruence| |].
    + destruct (Qt.addItem (FileComboBox s1) (image_name_of path)).2 as [j|] eqn:Ej; [|done].
      apply addItem_signal in Ej as ->. by case_bool_decide.
    + rewrite addItem_items, H4, (take_S_r l k path) by done.
      by rewrite fmap_app, app_assoc.
  - unfold I. split_and!; try done. simpl. by rewrite app_nil_r.
  - rewrite iv_length_range in Hi. destruct Hi as (H1 & H2 & H3 & H4).
    rewrite H4, Ht, Nat2Z.id, firstn_all. done.
Qed.

(** Property X3.  [ImplantVideoWidget.onRun] appends to the combo box, after
    the entries it had, one entry per listed file, in the order of
    [fileset]: the basename of the file cut at its first [.nii.gz].  The
    entries of an earlier run stay. *)
Theorem onRun_lists_names (s : state) :
  exists l,
    fileset (Eff.exec onRun s) = Some l /\
    Qt.items (FileComboBox (Eff.exec onRun s)) =
      Qt.items (FileComboBox s) ++ (image_name_of <$> l).
Proof.
  set (l := Py.sorted (Host.glob (host s) (Py.join (imageDirectory s) "*.nii.gz"))).
  set (s1 := set_current_file 0
               (set_total_files (Z.of_nat (length l))
                  (set_fileset (Some l) (set_host (host s) s)))).
  assert (Hrun : onRun s = InsertFileCombo s1) by reflexivity.
  destruct (iv_InsertFileCombo_spec s1 l) as (_ & _ & Hf & _); [done..|].
  exists l.
  replace (Eff.exec onRun s) with (Eff.exec InsertFileCombo s1)
    by (unfold Eff.exec; by rewrite Hrun).
  split; [by rewrite Hf|]. by rewrite (iv_InsertFileCombo_items s1 l).
Qed.

(** The slot of the combo box when there are no files: at most the scene is
    emptied. *)
Lemma iv_onFileCombo_no_files (index : Z) (s : state) :
  total_files s = 0 ->
  onFileCombo index s =
  (Eff.Ret tt,
   if bool_decide (currentVolumeNode s = None) then s
   else set_host (Host.with_scene ∅ (host s)) s).
Proof.
  intros Ht. unfold onFileCombo, RemoveCurrentScene, in_host, Host.Clear.
  unfold Eff.bind, Eff.gets, Eff.modify, Eff.ret.
  destruct (bool_decide (currentVolumeNode s = None)); simpl;
    by rewrite (bool_decide_eq_true_2 _ Ht).
Qed.

(** Property X4.  [ImplantVideoWidget.onReset] always returns; afterwards
    the two folders are empty, [fileset] is the empty list, [total_files]
    and [current_file] are [0], the combo box is empty, the folder button
    shows the empty text and the scene is empty.  Node objects, files and
    directories of the host are as before. *)
Theorem onReset_fresh (s : state) :
  Eff.returns onReset s /\
  saveDirectory (Eff.exec onReset s) = "" /\ imageDirectory (Eff.exec onReset s) = "" /\
  fileset (Eff.exec onReset s) = Some [] /\
  total_files (Eff.exec onReset s) = 0 /\ current_file (Eff.exec onReset s) = 0 /\
  FileComboBox (Eff.exec onReset s) = Qt.empty /\ DirButton (Eff.exec onReset s) = "" /\
  Host.scene (host (Eff.exec onReset s)) = ∅ /\
  Host.nodes (host (Eff.exec onReset s)) = Host.nodes (host s) /\
  Host.files (host (Eff.exec onReset s)) = Host.files (host s) /\
  Host.dirs (host (Eff.exec onReset s)) = Host.dirs (host s).
Proof.
  unfold Eff.returns, Eff.exec, onReset, clear, call, in_host, Host.Clear, FileComboBox_do,
    emit, Eff.slot.
  unfold Eff.bind, Eff.gets, Eff.modify, Eff.ret. cbn -[onFileCombo Qt.clear].
  unfold Qt.clear.
  destruct (bool_decide (Qt.currentIndex (FileComboBox s) = -1)); cbn -[onFileCombo];
    [by split_and!|].
  rewrite iv_onFileCombo_no_files by done. cbn.
  destruct (bool_decide (currentVolumeNode s = None)); cbn; by split_and!.
Qed.

(** Property X5.  [ImplantVideoWidget.onNext] when no file is listed
    ([total_files = 0]): there is no warning; [current_file] is incremented
    and so leaves the range of the files. *)
Theorem onNext_without_files (s : state) :
  total_files s = 0 -> current_file s + 1 <> 0 ->
  Eff.returns onNext s /\
  current_file (Eff.exec onNext s) = current_file s + 1 /\
  total_files (Eff.exec onNext s) = 0 /\
  Host.trace (host (Eff.exec onNext s)) = Host.trace (host s).
Proof.
  intros Ht Hc. unfold Eff.returns, Eff.exec, onNext, RemoveCurrentScene, setCurrentIndex,
    FileComboBox_do, emit, Eff.slot, in_host, Host.Clear.
  unfold Eff.bind, Eff.gets, Eff.modify, Eff.ret.
  cbn -[onFileCombo Qt.setCurrentIndex Z.add].
  rewrite Ht. rewrite bool_decide_eq_false_2 by done.
  cbn -[onFileCombo Qt.setCurrentIndex Z.add].
  destruct (Qt.setCurrentIndex (FileComboBox s) (current_file s + 1)) as [c [index|]];
    cbn -[onFileCombo Z.add]; [|done].
  rewrite iv_onFileCombo_no_files by done.
  cbn -[Z.add]. destruct (bool_decide (currentVolumeNode s = None)); done.
Qed.

(** [LoadFiles] with a folder, files and a current file that holds a
    volume: the state it ends in. *)
Lemma iv_LoadFiles_run (s : state) (l : list string) (path : string) (voxels : list Q) :
  imageDirectory s <> "" -> total_files s <> 0 ->
  fileset s = Some l -> Py.index l (current_file s) = Some path ->
  Host.files (host s) !! path = Some (Host.Volume voxels) ->
  exists h',
    LoadFiles s =
      (Eff.Ret tt, set_host h' (set_currentVolumeNode (Some (length (Host.nodes (host s)))) s)) /\
    Host.files h' = Host.files (host s) /\ Host.dirs h' = Host.dirs (host s) /\
    Host.nodes h' =
      Host.nodes (host s) ++
      [Host.VolumeNode (Py.basename path) (extract voxels);
       Host.VolumePropertyNode (Some "CT-AAA");
       Host.VolumeRenderingDisplayNode (length (Host.nodes (host s))) true
         (S (length (Host.nodes (host s))))] /\
    Host.scene h' =
      {[ (S (S (length (Host.nodes (host s))))) ]} ∪
      ({[ (S (length (Host.nodes (host s)))) ]} ∪
       ({[ (length (Host.nodes (host s))) ]} ∪ Host.scene (host s))).
Proof.
  intros Hd Ht Hf Hi Hv. eexists. split.
  - unfold LoadFiles, fileset_at, get_fileset, call, warningDisplay, in_host,
      Host.loadVolume, Host.CreateDefaultVolumeRenderingNodes, Host.GetVolumePropertyNode,
      Host.CopyPreset, Host.SetVisibility, Host.arrayFromVolume, Host.arrayFromVolumeModified,
      Host.get_node, Host.set_node, Host.add_node.
    run_with ltac:(rewrite ?Hf, ?Hi, ?Hv, ?(bool_decide_eq_false_2 _ Hd),
                     ?(bool_decide_eq_false_2 _ Ht)).
    reflexivity.
  - cbn -[insert lookup union singleton extract].
    split; [done|]. split; [done|]. split; [|by rewrite !length_app, !Nat.add_1_r].
    rewrite !length_app, !Nat.add_1_r, <-!app_assoc. cbn [app].
    rewrite !insert_app_r_alt by lia. rewrite !Nat.sub_diag.
    replace (S (S (length (Host.nodes (host s)))) - length (Host.nodes (host s)))%nat
      with 2%nat by lia.
    replace (S (length (Host.nodes (host s))) - length (Host.nodes (host s)))%nat
      with 1%nat by lia.
    reflexivity.
Qed.

(** A pick in the combo box: the scene is emptied when a volume was shown,
    and the file of that index is loaded. *)
Lemma iv_onFileCombo_run (s : state) (index : Z) (l : list string) (path : string)
  (voxels : list Q) :
  imageDirectory s <> "" -> total_files s <> 0 ->
  fileset s = Some l -> Py.index l index = Some path ->
  Host.files (host s) !! path = Some (Host.Volume voxels) ->
  Eff.returns (onFileCombo index) s /\
  current_file (Eff.exec (onFileCombo index) s) = index /\
  currentVolumeNode (Eff.exec (onFileCombo index) s) = Some (length (Host.nodes (host s))) /\
  Host.nodes (host (Eff.exec (onFileCombo index) s)) !! length (Host.nodes (host s)) =
    Some (Host.VolumeNode (Py.basename path) (extract voxels)) /\
  Host.scene (host (Eff.exec (onFileCombo index) s)) =
    {[ (S (S (length (Host.nodes (host s))))) ]} ∪
    ({[ (S (length (Host.nodes (host s)))) ]} ∪
     ({[ (length (Host.nodes (host s))) ]} ∪
      (if bool_decide (currentVolumeNode s = None) then Host.scene (host s) else ∅))).
Proof.
  intros Hd Ht Hf Hi Hv.
  set (s0 := if bool_decide (currentVolumeNode s = None) then s
             else set_host (Host.with_scene ∅ (host s)) s).
  assert (Hrun : onFileCombo index s = LoadFiles (set_current_file index s0)).
  { unfold onFileCombo, RemoveCurrentScene, in_host, Host.Clear.
    unfold Eff.bind, Eff.gets, Eff.modify, Eff.ret. subst s0.
    destruct (bool_decide (currentVolumeNode s = None)); cbn -[LoadFiles];
      by rewrite (bool_decide_eq_false_2 _ Ht). }
  destruct (iv_LoadFiles_run (set_current_file index s0) l path voxels)
    as (h' & Hload & _ & _ & Hnodes & Hscene).
  1-5: subst s0; by destruct (bool_decide (currentVolumeNode s = None)).
  assert (Hn0 : Host.nodes (host (set_current_file index s0)) = Host.nodes (host s))
    by (subst s0; by destruct (bool_decide (currentVolumeNode s = None))).
  assert (Hs0 : Host.scene (host (set_current_file index s0)) =
                if bool_decide (currentVolumeNode s = None) then Host.scene (host s) else ∅)
    by (subst s0; by destruct (bool_decide (currentVolumeNode s = None))).
  rewrite Hn0 in Hload, Hnodes, Hscene. rewrite Hs0 in Hscene.
  unfold Eff.returns, Eff.exec. rewrite Hrun, Hload. cbn [fst snd host set_host
    current_file currentVolumeNode set_currentVolumeNode set_current_file].
  rewrite Hnodes, Hscene. split; [done|]. split; [done|]. split; [done|].
  split; [|done]. by rewrite lookup_app_r, Nat.sub_diag by lia.
Qed.

(** Property X6.  [ImplantVideoWidget.onFileCombo(index)] with an image
    folder, files, and [fileset[index]] a file that holds a volume: it
    returns, [current_file] is [index], the volume is loaded in a new node
    that is the current volume node and holds the voxels of the file
    thresholded at 2000, and the scene holds the new volume, its property
    node and its display node, besides what it held only if no volume was
    current before (otherwise the scene is emptied first). *)
Theorem onFileCombo_shows_file (s : state) (index : Z) (l : list string) (path : string)
  (voxels : list Q) :
  imageDirectory s <> "" -> total_files s <> 0 ->
  fileset s = Some l -> Py.index l index = Some path ->
  Host.files (host s) !! path = Some (Host.Volume voxels) ->
  Eff.returns (onFileCombo index) s /\
  current_file (Eff.exec (onFileCombo index) s) = index /\
  currentVolumeNode (Eff.exec (onFileCombo index) s) = Some (length (Host.nodes (host s))) /\
  Host.nodes (host (Eff.exec (onFileCombo index) s)) !! length (Host.nodes (host s)) =
    Some (Host.VolumeNode (Py.basename path) (extract voxels)) /\
  Host.scene (host (Eff.exec (onFileCombo index) s)) =
    {[ (S (S (length (Host.nodes (host s))))) ]} ∪
    ({[ (S (length (Host.nodes (host s)))) ]} ∪
     ({[ (length (Host.nodes (host s))) ]} ∪
      (if bool_decide (currentVolumeNode s = None) then Host.scene (host s) else ∅))).
Proof. apply iv_onFileCombo_run. Qed.

(** Later entries of the combo box change nothing but the box. *)
Lemma iv_addItem_more (text : string) (s : state) :
  Qt.items (FileComboBox s) <> [] ->
  addItem text s =
  (Eff.Ret tt,
   set_FileComboBox {| Qt.items := Qt.items (FileComboBox s) ++ [text];
                       Qt.currentIndex := Qt.currentIndex (FileComboBox s) |} s).
Proof.
  intros Hne. unfold addItem, FileComboBox_do, Qt.addItem.
  by destruct (Qt.items (FileComboBox s)).
Qed.

Lemma iv_addItem_first (text : string) (s : state) :
  Qt.items (FileComboBox s) = [] ->
  addItem text s =
  (Eff.Ret tt,
   Eff.exec (onFileCombo 0)
     (set_FileComboBox {| Qt.items := [text]; Qt.currentIndex := 0 |} s)).
Proof.
  intros He. unfold addItem, FileComboBox_do, Qt.addItem. by rewrite He.
Qed.

(** [onRun] on an empty combo box: the first entry loads the first file,
    the other entries only fill the box. *)
Lemma iv_onRun_first (s : state) (path : string) (rest : list string) (voxels : list Q) :
  Qt.items (FileComboBox s) = [] -> imageDirectory s <> "" ->
  Py.sorted (Host.glob (host s) (Py.join (imageDirectory s) "*.nii.gz")) = path :: rest ->
  Host.files (host s) !! path = Some (Host.Volume voxels) ->
  Eff.returns onRun s /\
  current_file (Eff.exec onRun s) = 0 /\
  Qt.currentIndex (FileComboBox (Eff.exec onRun s)) = 0 /\
  currentVolumeNode (Eff.exec onRun s) = Some (length (Host.nodes (host s))) /\
  Host.nodes (host (Eff.exec onRun s)) !! length (Host.nodes (host s)) =
    Some (Host.VolumeNode (Py.basename path) (extract voxels)).
Proof.
  intros He Hd Hl Hv.
  set (l := path :: rest).
  set (s1 := set_current_file 0
               (set_total_files (Z.of_nat (length l))
                  (set_fileset (Some l) (set_host (host s) s)))).
  set (body := fun index : Z => p <- fileset_at index ;; addItem (image_name_of p)).
  assert (Hrun : onRun s =
                 Eff.for_each (0 :: (Z.of_nat <$> seq 1 (length rest))) body s1).
  { unfold onRun, get_fileset, in_host.
    unfold Eff.bind at 1. cbn [Eff.gets]. unfold Eff.bind at 1. cbn [Eff.gets host].
    rewrite Hl. fold l. unfold InsertFileCombo.
    unfold Eff.bind, Eff.gets, Eff.modify, Eff.orelse, Eff.ret.
    cbn -[Eff.for_each range fileset_at addItem length]. fold s1.
    unfold range. rewrite Nat2Z.id. subst l. simpl length. simpl seq. done. }
  set (s2 := Eff.exec (onFileCombo 0)
               (set_FileComboBox {| Qt.items := [image_name_of path]; Qt.currentIndex := 0 |}
                  s1)).
  assert (Hfirst : body 0 s1 = (Eff.Ret tt, s2)).
  { unfold body, Eff.bind. rewrite (iv_fileset_at_run s1 l 0 path) by done.
    by rewrite iv_addItem_first. }
  destruct (iv_onFileCombo_run
              (set_FileComboBox {| Qt.items := [image_name_of path]; Qt.currentIndex := 0 |} s1)
              0 l path voxels) as (_ & H2c & H2v & H2n & _); [done|done|done|done|done|].
  fold s2 in H2c, H2v, H2n. simpl in H2v, H2n.
  destruct (iv_onFileCombo_nav 0
              (set_FileComboBox {| Qt.items := [image_name_of path]; Qt.currentIndex := 0 |} s1))
    as (H2t & H2f & H2b & _).
  fold s2 in H2t, H2f, H2b. simpl in H2t, H2f, H2b.
  pose (I := fun (k : nat) (x : state) =>
    host x = host s2 /\ currentVolumeNode x = currentVolumeNode s2 /\
    current_file x = 0 /\ fileset x = Some l /\
    Qt.items (FileComboBox x) <> [] /\ Qt.currentIndex (FileComboBox x) = 0).
  destruct (for_each_invariant I (Z.of_nat <$> seq 1 (length rest)) body) with (s := s2)
    as [Hr (K1 & K2 & K3 & K4 & K5 & K6)].
  - intros k index x Hk (A1 & A2 & A3 & A4 & A5 & A6).
    rewrite list_lookup_fmap in Hk.
    destruct (seq 1 (length rest) !! k) as [j|] eqn:Ej; [|done].
    apply lookup_seq in Ej as [-> Hlt]. injection Hk as <-.
    destruct (l !! (1 + k)%nat) as [p|] eqn:Ep.
    2:{ apply lookup_ge_None in Ep. subst l. simpl in Ep. lia. }
    unfold body, Eff.bind.
    rewrite (iv_fileset_at_run x l (Z.of_nat (S k)) p) by (done || by rewrite index_nat).
    rewrite iv_addItem_more by done. simpl. unfold I. simpl.
    split; [done|]. split_and!; try done. by destruct (Qt.items (FileComboBox x)).
  - unfold I. rewrite H2b. simpl. by split_and!.
  - unfold Eff.returns, Eff.exec. rewrite Hrun. cbn [Eff.for_each].
    replace ((body 0 ;;; Eff.for_each (Z.of_nat <$> seq 1 (length rest)) body) s1)
      with (Eff.for_each (Z.of_nat <$> seq 1 (length rest)) body s2)
      by (unfold Eff.bind; by rewrite Hfirst).
    destruct (Eff.for_each (Z.of_nat <$> seq 1 (length rest)) body s2) as [r s3].
    simpl in *. subst r. rewrite K1, K2. by split_and!.
Qed.

(** Property X7.  [ImplantVideoWidget.onRun] on an empty combo box, with an
    image folder whose name has none of the characters [*], [?] and [[]
    that [glob] reads as a pattern, and whose first entry that matches
    [*.nii.gz] (in sorted order) holds a volume: the first entry added
    makes the combo box emit [currentIndexChanged(0)], so the first file is
    loaded and shown: [onRun] returns with [current_file] and the index of
    the box [0], and the current volume node holds the thresholded voxels
    of the first file. *)
Theorem onRun_shows_first (s : state) (path : string) (rest : list string)
  (voxels : list Q) :
  Qt.items (FileComboBox s) = [] -> imageDirectory s <> "" ->
  Py.has_magic (imageDirectory s) = false ->
  Host.sorted_listing (host s) (imageDirectory s) "*.nii.gz" (path :: rest) ->
  Host.files (host s) !! path = Some (Host.Volume voxels) ->
  Eff.returns onRun s /\
  current_file (Eff.exec onRun s) = 0 /\
  Qt.currentIndex (FileComboBox (Eff.exec onRun s)) = 0 /\
  currentVolumeNode (Eff.exec onRun s) = Some (length (Host.nodes (host s))) /\
  Host.nodes (host (Eff.exec onRun s)) !! length (Host.nodes (host s)) =
    Some (Host.VolumeNode (Py.basename path) (extract voxels)).
Proof.
  intros He Hd Hmagic Hl. apply (iv_onRun_first s path rest); [done|done|].
  apply (sorted_listing_unique (host s) (imageDirectory s) "*.nii.gz"); [|done].
  by apply sorted_listing_glob.
Qed.

(** [onNext] past a file that is not the last one: the scene is emptied
    and the combo box is moved to the next entry. *)
Lemma iv_onNext_run (s : state) :
  current_file s + 1 <> total_files s ->
  onNext s =
  setCurrentIndex (current_file s + 1)
    (set_current_file (current_file s + 1) (set_host (Host.with_scene ∅ (host s)) s)).
Proof.
  intros Hn. unfold onNext, RemoveCurrentScene, in_host, Host.Clear.
  unfold Eff.bind, Eff.gets, Eff.modify. cbn -[setCurrentIndex Z.add].
  by rewrite (bool_decide_eq_false_2 _ Hn).
Qed.

(** Property X8.  [ImplantVideoWidget.onNext] before the last file, when
    the combo box has the next entry and does not show it yet, and the next
    file holds a volume: it returns, [current_file] and the index of the
    box are one more, the current volume node is a new node with the
    thresholded voxels of the next file, and the scene holds exactly the
    new volume, its property node and its display node. *)
Theorem onNext_shows_next (s : state) (l : list string) (path : string) (voxels : list Q) :
  imageDirectory s <> "" -> total_files s <> 0 -> current_file s + 1 <> total_files s ->
  0 <= current_file s + 1 < Qt.count (FileComboBox s) ->
  Qt.currentIndex (FileComboBox s) <> current_file s + 1 ->
  fileset s = Some l -> Py.index l (current_file s + 1) = Some path ->
  Host.files (host s) !! path = Some (Host.Volume voxels) ->
  Eff.returns onNext s /\
  current_file (Eff.exec onNext s) = current_file s + 1 /\
  Qt.currentIndex (FileComboBox (Eff.exec onNext s)) = current_file s + 1 /\
  currentVolumeNode (Eff.exec onNext s) = Some (length (Host.nodes (host s))) /\
  Host.nodes (host (Eff.exec onNext s)) !! length (Host.nodes (host s)) =
    Some (Host.VolumeNode (Py.basename path) (extract voxels)) /\
  Host.scene (host (Eff.exec onNext s)) =
    {[ (S (S (length (Host.nodes (host s))))) ]} ∪
    ({[ (S (length (Host.nodes (host s)))) ]} ∪ ({[ (length (Host.nodes (host s))) ]} ∪ ∅)).
Proof.
  intros Hd Ht Hn Hr Hi Hf Hp Hv.
  set (s1 := set_FileComboBox
               {| Qt.items := Qt.items (FileComboBox s);
                  Qt.currentIndex := current_file s + 1 |}
               (set_current_file (current_file s + 1)
                  (set_host (Host.with_scene ∅ (host s)) s))).
  assert (Hrun : onNext s = (Eff.Ret tt, Eff.exec (onFileCombo (current_file s + 1)) s1)).
  { rewrite iv_onNext_run by done.
    unfold setCurrentIndex, FileComboBox_do, Qt.setCurrentIndex. cbn [FileComboBox set_current_file
      set_host].
    destruct Hr as [Hr1 Hr2]. apply Z.leb_le in Hr1. apply Z.ltb_lt in Hr2.
    rewrite Hr1, Hr2. cbn [andb].
    by rewrite bool_decide_eq_false_2 by congruence. }
  destruct (iv_onFileCombo_run s1 (current_file s + 1) l path voxels)
    as (_ & H2c & H2v & H2n & H2s); [done..|].
  destruct (iv_onFileCombo_nav (current_file s + 1) s1) as (_ & _ & H2b & _).
  change (Host.nodes (host s1)) with (Host.nodes (host s)) in H2v, H2n, H2s.
  change (Host.scene (host s1)) with (∅ : gset nat) in H2s.
  change (currentVolumeNode s1) with (currentVolumeNode s) in H2s.
  unfold Eff.returns. rewrite (exec_run _ _ _ _ Hrun), Hrun. cbn [fst].
  rewrite H2c, H2v, H2n, H2s, H2b. split_and!; try done.
  by destruct (bool_decide (currentVolumeNode s = None)).
Qed.

(** Property X9.  [ImplantVideoWidget.onNext] before the last file, when
    the combo box already shows the entry of the next index (as after a
    second [onRun] following a pick): [setCurrentIndex] emits nothing, so
    no file is loaded; the scene is emptied and [current_file] incremented,
    and nothing else changes. *)
Theorem onNext_same_index (s : state) :
  current_file s + 1 <> total_files s ->
  0 <= current_file s + 1 < Qt.count (FileComboBox s) ->
  Qt.currentIndex (FileComboBox s) = current_file s + 1 ->
  Eff.returns onNext s /\
  Eff.exec onNext s =
    set_current_file (current_file s + 1) (set_host (Host.with_scene ∅ (host s)) s).
Proof.
  intros Hn Hr Hi.
  assert (Hrun : onNext s =
    (Eff.Ret tt,
     set_current_file (current_file s + 1) (set_host (Host.with_scene ∅ (host s)) s))).
  { rewrite iv_onNext_run by done.
    unfold setCurrentIndex, FileComboBox_do, Qt.setCurrentIndex. cbn [FileComboBox set_current_file
      set_host].
    destruct Hr as [Hr1 Hr2]. apply Z.leb_le in Hr1. apply Z.ltb_lt in Hr2.
    rewrite Hr1, Hr2. cbn [andb].
    by rewrite bool_decide_eq_true_2 by congruence. }
  unfold Eff.returns. by rewrite (exec_run _ _ _ _ Hrun), Hrun.
Qed.

End ImplantVideoMore.

(* ===================================================================== *)
(** * EasySegmentation: names without extension *)
(* ===================================================================== *)

Section EasySegmentationNames.
Import EasySegmentation.

(** A cut is a prefix. *)
Lemma cut_at_type_prefix (types : list string) (file_basename : string) :
  exists rest, file_basename = cut_at_type types file_basename +:+ rest.
Proof.
  induction types as [|ty types IH]; cbn [cut_at_type].
  - exists "". by rewrite app_nil_r_str.
  - case_bool_decide; [|done]. eexists. unfold Py.slice_to. symmetry. apply take_drop_str.
Qed.

(** Property X10.  The result of
    [EasySegmentationWidget.find_basename_wo_extension] is a prefix of the
    basename of the path. *)
Theorem find_basename_wo_extension_prefix (filepath : string) :
  exists rest, Py.basename filepath = find_basename_wo_extension filepath +:+ rest.
Proof. apply cut_at_type_prefix. Qed.

(** Property X11.  In [find_basename_wo_extension] the third file type,
    [*.nii.gz], never decides: the result is the one of the loop over
    [*.nrrd] and [*.nii] alone, since a name in which [.nii.gz] occurs is
    cut at [.nrrd] or at its first [.nii] before. *)
Theorem find_basename_wo_extension_two_types (filepath : string) :
  find_basename_wo_extension filepath =
  cut_at_type ["*.nrrd"; "*.nii"] (Py.basename filepath).
Proof. apply cut_two_types. Qed.

(** Property X12.  [find_basename_wo_extension] of a path whose basename
    contains neither [.nrrd] nor [.nii] is the basename, unchanged. *)
Theorem find_basename_wo_extension_other (filepath : string) :
  Py.contains ".nrrd" (Py.basename filepath) = false ->
  Py.contains ".nii" (Py.basename filepath) = false ->
  find_basename_wo_extension filepath = Py.basename filepath.
Proof.
  intros H1 H2. unfold find_basename_wo_extension. rewrite cut_two_types.
  apply contains_find in H1, H2. cbn [cut_at_type].
  change (Py.slice_from "*.nrrd" 1) with ".nrrd".
  change (Py.slice_from "*.nii" 1) with ".nii".
  by rewrite !bool_decide_eq_false_2 by (by intros []).
Qed.

(** A text that starts with a dot is not found in a stem without dot, nor
    across its end. *)
Lemma find_nat_dotless (stem sub rest : string) :
  Py.contains "." stem = false ->
  Py.find_nat (String "." sub) (stem +:+ rest) =
  (fun i => (String.length stem + i)%nat) <$> Py.find_nat (String "." sub) rest.
Proof.
  induction stem as [|c stem IH]; intros Hc.
  - rewrite app_nil_l_str. by destruct (Py.find_nat (String "." sub) rest).
  - rewrite app_cons_str. unfold Py.contains in Hc. cbn [Py.find_nat Py.startswith] in Hc |- *.
    destruct (decide ("."%char = c)) as [->|Hne]; [done|].
    destruct (Py.find_nat "." stem) as [i|] eqn:E; [done|].
    rewrite IH by (unfold Py.contains; by rewrite E).
    destruct (Py.find_nat (String "." sub) rest); done.
Qed.

(** Property X13.  [find_basename_wo_extension] of a path whose basename is
    a stem without dot followed by [.nrrd], [.nii] or [.nii.gz] is the
    stem. *)
Theorem find_basename_wo_extension_stem (filepath stem ext : string) :
  Py.basename filepath = stem +:+ ext -> Py.contains "." stem = false ->
  ext ∈ [".nrrd"; ".nii"; ".nii.gz"] ->
  find_basename_wo_extension filepath = stem.
Proof.
  intros Hb Hs He. unfold find_basename_wo_extension. rewrite cut_two_types, Hb.
  cbn [cut_at_type].
  change (Py.slice_from "*.nrrd" 1) with ".nrrd".
  change (Py.slice_from "*.nii" 1) with ".nii".
  unfold Py.find. rewrite !find_nat_dotless by done.
  assert (Hcut : Py.slice_to (stem +:+ ext) (Z.of_nat (String.length stem + 0)) = stem).
  { rewrite Nat.add_0_r. apply slice_to_app. }
  set_unfold in He. destruct He as [->|[->|[->|[]]]].
  - change (Py.find_nat ".nrrd" ".nrrd") with (Some 0%nat). cbn [fmap option_fmap option_map].
    by rewrite bool_decide_eq_true_2 by lia.
  - change (Py.find_nat ".nrrd" ".nii") with (@None nat).
    change (Py.find_nat ".nii" ".nii") with (Some 0%nat). cbn [fmap option_fmap option_map].
    rewrite bool_decide_eq_false_2 by (by intros []).
    by rewrite bool_decide_eq_true_2 by lia.
  - change (Py.find_nat ".nrrd" ".nii.gz") with (@None nat).
    change (Py.find_nat ".nii" ".nii.gz") with (Some 0%nat). cbn [fmap option_fmap option_map].
    rewrite bool_decide_eq_false_2 by (by intros []).
    by rewrite bool_decide_eq_true_2 by lia.
Qed.

End EasySegmentationNames.

(* ===================================================================== *)
(** * EasySegmentation: the default source volume *)
(* ===================================================================== *)

Section EasySegmentationSource.
Import EasySegmentation.

(** The first view with a background volume decides, whatever foreground
    volume was seen before. *)
Lemma default_source_background (before after : list (option slice_composite))
  (compositeNode : slice_composite) (first : option string) :
  Forall (fun view => ~ has_background view) before ->
  has_background (Some compositeNode) ->
  default_source_from (before ++ Some compositeNode :: after) first =
  BackgroundVolumeID compositeNode.
Proof.
  intros Hb Hc. revert first. induction Hb as [|view before Hv _ IH]; intros first.
  - simpl in *. by rewrite Hc.
  - destruct view as [c|]; simpl in *; [|done].
    destruct (truthy (BackgroundVolumeID c)); [done|].
    by destruct (truthy (ForegroundVolumeID c) && negb (truthy first)).
Qed.

(** A foreground volume that was seen stays when no background volume
    follows. *)
Lemma default_source_kept (views : list (option slice_composite)) (first : option string) :
  Forall (fun view => ~ has_background view) views -> truthy first = true ->
  default_source_from views first = first.
Proof.
  intros Hb Hf. induction Hb as [|view views Hv _ IH]; [done|].
  destruct view as [c|]; simpl in *; [|done].
  destruct (truthy (BackgroundVolumeID c)); [done|].
  rewrite Hf. by rewrite andb_false_r.
Qed.

Lemma default_source_foreground (before after : list (option slice_composite))
  (compositeNode : slice_composite) (first : option string) :
  Forall (fun view => ~ has_background view) (before ++ Some compositeNode :: after) ->
  Forall (fun view => ~ has_foreground view) before ->
  has_foreground (Some compositeNode) -> truthy first = false ->
  default_source_from (before ++ Some compositeNode :: after) first =
  ForegroundVolumeID compositeNode.
Proof.
  intros Hb Hf Hc Hfirst. induction Hf as [|view before Hv _ IH].
  - simpl in *. inversion_clear Hb as [|? ? Hb1 Hb2]. simpl in Hb1.
    destruct (truthy (BackgroundVolumeID compositeNode)); [done|].
    rewrite Hc, Hfirst. simpl. by apply default_source_kept.
  - simpl in Hb. inversion_clear Hb as [|? ? Hb1 Hb2].
    destruct view as [c|]; simpl in *; [|by apply IH].
    destruct (truthy (BackgroundVolumeID c)); [done|].
    destruct (truthy (ForegroundVolumeID c)); [done|]. simpl. by apply IH.
Qed.

Lemma default_source_none (views : list (option slice_composite)) (first : option string) :
  Forall (fun view => ~ has_background view /\ ~ has_foreground view) views ->
  default_source_from views first = first.
Proof.
  intros H. induction H as [|view views [Hb Hf] _ IH]; [done|].
  destruct view as [c|]; simpl in *; [|done].
  destruct (truthy (BackgroundVolumeID c)); [done|].
  by destruct (truthy (ForegroundVolumeID c)).
Qed.

Lemma default_source_truthy (views : list (option slice_composite)) (first : option string) :
  truthy first = true \/ first = None ->
  truthy (default_source_from views first) = true \/ default_source_from views first = None.
Proof.
  revert first. induction views as [|view views IH]; intros first Hfirst; [done|].
  destruct view as [c|]; simpl; [|by apply IH].
  destruct (truthy (BackgroundVolumeID c)) eqn:Eb; [by left|].
  destruct (truthy (ForegroundVolumeID c)) eqn:Ef; simpl; [|by apply IH].
  destruct (truthy first) eqn:E; simpl; apply IH; [by left|by left].
Qed.

(** Property X14.  [EasySegmentationWidget.getDefaultSourceVolumeNodeID]
    returns the background volume of the first slice view that has one,
    whatever foreground volumes the views before it show. *)
Theorem getDefaultSourceVolumeNodeID_background
  (before after : list (option slice_composite)) (compositeNode : slice_composite) :
  Forall (fun view => ~ has_background view) before ->
  has_background (Some compositeNode) ->
  getDefaultSourceVolumeNodeID (before ++ Some compositeNode :: after) =
  BackgroundVolumeID compositeNode.
Proof. intros Hb Hc. by apply default_source_background. Qed.

(** Property X15.  When no slice view has a background volume,
    [getDefaultSourceVolumeNodeID] returns the foreground volume of the
    first slice view that has one. *)
Theorem getDefaultSourceVolumeNodeID_foreground
  (before after : list (option slice_composite)) (compositeNode : slice_composite) :
  Forall (fun view => ~ has_background view) (before ++ Some compositeNode :: after) ->
  Forall (fun view => ~ has_foreground view) before ->
  has_foreground (Some compositeNode) ->
  getDefaultSourceVolumeNodeID (before ++ Some compositeNode :: after) =
  ForegroundVolumeID compositeNode.
Proof. intros Hb Hf Hc. by apply default_source_foreground. Qed.

(** A foreground volume that was seen is returned unless a background
    volume follows. *)
Lemma default_source_seen (views : list (option slice_composite)) (first : option string) :
  truthy first = true -> truthy (default_source_from views first) = true.
Proof.
  revert first. induction views as [|view views IH]; intros first Hfirst; [done|].
  destruct view as [c|]; simpl; [|by apply IH].
  destruct (truthy (BackgroundVolumeID c)) eqn:Eb; [done|].
  rewrite Hfirst, andb_false_r. by apply IH.
Qed.

Lemma default_source_shown (views : list (option slice_composite)) (first : option string) :
  default_source_from views first = None ->
  Forall (fun view => ~ has_background view /\ ~ has_foreground view) views.
Proof.
  revert first. induction views as [|view views IH]; intros first Hn; [done|].
  destruct view as [c|]; simpl in Hn.
  2:{ constructor; [simpl; tauto|by eapply IH]. }
  destruct (truthy (BackgroundVolumeID c)) eqn:Eb; [by rewrite Hn in Eb|].
  destruct (truthy (ForegroundVolumeID c)) eqn:Ef; simpl in Hn.
  - destruct (truthy first) eqn:E; simpl in Hn.
    + pose proof (default_source_seen views first E) as Ht. by rewrite Hn in Ht.
    + pose proof (default_source_seen views _ Ef) as Ht. by rewrite Hn in Ht.
  - constructor; [|by eapply IH]. simpl. rewrite Eb, Ef. split; discriminate.
Qed.

(** Property X16.  [getDefaultSourceVolumeNodeID] returns [None] exactly
    when no slice view shows a volume, in the background or in the
    foreground; it never returns an empty id. *)
Theorem getDefaultSourceVolumeNodeID_none (views : list (option slice_composite)) :
  (getDefaultSourceVolumeNodeID views = None <->
   Forall (fun view => ~ has_background view /\ ~ has_foreground view) views) /\
  (truthy (getDefaultSourceVolumeNodeID views) = true \/
   getDefaultSourceVolumeNodeID views = None).
Proof.
  split; [|apply default_source_truthy; by right].
  split; [apply default_source_shown|by apply default_source_none].
Qed.

End EasySegmentationSource.

(* ===================================================================== *)
(** * EasySegmentation: saving, resetting and thresholding at the edges *)
(* ===================================================================== *)

Section EasySegmentationMore.
Import EasySegmentation.

Variable float : string -> option Q.
Variable format : Q -> string.
Variable presets : list string.
Variable cast : Q -> Q.

#[local] Arguments find_basename_wo_extension : simpl never.
#[local] Arguments Host.ensured : simpl never.

(** Property X17.  [EasySegmentationWidget.onSave] without a destination
    folder or without files returns, and all it does is to display a
    warning: ['You must set destination folder'] when the folder is missing
    (also when there are no files either), ['You must load file first']
    otherwise.  Nothing is written. *)
Theorem onSave_guards (s : state) :
  saveDirectory s = "" \/ total_files s = 0 ->
  Eff.returns onSave s /\
  Eff.exec onSave s =
    set_host
      (Host.log
         (Host.Warning
            (if bool_decide (saveDirectory s = "") then "You must set destination folder"
             else "You must load file first"))
         (host s)) s.
Proof.
  intros H. unfold Eff.returns, Eff.exec, onSave, warningDisplay, in_host.
  unfold Eff.bind, Eff.gets, Eff.modify.
  destruct (bool_decide (saveDirectory s = "")) eqn:Hd; [done|].
  destruct H as [H|H]; [by rewrite bool_decide_eq_true_2 in Hd|].
  by rewrite (bool_decide_eq_true_2 _ H).
Qed.

(** The saving of the volume by [onSave]: the file that is written. *)
Lemma es_save_volume_file (s : state) (dir : string) (l : list (string * string))
  (i : Z) (pair : string * string) (volume : nat) (vname : string) (voxels : list Q) :
  fileset s = Some l -> Py.index l i = Some pair ->
  currentVolumeNode s = Some volume ->
  Host.nodes (host s) !! volume = Some (Host.VolumeNode vname voxels) ->
  save_volume dir i s =
    (Eff.Ret tt,
     set_host
       (Host.write
          (Py.join (Py.join dir "image") (find_basename_wo_extension pair.1 +:+ ".nii.gz"))
          (Host.Volume voxels) (Host.ensured (Py.join dir "image") (host s))) s).
Proof.
  intros Hf Hi Hvol Hnv. unfold save_volume.
  unfold Eff.bind at 1. rewrite es_ensure_directory_run.
  unfold export_or_save, fileset_at, attr, in_host, Host.exportNode, Host.get_node.
  run_with ltac:(rewrite ?Hf, ?Hi, ?Hvol, ?ensured_nodes, ?Hnv, ?if_same).
  reflexivity.
Qed.

(** Property X18.  [EasySegmentationWidget.onSave] with a destination
    folder, files, the image box checked and the segmentation box
    unchecked: it returns, and the voxels of the current volume node are
    in the file [<saveDirectory>/image/<name>.nii.gz], where [<name>] is
    [find_basename_wo_extension] of the image file of the current pair; no
    other file changes, the directory exists afterwards, and nodes, scene
    and messages are as before. *)
Theorem onSave_image (s : state) (l : list (string * string)) (pair : string * string)
  (volume : nat) (vname : string) (voxels : list Q) :
  saveDirectory s <> "" -> total_files s <> 0 ->
  checked (gui s ImageCheck) = true -> checked (gui s SegCheck) = false ->
  fileset s = Some l -> Py.index l (current_file s) = Some pair ->
  currentVolumeNode s = Some volume ->
  Host.nodes (host s) !! volume = Some (Host.VolumeNode vname voxels) ->
  Eff.returns onSave s /\
  Host.files (host (Eff.exec onSave s)) =
    <[Py.join (Py.join (saveDirectory s) "image")
        (find_basename_wo_extension pair.1 +:+ ".nii.gz") := Host.Volume voxels]>
      (Host.files (host s)) /\
  Host.path_exists (host (Eff.exec onSave s)) (Py.join (saveDirectory s) "image") = true /\
  Host.nodes (host (Eff.exec onSave s)) = Host.nodes (host s) /\
  Host.scene (host (Eff.exec onSave s)) = Host.scene (host s) /\
  Host.trace (host (Eff.exec onSave s)) = Host.trace (host s).
Proof.
  intros Hd Ht Hic Hsc Hf Hi Hvol Hnv.
  assert (Hrun : onSave s = save_volume (saveDirectory s) (current_file s) s).
  { unfold onSave, isChecked. unfold Eff.bind at 1 2. cbn [Eff.gets].
    rewrite (bool_decide_eq_false_2 _ Hd), (bool_decide_eq_false_2 _ Ht).
    unfold Eff.bind at 1 2. cbn [Eff.gets]. rewrite Hic.
    unfold Eff.bind, Eff.gets, Eff.ret.
    rewrite (es_save_volume_file s _ l _ pair volume vname voxels) by done.
    cbn [gui set_host]. by rewrite Hsc. }
  unfold Eff.returns, Eff.exec. rewrite Hrun.
  rewrite (es_save_volume_file s _ l _ pair volume vname voxels) by done.
  cbn [fst snd host set_host Host.files Host.write Host.with_files Host.nodes Host.scene
       Host.trace].
  rewrite ensured_files, ensured_nodes, ensured_scene, ensured_trace.
  split_and!; try done.
  pose proof (ensured_exists (Py.join (saveDirectory s) "image") (host s)) as He.
  unfold Host.path_exists in *. apply bool_decide_eq_true in He.
  apply bool_decide_eq_true_2.
  cbn [Host.files Host.dirs Host.write Host.with_files].
  apply elem_of_union in He as [He|He]; apply elem_of_union; [left|by right].
  rewrite dom_insert. apply elem_of_union. by right.
Qed.

(** The slot of the combo box when there are no files: at most the scene is
    emptied. *)
Lemma es_onFileCombo_no_files (index : Z) (s : state) :
  total_files s = 0 ->
  onFileCombo float format presets cast index s =
  (Eff.Ret tt,
   if bool_decide (editor_segmentationNode s = None) then s
   else set_editor_sourceVolumeNode None
          (set_editor_segmentationNode None (set_host (Host.with_scene ∅ (host s)) s))).
Proof.
  intros Ht. unfold onFileCombo, RemoveCurrentScene, scene_Clear, in_host, Host.Clear.
  unfold Eff.bind, Eff.gets, Eff.modify, Eff.ret.
  destruct (bool_decide (editor_segmentationNode s = None)); simpl;
    by rewrite (bool_decide_eq_true_2 _ Ht).
Qed.

Lemma bind_modify {S B} (f : S -> S) (k : unit -> Eff.M S B) (s : S) :
  Eff.bind (Eff.modify f) k s = k tt (f s).
Proof. done. Qed.

Lemma bind_run {S A B} (m : Eff.M S A) (k : A -> Eff.M S B) (s s' : S) (a : A) :
  m s = (Eff.Ret a, s') -> Eff.bind m k s = k a s'.
Proof. unfold Eff.bind. by intros ->. Qed.

(** [FileComboBox.clear()] when there are no files: the box is emptied,
    and the scene too when the box had a current entry and the editor a
    segmentation. *)
Lemma es_clear_run (s : state) :
  total_files s = 0 ->
  clear float format presets cast s =
  (Eff.Ret tt,
   if bool_decide (Qt.currentIndex (FileComboBox s) = -1) then set_FileComboBox Qt.empty s
   else if bool_decide (editor_segmentationNode s = None) then set_FileComboBox Qt.empty s
   else set_editor_sourceVolumeNode None
          (set_editor_segmentationNode None
             (set_host (Host.with_scene ∅ (host s)) (set_FileComboBox Qt.empty s)))).
Proof.
  intros Ht. unfold clear, FileComboBox_do, Qt.clear, emit, Eff.slot.
  destruct (bool_decide (Qt.currentIndex (FileComboBox s) = -1)); [done|].
  rewrite es_onFileCombo_no_files by done. simpl.
  by destruct (bool_decide (editor_segmentationNode s = None)).
Qed.

(** Property X19.  [EasySegmentationWidget.onReset] always returns;
    afterwards the three folders are empty, [fileset] is the empty list,
    the combo box is empty, the check boxes, texts, enabled and collapsed
    states that [setup] gives are back (image unchecked, segmentation
    checked, rendering unchecked, suffix checked, [0.1], [100000], [_seg],
    the two boxes, the apply button, the render button and the render
    widget disabled, both sections collapsed), the scene is empty and the
    editor has no node selected.  The threshold check box is left as it
    was, and so are the node objects, the files, and the attributes that
    name the current volume and segmentation. *)
Theorem onReset_widgets (s : state) :
  Eff.returns (onReset float format presets cast) s /\
  (saveDirectory (Eff.exec (onReset float format presets cast) s) = "" /\
   imageDirectory (Eff.exec (onReset float format presets cast) s) = "" /\
   segDirectory (Eff.exec (onReset float format presets cast) s) = "" /\
   fileset (Eff.exec (onReset float format presets cast) s) = Some [] /\
   FileComboBox (Eff.exec (onReset float format presets cast) s) = Qt.empty) /\
  (checked (gui (Eff.exec (onReset float format presets cast) s) ImageCheck) = false /\
   checked (gui (Eff.exec (onReset float format presets cast) s) SegCheck) = true /\
   checked (gui (Eff.exec (onReset float format presets cast) s) RenderCheck) = false /\
   checked (gui (Eff.exec (onReset float format presets cast) s) suffixButton) = true /\
   text (gui (Eff.exec (onReset float format presets cast) s) minBox) = "0.1" /\
   text (gui (Eff.exec (onReset float format presets cast) s) maxBox) = "100000" /\
   text (gui (Eff.exec (onReset float format presets cast) s) suffixBox) = "_seg" /\
   text (gui (Eff.exec (onReset float format presets cast) s) DirButton) = "" /\
   enabled (gui (Eff.exec (onReset float format presets cast) s) minBox) = false /\
   enabled (gui (Eff.exec (onReset float format presets cast) s) maxBox) = false /\
   enabled (gui (Eff.exec (onReset float format presets cast) s) ApplyButton) = false /\
   enabled (gui (Eff.exec (onReset float format presets cast) s) RenderButton) = false /\
   enabled (gui (Eff.exec (onReset float format presets cast) s) render) = false /\
   collapsed (gui (Eff.exec (onReset float format presets cast) s) editorCollapsibleButton) = true /\
   collapsed (gui (Eff.exec (onReset float format presets cast) s) renderCollapsibleButton) = true /\
   gui (Eff.exec (onReset float format presets cast) s) ThresholdCheck = gui s ThresholdCheck) /\
  (Host.scene (host (Eff.exec (onReset float format presets cast) s)) = ∅ /\
   editor_segmentationNode (Eff.exec (onReset float format presets cast) s) = None /\
   editor_sourceVolumeNode (Eff.exec (onReset float format presets cast) s) = None /\
   Host.nodes (host (Eff.exec (onReset float format presets cast) s)) = Host.nodes (host s) /\
   Host.files (host (Eff.exec (onReset float format presets cast) s)) = Host.files (host s) /\
   currentVolumeNode (Eff.exec (onReset float format presets cast) s) = currentVolumeNode s /\
   currentSegNode (Eff.exec (onReset float format presets cast) s) = currentSegNode s).
Proof.
  set (s1 := set_fileset (Some []) (set_segDirectory "" (set_imageDirectory ""
               (set_total_files 0 (set_current_file 0 (set_saveDirectory "" s)))))).
  assert (Hrun :
    onReset float format presets cast s =
      (setChecked ImageCheck false ;;;
       setChecked SegCheck true ;;;
       setChecked RenderCheck false ;;;
       setText minBox "0.1" ;;;
       setText maxBox "100000" ;;;
       setDisabled minBox true ;;;
       setDisabled maxBox true ;;;
       setDisabled ApplyButton true ;;;
       setText suffixBox "_seg" ;;;
       setChecked suffixButton true ;;;
       Eff.modify (set_needAddProperty true) ;;;
       Eff.modify (set_changeProperty false) ;;;
       setEnabled RenderButton false ;;;
       setEnabled render false ;;;
       d <- Eff.gets saveDirectory ;;
       setText DirButton d ;;;
       setCollapsed editorCollapsibleButton true ;;;
       setCollapsed renderCollapsibleButton true ;;;
       scene_Clear)
        (if bool_decide (Qt.currentIndex (FileComboBox s) = -1)
         then set_FileComboBox Qt.empty s1
         else if bool_decide (editor_segmentationNode s = None)
         then set_FileComboBox Qt.empty s1
         else set_editor_sourceVolumeNode None
                (set_editor_segmentationNode None
                   (set_host (Host.with_scene ∅ (host s1)) (set_FileComboBox Qt.empty s1))))).
  { unfold onReset. rewrite !bind_modify. fold s1.
    by rewrite (bind_run _ _ _ _ _ (es_clear_run s1 eq_refl)). }
  unfold Eff.returns, Eff.exec. rewrite Hrun. clear Hrun.
  destruct (bool_decide (Qt.currentIndex (FileComboBox s) = -1));
    [|destruct (bool_decide (editor_segmentationNode s = None))];
    subst s1; split_and!; vm_compute; reflexivity.
Qed.

(** Property X20.  [EasySegmentationWidget.onApply] with a current volume
    and a current segmentation when the text of the minimum or of the
    maximum box is not a number: it raises, after ['Segment_1'] was looked
    up; a segmentation without ['Segment_1'] is left with a new, empty
    segment of that name after its segments, one with it is unchanged.  The
    volume and the files are unchanged. *)
Theorem onApply_not_a_number (s : state) (seg volume : nat) (name vname : string)
  (r : option nat) (segments : list Host.segment) (voxels : list Q) :
  currentSegNode s = Some seg -> currentVolumeNode s = Some volume ->
  Host.nodes (host s) !! seg = Some (Host.SegmentationNode name r segments) ->
  Host.nodes (host s) !! volume = Some (Host.VolumeNode vname voxels) ->
  float (text (gui s minBox)) = None \/ float (text (gui s maxBox)) = None ->
  ~ Eff.returns (onApply float cast) s /\
  Host.nodes (host (Eff.exec (onApply float cast) s)) !! seg =
    Some (Host.SegmentationNode name r
            (if bool_decide (Host.segment_index "Segment_1" segments = None)
             then segments ++ [{| Host.segmentName := "Segment_1"; Host.labelmap := [] |}]
             else segments)) /\
  Host.nodes (host (Eff.exec (onApply float cast) s)) !! volume =
    Some (Host.VolumeNode vname voxels) /\
  Host.files (host (Eff.exec (onApply float cast) s)) = Host.files (host s).
Proof.
  intros Hseg Hvol Hns Hnv Hnan.
  assert (Hne : seg <> volume) by (intros ->; congruence).
  assert (Hlt : (seg < length (Host.nodes (host s)))%nat) by (by eapply lookup_lt_Some).
  unfold Eff.returns, Eff.exec, onApply, toPlainText, attr, in_host,
    Host.GetSegmentIdBySegmentName, Host.AddEmptySegment,
    Host.arrayFromSegmentBinaryLabelmap, Host.updateSegmentBinaryLabelmapFromArray,
    Host.arrayFromVolume, Host.segments_of, Host.set_segments, Host.get_node, Host.set_node.
  destruct (Host.segment_index "Segment_1" segments) as [k|] eqn:Hk.
  - destruct (segment_index_Some _ _ _ Hk) as (sg & Hsg & Hname).
    destruct (float (text (gui s minBox))) as [lo|] eqn:Hlo.
    + destruct Hnan as [Hnan|Hnan]; [done|].
      run_with ltac:(rewrite ?Hseg, ?Hvol, ?Hns, ?Hnv, ?Hlo, ?Hnan, ?Hk, ?Hsg, ?Hname).
      split_and!; try done. by intros [].
    + run_with ltac:(rewrite ?Hseg, ?Hvol, ?Hns, ?Hnv, ?Hlo, ?Hk, ?Hsg, ?Hname).
      split_and!; try done. by intros [].
  - destruct (float (text (gui s minBox))) as [lo|] eqn:Hlo.
    + destruct Hnan as [Hnan|Hnan]; [done|].
      run_with ltac:(rewrite ?Hseg, ?Hvol, ?Hns, ?Hnv, ?Hlo, ?Hnan, ?Hk).
      split_and!; try done. by intros [].
    + run_with ltac:(rewrite ?Hseg, ?Hvol, ?Hns, ?Hnv, ?Hlo, ?Hk).
      split_and!; try done. by intros [].
Qed.

(** The click on a checked render button at the start of [LoadFiles]: an
    enabled button is unchecked and the display node, when there is one,
    is hidden. *)
Lemma es_click_run (s : state) :
  exists s1,
    (if checked (gui s RenderButton) then RenderButton_click else Eff.ret tt) s =
      (Eff.Ret tt, s1) /\
    (imageDirectory s1 = imageDirectory s /\ segDirectory s1 = segDirectory s /\
     total_files s1 = total_files s /\ needAddProperty s1 = needAddProperty s /\
     changeProperty s1 = changeProperty s /\ currentVolumeNode s1 = currentVolumeNode s /\
     currentSegNode s1 = currentSegNode s) /\
    (Host.files (host s1) = Host.files (host s) /\
     Host.scene (host s1) = Host.scene (host s) /\
     Host.trace (host s1) = Host.trace (host s) /\
     length (Host.nodes (host s1)) = length (Host.nodes (host s))) /\
    (checked (gui s RenderButton) = true -> enabled (gui s RenderButton) = true ->
     checked (gui s1 RenderButton) = false /\
     forall d volume v p, displayNode s = Some d ->
       Host.nodes (host s) !! d = Some (Host.VolumeRenderingDisplayNode volume v p) ->
       Host.nodes (host s1) !! d = Some (Host.VolumeRenderingDisplayNode volume false p)).
Proof.
  destruct (checked (gui s RenderButton)) eqn:Hc.
  2:{ exists s. split; [done|]. split; [done|]. split; done. }
  unfold RenderButton_click, onRendering, isChecked, setChecked, update, in_host,
    Host.SetVisibility, Host.get_node, Host.set_node.
  unfold Eff.bind, Eff.gets, Eff.modify, Eff.slot, Eff.ret, Eff.orelse, Eff.raise.
  destruct (enabled (gui s RenderButton)) eqn:He.
  2:{ exists s. split; [done|]. split; [done|]. split; done. }
  eexists. split; [reflexivity|].
  cbn -[insert lookup]. rewrite Hc. cbn -[insert lookup].
  destruct (displayNode s) as [d|] eqn:Hd; cbn -[insert lookup];
    [destruct (Host.nodes (host s) !! d) as [[]|] eqn:Hn; cbn -[insert lookup]|];
    (split; [done|]); (split; [rewrite ?length_insert; done|]);
    intros _ _; (split; [by rewrite fn_lookup_insert|]);
    intros d' volume' v' p' Hd' Hn'; try done;
    injection Hd' as <-; rewrite Hn in Hn'; try done.
  injection Hn' as <- <- <-.
  apply list_lookup_insert_eq. by eapply lookup_lt_Some.
Qed.

(** Property X21.  [EasySegmentationWidget.LoadFiles] without an image
    folder or without files returns after one warning (['Please choose
    image folder'], or the message that names the two folders); files,
    scene, number of node objects and the current nodes are as before,
    [needAddProperty] is set and [changeProperty] cleared.  A render button
    that was checked and enabled has been clicked: it is unchecked and the
    display node, if there is one, is hidden. *)
Theorem LoadFiles_nothing_to_load (s : state) :
  imageDirectory s = "" \/ total_files s = 0 ->
  Eff.returns (LoadFiles float format presets cast) s /\
  Host.trace (host (Eff.exec (LoadFiles float format presets cast) s)) =
    Host.trace (host s) ++
    [Host.Warning (if bool_decide (imageDirectory s = "") then "Please choose image folder"
                   else no_file_message (imageDirectory s) (segDirectory s))] /\
  Host.files (host (Eff.exec (LoadFiles float format presets cast) s)) = Host.files (host s) /\
  Host.scene (host (Eff.exec (LoadFiles float format presets cast) s)) = Host.scene (host s) /\
  length (Host.nodes (host (Eff.exec (LoadFiles float format presets cast) s))) =
    length (Host.nodes (host s)) /\
  currentVolumeNode (Eff.exec (LoadFiles float format presets cast) s) = currentVolumeNode s /\
  currentSegNode (Eff.exec (LoadFiles float format presets cast) s) = currentSegNode s /\
  needAddProperty (Eff.exec (LoadFiles float format presets cast) s) = true /\
  changeProperty (Eff.exec (LoadFiles float format presets cast) s) = false /\
  (checked (gui s RenderButton) = true -> enabled (gui s RenderButton) = true ->
   checked (gui (Eff.exec (LoadFiles float format presets cast) s) RenderButton) = false /\
   forall d volume v p, displayNode s = Some d ->
     Host.nodes (host s) !! d = Some (Host.VolumeRenderingDisplayNode volume v p) ->
     Host.nodes (host (Eff.exec (LoadFiles float format presets cast) s)) !! d =
       Some (Host.VolumeRenderingDisplayNode volume false p)).
Proof.
  intros H.
  set (s2 := set_changeProperty false (set_needAddProperty true s)).
  destruct (es_click_run s2)
    as (s3 & Hclick & (Hd3 & Hg3 & Ht3 & Hn3 & Hp3 & Hv3 & Hs3) & (Hf3 & Hsc3 & Htr3 & Hl3) & Hb3).
  simpl in Hd3, Hg3, Ht3, Hn3, Hp3, Hv3, Hs3, Hf3, Hsc3, Htr3, Hl3, Hb3.
  assert (Hrun : LoadFiles float format presets cast s =
    (Eff.Ret tt,
     set_host (Host.log
                 (Host.Warning
                    (if bool_decide (imageDirectory s = "") then "Please choose image folder"
                     else no_file_message (imageDirectory s) (segDirectory s)))
                 (host s3)) s3)).
  { unfold LoadFiles.
    unfold Eff.bind at 1. cbn [Eff.modify]. unfold Eff.bind at 1. cbn [Eff.modify].
    unfold Eff.bind at 1, isChecked at 1. cbn [Eff.gets]. fold s2.
    unfold Eff.bind at 1. rewrite Hclick.
    unfold warningDisplay, in_host. unfold Eff.bind, Eff.gets, Eff.modify.
    rewrite Hd3, Ht3.
    destruct (bool_decide (imageDirectory s = "")) eqn:Hd; [done|].
    destruct H as [H|H]; [by rewrite bool_decide_eq_true_2 in Hd|].
    rewrite (bool_decide_eq_true_2 _ H). by rewrite Hg3. }
  unfold Eff.returns, Eff.exec. rewrite Hrun. cbn [fst snd].
  cbn [host set_host Host.log Host.trace Host.with_trace Host.files Host.scene Host.nodes
       currentVolumeNode currentSegNode needAddProperty changeProperty gui].
  rewrite Htr3, Hf3, Hsc3, Hl3, Hv3, Hs3, Hn3, Hp3. by split_and!.
Qed.

(** [InsertFileCombo] appends the names of the image files, in their
    order. *)
Lemma es_InsertFileCombo_items (s : state) (l : list (string * string)) :
  fileset s = Some l -> total_files s = Z.of_nat (length l) -> current_file s = 0 ->
  Qt.items (FileComboBox (Eff.exec (InsertFileCombo float format presets cast) s)) =
  Qt.items (FileComboBox s) ++ ((fun pair => find_basename_wo_extension pair.1) <$> l).
Proof.
  intros Hf Ht Hc. unfold Eff.exec.
  set (body := fun index : Z =>
    pair <- fileset_at index ;;
    addItem float format presets cast (find_basename_wo_extension pair.1)).
  change (InsertFileCombo float format presets cast s) with
    (Eff.for_each (range (total_files s)) body s).
  pose (I := fun (k : nat) (s1 : state) =>
    total_files s1 = total_files s /\ fileset s1 = fileset s /\ current_file s1 = 0 /\
    Qt.items (FileComboBox s1) =
      Qt.items (FileComboBox s) ++
      ((fun pair => find_basename_wo_extension pair.1) <$> take k l)).
  destruct (for_each_invariant I (range (total_files s)) body) with (s := s) as [Hr Hi].
  - intros k x s1 Hk (H1 & H2 & H3 & H4). apply es_range_lookup in Hk as [-> Hk].
    destruct (l !! k) as [pair|] eqn:E.
    2:{ apply lookup_ge_None in E. lia. }
    unfold body, Eff.bind. rewrite (es_fileset_at_run s1 l (Z.of_nat k) pair);
      [|congruence|by rewrite index_nat].
    unfold addItem.
    pose proof (es_FileComboBox_do_spec float format presets cast
                  (fun c => Qt.addItem c (find_basename_wo_extension pair.1)) s1)
      as (Hr & Ht' & Hf' & Hb' & Hc').
    unfold Eff.exec in *. split; [done|]. unfold I. rewrite Ht', Hf', Hb', Hc'.
    split_and!; [done|congruence| |].
    + destruct (Qt.addItem (FileComboBox s1) (find_basename_wo_extension pair.1)).2
        as [j|] eqn:Ej; [|done].
      apply addItem_signal in Ej as ->. by case_bool_decide.
    + rewrite addItem_items, H4, (take_S_r l k pair) by done.
      by rewrite fmap_app, app_assoc.
  - unfold I. split_and!; try done. simpl. by rewrite app_nil_r.
  - rewrite es_length_range in Hi. destruct Hi as (H1 & H2 & H3 & H4).
    rewrite H4, Ht, Nat2Z.id, firstn_all. done.
Qed.

(** Property X22.  [EasySegmentationWidget.onRun] appends to the combo box,
    after the entries it had, one entry per pair of [fileset], in order:
    [find_basename_wo_extension] of the image file of the pair. *)
Theorem onRun_combo_names (s : state) :
  exists l,
    fileset (Eff.exec (onRun float format presets cast) s) = Some l /\
    Qt.items (FileComboBox (Eff.exec (onRun float format presets cast) s)) =
      Qt.items (FileComboBox s) ++ ((fun pair => find_basename_wo_extension pair.1) <$> l).
Proof.
  set (l := pair_of (files_of (host s) (segDirectory s)) <$>
            files_of (host s) (imageDirectory s)).
  assert (Hrun : exists s1,
    onRun float format presets cast s = InsertFileCombo float format presets cast s1 /\
    fileset s1 = Some l /\ total_files s1 = Z.of_nat (length l) /\ current_file s1 = 0 /\
    FileComboBox s1 = FileComboBox s).
  { eexists. split.
    - unfold onRun.
      unfold Eff.bind at 1. cbn [Eff.gets]. unfold Eff.bind at 1. cbn [Eff.gets].
      unfold Eff.bind at 1. unfold in_host at 1. cbn [Eff.gets].
      unfold Eff.bind at 1. unfold in_host at 1. cbn [Eff.gets host set_host].
      unfold Eff.bind at 1. cbn [Eff.modify].
      unfold Eff.bind at 1.
      rewrite (es_pairing_loop _ _ _ []) by done. rewrite app_nil_l. fold l.
      unfold Eff.bind at 1. unfold attr at 1. cbn [fileset set_fileset Eff.orelse Eff.ret].
      unfold Eff.bind at 1. cbn [Eff.modify].
      unfold Eff.bind at 1. cbn [Eff.modify].
      unfold Eff.bind at 1. unfold setCollapsed, update. cbn [Eff.modify].
      reflexivity.
    - done. }
  destruct Hrun as (s1 & Hrun & Hf1 & Ht1 & Hc1 & Hb1).
  destruct (es_InsertFileCombo_spec float format presets cast s1 l) as (_ & _ & Hf & _); [done..|].
  exists l.
  replace (Eff.exec (onRun float format presets cast) s)
    with (Eff.exec (InsertFileCombo float format presets cast) s1)
    by (unfold Eff.exec; by rewrite Hrun).
  split; [by rewrite Hf|]. by rewrite (es_InsertFileCombo_items s1 l), Hb1.
Qed.

End EasySegmentationMore.

(* ===================================================================== *)
(** * EasySegmentation: the volume rendering of a loaded file *)
(* ===================================================================== *)

Lemma run_inv {S A} (X : Eff.outcome A * S) (P : S -> Prop) (a : A) :
  (forall r s', X = (r, s') -> r = Eff.Ret a /\ P s') ->
  exists s', X = (Eff.Ret a, s') /\ P s'.
Proof. destruct X as [r s']. intros H. destruct (H r s' eq_refl) as [-> HP]. eauto. Qed.

Lemma raises_not_returns {S A} (m : Eff.M S A) (s : S) (e : string) :
  (m s).1 = Eff.Raise e -> ~ Eff.returns m s.
Proof. unfold Eff.returns. intros ->. by intros []. Qed.

Section EasySegmentationRendering.
Import EasySegmentation.

Variable float : string -> option Q.
Variable format : Q -> string.
Variable presets : list string.
Variable cast : Q -> Q.

#[local] Arguments find_basename_wo_extension : simpl never.
#[local] Arguments array_max : simpl never.
#[local] Arguments assign_where : simpl never.
#[local] Arguments in_range : simpl never.

(** The volume rendering at the end of [LoadFiles], when there is a
    preset. *)
Lemma es_run_volume_rendering_run (s : state) (volume : nat) :
  presets <> [] ->
  exists s',
    run_volume_rendering presets volume s = (Eff.Ret tt, s') /\
    displayNode s' = Some (S (length (Host.nodes (host s)))) /\
    volumePropertyNode s' = Some (length (Host.nodes (host s))) /\
    Host.nodes (host s') !! S (length (Host.nodes (host s))) =
      Some (Host.VolumeRenderingDisplayNode volume (checked (gui s RenderCheck))
              (length (Host.nodes (host s)))) /\
    checked (gui s' RenderButton) = checked (gui s RenderCheck) /\
    enabled (gui s' RenderButton) = true /\ enabled (gui s' render) = true /\
    collapsed (gui s' renderCollapsibleButton) = false /\
    preset_nodes s' = seq (S (S (length (Host.nodes (host s))))) (length presets) /\
    (forall k name, presets !! k = Some name ->
       Host.nodes (host s') !! (S (S (length (Host.nodes (host s)))) + k)%nat =
         Some (Host.VolumePropertyNode (Some name))) /\
    currentPresetNode s' = Some (S (S (length (Host.nodes (host s))))) /\
    needAddProperty s' = false /\ editor_sourceVolumeNode s' = Some volume.
Proof.
  intros Hpre. apply run_inv. intros r s'.
  unfold run_volume_rendering.
  unfold setCollapsed, setEnabled, setChecked, isChecked, update, call, in_host,
    Host.CreateDefaultVolumeRenderingNodes, Host.GetVolumePropertyNode, Host.SetVisibility,
    Host.get_node, Host.set_node, Host.add_node.
  run_with idtac.
  match goal with |- context [Eff.for_each presets ?b ?s0] =>
    set (body := b); set (s1 := s0) end.
  set (p := length (Host.nodes (host s))).
  pose (I := fun (k : nat) (x : state) =>
    gui x = gui s1 /\ displayNode x = Some (S p) /\ volumePropertyNode x = Some p /\
    editor_sourceVolumeNode x = Some volume /\
    preset_nodes x = seq (S (S p)) k /\
    Host.nodes (host x) =
      ((Host.nodes (host s) ++ [Host.VolumePropertyNode None]) ++
       [Host.VolumeRenderingDisplayNode volume true p]) ++
      ((fun name => Host.VolumePropertyNode (Some name)) <$> take k presets)).
  destruct (for_each_invariant I presets body) with (s := s1)
    as [Hr (K1 & K2 & K3 & K4 & K5 & K6)].
  - intros k name x Hk (A1 & A2 & A3 & A4 & A5 & A6). subst body. unfold I, Host.AddPreset,
      Host.add_node.
    run_with idtac. split; [done|]. split_and!; try done.
    + rewrite A5, A6. rewrite !length_app, length_fmap, length_take. simpl.
      apply lookup_lt_Some in Hk. rewrite Nat.min_l by lia.
      change (S (S p) :: seq (S (S (S p))) k) with (seq (S (S p)) (S k)).
      rewrite seq_S. f_equal. f_equal. subst p. lia.
    + rewrite A6, (take_S_r presets k name) by done. by rewrite fmap_app, app_assoc.
  - subst I s1 p. cbn -[insert lookup]. rewrite !length_app. simpl.
    rewrite app_nil_r. split_and!; try done.
    f_equal. lia.
  - assert (G1 : gui s1 RenderCheck = gui s RenderCheck) by done.
    assert (G2 : enabled (gui s1 RenderButton) = true) by done.
    assert (G3 : enabled (gui s1 render) = true) by done.
    assert (G4 : collapsed (gui s1 renderCollapsibleButton) = false) by done.
    clearbody s1.
    destruct (Eff.for_each presets body s1) as [r0 s2]. simpl in Hr, K1, K2, K3, K4, K5, K6.
    subst r0. rewrite <-K1 in G1, G2, G3, G4.
    assert (Hfirst : Py.index (preset_nodes s2) 0 = Some (S (S p))).
    { rewrite K5. destruct presets; [done|]. apply index_zero. }
    assert (Hd : Host.nodes (host s2) !! length (Host.nodes (host s) ++ [Host.VolumePropertyNode None]) =
                 Some (Host.VolumeRenderingDisplayNode volume true p)).
    { rewrite K6. by node_lookup. }
    rewrite firstn_all in K6.
    run_with ltac:(rewrite ?Hfirst, ?G1, ?Hd).
    destruct (checked (gui s RenderCheck)) eqn:Hc;
      run_with ltac:(rewrite ?Hd); intros [= <- <-]; (split; [done|]);
      cbn -[insert lookup].
    all: rewrite ?fn_lookup_insert, ?fn_lookup_insert_ne by done.
    all: rewrite length_app; simpl length; rewrite Nat.add_1_r; fold p.
    all: split_and!; try done.
    all: try (apply list_lookup_insert_eq; rewrite K6, !length_app; simpl; lia).
    all: intros k name Hk; rewrite list_lookup_insert_ne by lia; rewrite K6.
    all: rewrite lookup_app_r by (rewrite !length_app; simpl; lia).
    all: rewrite !length_app; simpl length; fold p.
    all: replace (S (S (p + k)) - (p + 1 + 1))%nat with k by lia.
    all: by rewrite list_lookup_fmap, Hk.
Qed.

(** Without preset the volume rendering stops at the first preset node. *)
Lemma es_run_volume_rendering_no_preset (s : state) (volume : nat) :
  presets = [] ->
  (run_volume_rendering presets volume s).1 = Eff.Raise "IndexError".
Proof.
  intros ->. unfold run_volume_rendering.
  unfold setCollapsed, setEnabled, setChecked, isChecked, update, call, in_host,
    Host.CreateDefaultVolumeRenderingNodes, Host.GetVolumePropertyNode, Host.SetVisibility,
    Host.get_node, Host.set_node, Host.add_node.
  run_with idtac. done.
Qed.

#[local] Instance keeps_render_preorder : PreOrder keeps_render.
Proof. split; [done|]. intros s1 s2 s3. unfold keeps_render. congruence. Qed.

Lemma es_in_host_render {A} (m : Eff.M Host.t A) : Eff.preserves keeps_render (in_host m).
Proof. intros s. unfold Eff.exec, in_host. by destruct (m (host s)). Qed.

Lemma es_update_render (w : widget) (f : props -> props) :
  w <> RenderCheck -> Eff.preserves keeps_render (update w f).
Proof.
  intros Hw s. unfold Eff.exec, update, keeps_render. simpl.
  by rewrite fn_lookup_insert_ne.
Qed.

Ltac es_render_step :=
  lazymatch goal with
  | |- Eff.preserves _ (in_host _) => apply es_in_host_render
  | |- Eff.preserves _ (update _ _) => apply es_update_render; discriminate
  | |- Eff.preserves _ (Eff.modify _) => apply preserves_modify; intros ?; reflexivity
  | |- Eff.preserves _ _ => preserves_step
  end.

Lemma es_load_segmentation_render (pair : string * string) (image_name : string)
  (volume : nat) :
  Eff.preserves keeps_render (load_segmentation float format cast pair image_name volume).
Proof.
  unfold load_segmentation, apply_threshold, onThresholdCheck, setDisabled, setText,
    isChecked, toPlainText, call.
  repeat es_render_step.
Qed.

#[local] Arguments run_volume_rendering : simpl never.
#[local] Arguments load_segmentation : simpl never.

(** [LoadFiles] up to the volume rendering. *)
Lemma es_LoadFiles_rendering_stage (s : state) (l : list (string * string))
  (pair : string * string) (voxels : list Q) :
  imageDirectory s <> "" -> 0 < total_files s ->
  fileset s = Some l -> Py.index l (current_file s) = Some pair ->
  Host.files (host s) !! pair.1 = Some (Host.Volume voxels) ->
  (pair.2 <> "" -> exists segments,
     Host.files (host s) !! pair.2 = Some (Host.Segmentation segments)) ->
  (pair.2 = "" -> voxels <> []) ->
  (pair.2 = "" -> checked (gui s ThresholdCheck) = true ->
   forall m, array_max voxels = Some m ->
     is_Some (float (text (gui s minBox))) /\ is_Some (float (format m))) ->
  exists s5 volume,
    LoadFiles float format presets cast s = run_volume_rendering presets volume s5 /\
    currentVolumeNode s5 = Some volume /\ gui s5 RenderCheck = gui s RenderCheck.
Proof.
  intros Hd Ht Hf Hi Hv Hsegfile Hne Hfloat.
  assert (Ht' : total_files s <> 0) by lia.
  destruct (es_LoadFiles_run float format presets cast s l pair voxels Hd Ht' Hf Hi Hv)
    as (s4 & volume & Hrun & Hcv & Hnv & Hfiles & Hg).
  destruct (es_load_segmentation_stage float format cast s s4 pair voxels volume Hcv Hnv Hfiles Hg
              Hsegfile Hne Hfloat) as (s5 & Hls & seg & Hcv5 & _).
  exists s5, volume. split; [|split; [done|]].
  - rewrite Hrun. unfold Eff.bind. by rewrite Hls.
  - pose proof (es_load_segmentation_render pair (find_basename_wo_extension pair.1) volume s4)
      as Hr.
    unfold keeps_render in Hr. rewrite (exec_run _ _ _ _ Hls) in Hr.
    rewrite Hr. by apply Hg.
Qed.

(** Property X23.  The volume rendering of
    [EasySegmentationWidget.LoadFiles], with an image folder, files and a
    current pair that can be loaded (as for claim C4): [LoadFiles] returns
    exactly when there is a preset (without one it raises at
    [preset_nodes[0]]).  With presets, the loaded volume is the source
    volume of the editor; a new display node of that volume is
    [displayNode], its property node is [volumePropertyNode]; the display
    node is visible and the render button checked exactly when the
    rendering check box is checked; the render button and the render
    widget are enabled and the rendering section is open; [preset_nodes]
    holds one new property node per preset, in order, each with its
    preset; [currentPresetNode] is the first of them; [needAddProperty] is
    cleared. *)
Theorem LoadFiles_rendering (s : state) (l : list (string * string))
  (pair : string * string) (voxels : list Q) :
  imageDirectory s <> "" -> 0 < total_files s ->
  fileset s = Some l -> Py.index l (current_file s) = Some pair ->
  Host.files (host s) !! pair.1 = Some (Host.Volume voxels) ->
  (pair.2 <> "" -> exists segments,
     Host.files (host s) !! pair.2 = Some (Host.Segmentation segments)) ->
  (pair.2 = "" -> voxels <> []) ->
  (pair.2 = "" -> checked (gui s ThresholdCheck) = true ->
   forall m, array_max voxels = Some m ->
     is_Some (float (text (gui s minBox))) /\ is_Some (float (format m))) ->
  (Eff.returns (LoadFiles float format presets cast) s <-> presets <> []) /\
  (presets <> [] ->
   exists volume d p,
     currentVolumeNode (Eff.exec (LoadFiles float format presets cast) s) = Some volume /\
     editor_sourceVolumeNode (Eff.exec (LoadFiles float format presets cast) s) = Some volume /\
     displayNode (Eff.exec (LoadFiles float format presets cast) s) = Some d /\
     volumePropertyNode (Eff.exec (LoadFiles float format presets cast) s) = Some p /\
     Host.nodes (host (Eff.exec (LoadFiles float format presets cast) s)) !! d =
       Some (Host.VolumeRenderingDisplayNode volume (checked (gui s RenderCheck)) p) /\
     checked (gui (Eff.exec (LoadFiles float format presets cast) s) RenderButton) =
       checked (gui s RenderCheck) /\
     enabled (gui (Eff.exec (LoadFiles float format presets cast) s) RenderButton) = true /\
     enabled (gui (Eff.exec (LoadFiles float format presets cast) s) render) = true /\
     collapsed (gui (Eff.exec (LoadFiles float format presets cast) s) renderCollapsibleButton) =
       false /\
     length (preset_nodes (Eff.exec (LoadFiles float format presets cast) s)) = length presets /\
     (forall k name, presets !! k = Some name ->
        exists n,
          preset_nodes (Eff.exec (LoadFiles float format presets cast) s) !! k = Some n /\
          Host.nodes (host (Eff.exec (LoadFiles float format presets cast) s)) !! n =
            Some (Host.VolumePropertyNode (Some name))) /\
     currentPresetNode (Eff.exec (LoadFiles float format presets cast) s) =
       preset_nodes (Eff.exec (LoadFiles float format presets cast) s) !! 0%nat /\
     needAddProperty (Eff.exec (LoadFiles float format presets cast) s) = false).
Proof.
  intros Hd Ht Hf Hi Hv Hsegfile Hne Hfloat.
  destruct (es_LoadFiles_rendering_stage s l pair voxels Hd Ht Hf Hi Hv Hsegfile Hne Hfloat)
    as (s5 & volume & Hload & Hcv5 & Hg5).
  split.
  - split.
    + intros Hr Hpre.
      apply (raises_not_returns _ _ _ (es_run_volume_rendering_no_preset s5 volume Hpre)).
      by apply (returns_eq _ _ _ _ (eq_sym Hload)).
    + intros Hpre. apply (returns_eq _ _ _ _ Hload).
      by apply es_run_volume_rendering_returns.
  - intros Hpre.
    destruct (es_run_volume_rendering_run s5 volume Hpre)
      as (s6 & Hrun & R1 & R2 & R3 & R4 & R5 & R6 & R7 & R8 & R9 & R10 & R11 & R12).
    destruct (es_run_volume_rendering_loaded presets volume s5) as (K1 & _).
    rewrite (exec_run _ _ _ _ Hrun) in K1.
    rewrite (exec_eq _ _ _ _ (f_equal snd Hload)), (exec_run _ _ _ _ Hrun).
    exists volume, (S (length (Host.nodes (host s5)))), (length (Host.nodes (host s5))).
    split; [congruence|]. split; [done|]. split; [exact R1|]. split; [exact R2|].
    split; [by rewrite R3, Hg5|]. split; [by rewrite R4, Hg5|].
    split; [done|]. split; [done|]. split; [done|].
    split; [by rewrite R8, length_seq|].
    split.
    { intros k name Hk. eexists. split; [|by apply R9].
      rewrite R8. apply lookup_seq. split; [done|]. by eapply lookup_lt_Some. }
    split; [|done]. rewrite R10, R8. destruct presets; done.
Qed.

End EasySegmentationRendering.

(* ===================================================================== *)
(** * The properties above on the example states *)
(* ===================================================================== *)

Section ImplantVideoMoreWitnesses.
Import ImplantVideo.

Lemma onCreateVideo_guards_witness :
  Host.files (host (Eff.exec onCreateVideo (init iv_example_host))) =
    Host.files (host (init iv_example_host)) /\
  Eff.returns onCreateVideo (init iv_example_host) /\
  Host.trace (host (Eff.exec onCreateVideo (init iv_example_host))) =
    Host.trace (host (init iv_example_host)) ++
    [Host.Warning "Please choose destination folder"].
Proof.
  destruct (onCreateVideo_guards (init iv_example_host)) as (Hf & _ & _ & _ & Hw & _).
  - left. reflexivity.
  - split; [exact Hf|]. apply Hw. reflexivity.
Defined.

Lemma LoadFiles_guards_witness :
  Eff.returns LoadFiles (init iv_example_host) /\
  Eff.exec LoadFiles (init iv_example_host) =
    set_host
      (Host.log
         (Host.Warning
            (if bool_decide (imageDirectory (init iv_example_host) = "")
             then "Please choose image folder"
             else no_file_message (imageDirectory (init iv_example_host))
                    (segDirectory (init iv_example_host))))
         (host (init iv_example_host))) (init iv_example_host).
Proof. apply (LoadFiles_guards (init iv_example_host)). left. reflexivity. Defined.

Lemma onNext_without_files_witness :
  Eff.returns onNext (init iv_example_host) /\
  current_file (Eff.exec onNext (init iv_example_host)) =
    current_file (init iv_example_host) + 1 /\
  total_files (Eff.exec onNext (init iv_example_host)) = 0 /\
  Host.trace (host (Eff.exec onNext (init iv_example_host))) =
    Host.trace (host (init iv_example_host)).
Proof.
  apply (onNext_without_files (init iv_example_host)).
  - reflexivity.
  - vm_compute. discriminate.
Defined.

Lemma onFileCombo_shows_file_witness :
  Eff.returns (onFileCombo 1) iv_example_state /\
  current_file (Eff.exec (onFileCombo 1) iv_example_state) = 1 /\
  currentVolumeNode (Eff.exec (onFileCombo 1) iv_example_state) =
    Some (length (Host.nodes (host iv_example_state))) /\
  Host.nodes (host (Eff.exec (onFileCombo 1) iv_example_state))
    !! length (Host.nodes (host iv_example_state)) =
    Some (Host.VolumeNode (Py.basename "/d/b.nii.gz")
            (extract [1000 # 1; 2000 # 1; 3000 # 1]%Q)).
Proof.
  destruct (onFileCombo_shows_file iv_example_state 1 ["/d/a.nii.gz"; "/d/b.nii.gz"]
              "/d/b.nii.gz" [1000 # 1; 2000 # 1; 3000 # 1]%Q)
    as (H1 & H2 & H3 & H4 & _).
  - vm_compute. discriminate.
  - vm_compute. discriminate.
  - vm_compute. reflexivity.
  - vm_compute. reflexivity.
  - vm_compute. reflexivity.
  - split; [exact H1|]. split; [exact H2|]. split; [exact H3|exact H4].
Defined.

Lemma onRun_shows_first_witness :
  Eff.returns onRun iv_example_chosen /\
  current_file (Eff.exec onRun iv_example_chosen) = 0 /\
  Qt.currentIndex (FileComboBox (Eff.exec onRun iv_example_chosen)) = 0 /\
  currentVolumeNode (Eff.exec onRun iv_example_chosen) =
    Some (length (Host.nodes (host iv_example_chosen))) /\
  Host.nodes (host (Eff.exec onRun iv_example_chosen))
    !! length (Host.nodes (host iv_example_chosen)) =
    Some (Host.VolumeNode (Py.basename "/d/a.nii.gz") (extract [5 # 1]%Q)).
Proof.
  apply (onRun_shows_first iv_example_chosen "/d/a.nii.gz" ["/d/b.nii.gz"] [5 # 1]%Q).
  - vm_compute. reflexivity.
  - vm_compute. discriminate.
  - vm_compute. reflexivity.
  - replace ["/d/a.nii.gz"; "/d/b.nii.gz"]
      with (Py.sorted (Host.glob (host iv_example_chosen)
                         (Py.join (imageDirectory iv_example_chosen) "*.nii.gz")))
      by (vm_compute; reflexivity).
    apply sorted_listing_glob; vm_compute; reflexivity.
  - vm_compute. reflexivity.
Defined.

Lemma onNext_shows_next_witness :
  Eff.returns onNext iv_example_state /\
  current_file (Eff.exec onNext iv_example_state) = current_file iv_example_state + 1 /\
  Qt.currentIndex (FileComboBox (Eff.exec onNext iv_example_state)) =
    current_file iv_example_state + 1 /\
  currentVolumeNode (Eff.exec onNext iv_example_state) =
    Some (length (Host.nodes (host iv_example_state))) /\
  Host.nodes (host (Eff.exec onNext iv_example_state))
    !! length (Host.nodes (host iv_example_state)) =
    Some (Host.VolumeNode (Py.basename "/d/b.nii.gz")
            (extract [1000 # 1; 2000 # 1; 3000 # 1]%Q)).
Proof.
  destruct (onNext_shows_next iv_example_state ["/d/a.nii.gz"; "/d/b.nii.gz"]
              "/d/b.nii.gz" [1000 # 1; 2000 # 1; 3000 # 1]%Q)
    as (H1 & H2 & H3 & H4 & H5 & _).
  - vm_compute. discriminate.
  - vm_compute. discriminate.
  - vm_compute. discriminate.
  - vm_compute. split; [discriminate|reflexivity].
  - vm_compute. discriminate.
  - vm_compute. reflexivity.
  - vm_compute. reflexivity.
  - vm_compute. reflexivity.
  - split; [exact H1|]. split; [exact H2|]. split; [exact H3|]. split; [exact H4|exact H5].
Defined.

Lemma onNext_same_index_witness :
  Eff.returns onNext (Eff.exec onRun iv_example_second) /\
  Eff.exec onNext (Eff.exec onRun iv_example_second) =
    set_current_file (current_file (Eff.exec onRun iv_example_second) + 1)
      (set_host (Host.with_scene ∅ (host (Eff.exec onRun iv_example_second)))
         (Eff.exec onRun iv_example_second)).
Proof.
  apply (onNext_same_index (Eff.exec onRun iv_example_second)).
  - vm_compute. discriminate.
  - vm_compute. split; [discriminate|reflexivity].
  - vm_compute. reflexivity.
Defined.

End ImplantVideoMoreWitnesses.

Section EasySegmentationMoreWitnesses.
Import EasySegmentation.

Lemma find_basename_wo_extension_other_witness :
  find_basename_wo_extension "/d/x.txt" = Py.basename "/d/x.txt".
Proof.
  apply (find_basename_wo_extension_other "/d/x.txt"); vm_compute; reflexivity.
Defined.

Lemma find_basename_wo_extension_stem_witness :
  find_basename_wo_extension "/d/b-1.nii.gz" = "b-1".
Proof.
  apply (find_basename_wo_extension_stem "/d/b-1.nii.gz" "b-1" ".nii.gz").
  - vm_compute. reflexivity.
  - vm_compute. reflexivity.
  - apply elem_of_cons. right. apply elem_of_cons. right. apply elem_of_cons. by left.
Defined.

Lemma getDefaultSourceVolumeNodeID_background_witness :
  getDefaultSourceVolumeNodeID
    ([None; Some {| BackgroundVolumeID := None; ForegroundVolumeID := Some "vtkMRMLScalarVolumeNode2" |}] ++
     Some {| BackgroundVolumeID := Some "vtkMRMLScalarVolumeNode1"; ForegroundVolumeID := None |} :: []) =
  BackgroundVolumeID
    {| BackgroundVolumeID := Some "vtkMRMLScalarVolumeNode1"; ForegroundVolumeID := None |}.
Proof.
  apply (getDefaultSourceVolumeNodeID_background
           [None; Some {| BackgroundVolumeID := None;
                          ForegroundVolumeID := Some "vtkMRMLScalarVolumeNode2" |}]
           []
           {| BackgroundVolumeID := Some "vtkMRMLScalarVolumeNode1";
              ForegroundVolumeID := None |}).
  - repeat constructor; simpl; [tauto|discriminate].
  - reflexivity.
Defined.

Lemma getDefaultSourceVolumeNodeID_foreground_witness :
  getDefaultSourceVolumeNodeID
    ([None; Some {| BackgroundVolumeID := Some ""; ForegroundVolumeID := None |}] ++
     Some {| BackgroundVolumeID := None; ForegroundVolumeID := Some "vtkMRMLScalarVolumeNode2" |} ::
     [Some {| BackgroundVolumeID := None; ForegroundVolumeID := Some "vtkMRMLScalarVolumeNode3" |}]) =
  ForegroundVolumeID
    {| BackgroundVolumeID := None; ForegroundVolumeID := Some "vtkMRMLScalarVolumeNode2" |}.
Proof.
  apply (getDefaultSourceVolumeNodeID_foreground
           [None; Some {| BackgroundVolumeID := Some ""; ForegroundVolumeID := None |}]
           [Some {| BackgroundVolumeID := None;
                    ForegroundVolumeID := Some "vtkMRMLScalarVolumeNode3" |}]
           {| BackgroundVolumeID := None;
              ForegroundVolumeID := Some "vtkMRMLScalarVolumeNode2" |}).
  - repeat constructor; simpl; first [tauto|discriminate].
  - repeat constructor; simpl; first [tauto|discriminate].
  - reflexivity.
Defined.

Lemma onSave_guards_witness :
  Eff.returns onSave (init 5 6 es_example_host) /\
  Eff.exec onSave (init 5 6 es_example_host) =
    set_host
      (Host.log
         (Host.Warning
            (if bool_decide (saveDirectory (init 5 6 es_example_host) = "")
             then "You must set destination folder" else "You must load file first"))
         (host (init 5 6 es_example_host))) (init 5 6 es_example_host).
Proof. apply (onSave_guards (init 5 6 es_example_host)). left. reflexivity. Defined.

Lemma onSave_image_witness :
  Eff.returns onSave
    (Eff.exec (setChecked ImageCheck true ;;; setChecked SegCheck false) es_example_state) /\
  Host.files
    (host (Eff.exec onSave
             (Eff.exec (setChecked ImageCheck true ;;; setChecked SegCheck false)
                es_example_state)))
    !! "/out/image/a.nii.seg.nii.gz" = Some (Host.Volume [5 # 1]%Q).
Proof.
  destruct (onSave_image
              (Eff.exec (setChecked ImageCheck true ;;; setChecked SegCheck false)
                 es_example_state)
              [("/d/a.nii.seg.nrrd", ""); ("/d/b-1.nii.gz", "/s/b_1_seg.nrrd")]
              ("/d/a.nii.seg.nrrd", "") 0%nat "a.nii.seg" [5 # 1]%Q)
    as (Hr & Hfile & _).
  - vm_compute. discriminate.
  - vm_compute. discriminate.
  - vm_compute. reflexivity.
  - vm_compute. reflexivity.
  - vm_compute. reflexivity.
  - vm_compute. reflexivity.
  - vm_compute. reflexivity.
  - vm_compute. reflexivity.
  - split; [exact Hr|]. rewrite Hfile.
    change (Py.join (Py.join (saveDirectory _) "image") _) with "/out/image/a.nii.seg.nii.gz".
    apply lookup_insert_eq.
Defined.

Lemma onApply_not_a_number_witness :
  ~ Eff.returns (onApply es_example_float es_example_cast)
      (Eff.exec (setText minBox "abc") es_example_state) /\
  Host.nodes (host (Eff.exec (onApply es_example_float es_example_cast)
                      (Eff.exec (setText minBox "abc") es_example_state))) !! 1%nat =
    Some (Host.SegmentationNode "a.nii.seg" (Some 0%nat)
            (if bool_decide (Host.segment_index "Segment_1" [] = None)
             then [] ++ [{| Host.segmentName := "Segment_1"; Host.labelmap := [] |}]
             else [])).
Proof.
  destruct (onApply_not_a_number es_example_float es_example_cast
              (Eff.exec (setText minBox "abc") es_example_state) 1%nat 0%nat "a.nii.seg"
              "a.nii.seg" (Some 0%nat) [] [5 # 1]%Q)
    as (Hr & Hn & _).
  - vm_compute. reflexivity.
  - vm_compute. reflexivity.
  - vm_compute. reflexivity.
  - vm_compute. reflexivity.
  - left. vm_compute. reflexivity.
  - split; [exact Hr|exact Hn].
Defined.

Lemma LoadFiles_nothing_to_load_witness :
  Eff.returns (LoadFiles es_example_float es_example_format es_example_presets es_example_cast)
    (init 5 6 es_example_host) /\
  Host.trace
    (host (Eff.exec (LoadFiles es_example_float es_example_format es_example_presets es_example_cast)
             (init 5 6 es_example_host))) =
    Host.trace (host (init 5 6 es_example_host)) ++
    [Host.Warning (if bool_decide (imageDirectory (init 5 6 es_example_host) = "")
                   then "Please choose image folder"
                   else no_file_message (imageDirectory (init 5 6 es_example_host))
                          (segDirectory (init 5 6 es_example_host)))].
Proof.
  destruct (LoadFiles_nothing_to_load es_example_float es_example_format es_example_presets es_example_cast
              (init 5 6 es_example_host)) as (Hr & Ht & _).
  - left. reflexivity.
  - split; [exact Hr|exact Ht].
Defined.

Lemma LoadFiles_rendering_witness :
  Eff.returns (LoadFiles es_example_float es_example_format es_example_presets es_example_cast)
    es_example_state /\
  length (preset_nodes
            (Eff.exec (LoadFiles es_example_float es_example_format es_example_presets es_example_cast)
               es_example_state)) = length es_example_presets /\
  checked (gui (Eff.exec (LoadFiles es_example_float es_example_format es_example_presets es_example_cast)
                  es_example_state) RenderButton) =
    checked (gui es_example_state RenderCheck).
Proof.
  destruct (LoadFiles_rendering es_example_float es_example_format es_example_presets es_example_cast
              es_example_state
              [("/d/a.nii.seg.nrrd", ""); ("/d/b-1.nii.gz", "/s/b_1_seg.nrrd")]
              ("/d/a.nii.seg.nrrd", "") [5 # 1]%Q)
    as (Hr & Hrest).
  - vm_compute. discriminate.
  - vm_compute. reflexivity.
  - vm_compute. reflexivity.
  - vm_compute. reflexivity.
  - vm_compute. reflexivity.
  - intros H. exfalso. apply H. reflexivity.
  - intros _. discriminate.
  - intros _ H. vm_compute in H. discriminate H.
  - destruct (Hrest ltac:(discriminate))
      as (volume & d & p & _ & _ & _ & _ & _ & H6 & _ & _ & _ & H10 & _).
    split; [apply Hr; discriminate|]. split; [exact H10|exact H6].
Defined.

End EasySegmentationMoreWitnesses.
